(** * yfinance-api: session bootstrap and response normalisation

    A shallow embedding of the Go package [yfinance_api]: the client
    singleton with its cookie and crumb handshake, the [Fetch*] entry
    points of a ticker, the module merge functions of [ticker_utils.go]
    and the time series transform [transformHistoricalData].

    Conventions of the embedding:
    - a nullable pointer [*T] is [option T]; a slice [[]T] is [list T];
    - [int] and [int64] are [Z] (no arithmetic is done on them), [float64]
      is the primitive binary64 [float];
    - [map[string]PriceData] is [gmap string PriceData.t];
    - a Go result [(T, error)] is the pair [T * option error];
    - each struct lives in a module of its own name so that fields keep
      their Go names (several structs share field names);
    - an index expression that would panic in Go is [Panics]. *)

From Stdlib Require Import ZArith Floats Lia.
From stdpp Require Import base option list strings gmap.

Local Open Scope string_scope.
Local Open Scope Z_scope.

(** ** Go basics *)

(** The text of a Go [error] value. *)
Definition error : Type := string.

(** [fmt.Errorf(prefix + "%s", arg)] and the like: the message is the
    literal text followed by the formatted argument. *)
Definition Errorf (prefix arg : string) : error := prefix +:+ arg.

(** Result of running Go code that may hit a run-time panic. *)
Inductive outcome (A : Type) : Type :=
| Returns (a : A)
| Panics (msg : string).
Arguments Returns {A} a.
Arguments Panics {A} msg.

#[global] Instance outcome_ret : MRet outcome := @Returns.
#[global] Instance outcome_bind : MBind outcome := fun A B k m =>
  match m with
  | Returns a => k a
  | Panics msg => Panics msg
  end.

(** The index expression [s[i]] on a slice: out of range panics. *)
Definition index {A : Type} (s : list A) (i : nat) : outcome A :=
  match s !! i with
  | Some a => Returns a
  | None => Panics "index out of range"
  end.

(** [strings.HasSuffix]:
    [len(s) >= len(suffix) && s[len(s)-len(suffix):] == suffix]. *)
Definition HasSuffix (s suffix : string) : bool :=
  (String.length suffix <=? String.length s)%nat &&
  String.eqb
    (String.substring (String.length s - String.length suffix) (String.length suffix) s)
    suffix.

(** ** Data model ([part_000]: the type declarations) *)

(** [PriceValue]: a quoted value with its raw float64 and its formatted forms. *)
Module PriceValue.
Record t : Type := mk {
  Raw : float;
  Fmt : string;
  LongFmt : string
}.
(** The Go zero value [PriceValue{}]. *)
Definition zero : t :=
  mk 0%float EmptyString EmptyString.
End PriceValue.

(** [YahooTickerInfo]: the price module of a quoteSummary result. *)
Module YahooTickerInfo.
Record t : Type := mk {
  MaxAge : Z;
  PreMarketChange : option PriceValue.t;
  PreMarketPrice : option PriceValue.t;
  PreMarketSource : string;
  PostMarketChangePercent : option PriceValue.t;
  PostMarketChange : option PriceValue.t;
  PostMarketTime : Z;
  PostMarketPrice : option PriceValue.t;
  PostMarketSource : string;
  RegularMarketChangePercent : option PriceValue.t;
  RegularMarketChange : option PriceValue.t;
  RegularMarketTime : Z;
  PriceHint : option PriceValue.t;
  RegularMarketPrice : option PriceValue.t;
  RegularMarketDayHigh : option PriceValue.t;
  RegularMarketDayLow : option PriceValue.t;
  RegularMarketVolume : option PriceValue.t;
  AverageDailyVolume10Day : option PriceValue.t;
  AverageDailyVolume3Month : option PriceValue.t;
  RegularMarketPreviousClose : option PriceValue.t;
  RegularMarketSource : string;
  RegularMarketOpen : option PriceValue.t;
  StrikePrice : option PriceValue.t;
  OpenInterest : option PriceValue.t;
  Exchange : string;
  ExchangeName : string;
  ExchangeDataDelayedBy : Z;
  MarketState : string;
  QuoteType : string;
  Symbol : string;
  UnderlyingSymbol : option string;
  ShortName : string;
  LongName : string;
  Currency : string;
  QuoteSourceName : string;
  CurrencySymbol : string;
  FromCurrency : option string;
  ToCurrency : option string;
  LastMarket : option string;
  Volume24Hr : option PriceValue.t;
  VolumeAllCurrencies : option PriceValue.t;
  CirculatingSupply : option PriceValue.t;
  MarketCap : option PriceValue.t
}.
(** The Go zero value [YahooTickerInfo{}]. *)
Definition zero : t :=
  mk 0 None None EmptyString None None 0 None EmptyString None None 0 None
     None None None None None None None EmptyString None None None
     EmptyString EmptyString 0 EmptyString EmptyString EmptyString None
     EmptyString EmptyString EmptyString EmptyString EmptyString None None
     None None None None None.
End YahooTickerInfo.

(** [PriceData]: one OHLCV bar; every component is a nullable pointer. *)
Module PriceData.
Record t : Type := mk {
  Open : option float;
  High : option float;
  Low : option float;
  Close : option float;
  Volume : option Z
}.
(** The Go zero value [PriceData{}]. *)
Definition zero : t :=
  mk None None None None None.
End PriceData.

(** [FinancialRatios]: the ratios record, also the shape of the financialData module. *)
Module FinancialRatios.
Record t : Type := mk {
  PriceToEarningsRatio : option PriceValue.t;
  PriceToBookRatio : option PriceValue.t;
  PriceToSalesRatio : option PriceValue.t;
  PriceToEbitda : option PriceValue.t;
  EnterpriseToRevenue : option PriceValue.t;
  EnterpriseToEbitda : option PriceValue.t;
  ReturnOnEquity : option PriceValue.t;
  ReturnOnAssets : option PriceValue.t;
  GrossMargins : option PriceValue.t;
  EbitdaMargins : option PriceValue.t;
  OperatingMargins : option PriceValue.t;
  ProfitMargins : option PriceValue.t;
  CurrentRatio : option PriceValue.t;
  QuickRatio : option PriceValue.t;
  DebtToEquity : option PriceValue.t;
  TotalDebtToCapital : option PriceValue.t;
  EarningsGrowth : option PriceValue.t;
  RevenueGrowth : option PriceValue.t;
  EarningsPerShare : option PriceValue.t;
  BookValuePerShare : option PriceValue.t;
  DividendRate : option PriceValue.t;
  DividendYield : option PriceValue.t
}.
(** The Go zero value [FinancialRatios{}]. *)
Definition zero : t :=
  mk None None None None None None None None None None None None None None
     None None None None None None None None.
Definition set_PriceToEarningsRatio (v : option PriceValue.t) (r : t) : t :=
  mk v (PriceToBookRatio r) (PriceToSalesRatio r) (PriceToEbitda r)
     (EnterpriseToRevenue r) (EnterpriseToEbitda r) (ReturnOnEquity r)
     (ReturnOnAssets r) (GrossMargins r) (EbitdaMargins r) (OperatingMargins
     r) (ProfitMargins r) (CurrentRatio r) (QuickRatio r) (DebtToEquity r)
     (TotalDebtToCapital r) (EarningsGrowth r) (RevenueGrowth r)
     (EarningsPerShare r) (BookValuePerShare r) (DividendRate r)
     (DividendYield r).
Definition set_PriceToBookRatio (v : option PriceValue.t) (r : t) : t :=
  mk (PriceToEarningsRatio r) v (PriceToSalesRatio r) (PriceToEbitda r)
     (EnterpriseToRevenue r) (EnterpriseToEbitda r) (ReturnOnEquity r)
     (ReturnOnAssets r) (GrossMargins r) (EbitdaMargins r) (OperatingMargins
     r) (ProfitMargins r) (CurrentRatio r) (QuickRatio r) (DebtToEquity r)
     (TotalDebtToCapital r) (EarningsGrowth r) (RevenueGrowth r)
     (EarningsPerShare r) (BookValuePerShare r) (DividendRate r)
     (DividendYield r).
Definition set_PriceToSalesRatio (v : option PriceValue.t) (r : t) : t :=
  mk (PriceToEarningsRatio r) (PriceToBookRatio r) v (PriceToEbitda r)
     (EnterpriseToRevenue r) (EnterpriseToEbitda r) (ReturnOnEquity r)
     (ReturnOnAssets r) (GrossMargins r) (EbitdaMargins r) (OperatingMargins
     r) (ProfitMargins r) (CurrentRatio r) (QuickRatio r) (DebtToEquity r)
     (TotalDebtToCapital r) (EarningsGrowth r) (RevenueGrowth r)
     (EarningsPerShare r) (BookValuePerShare r) (DividendRate r)
     (DividendYield r).
Definition set_ReturnOnEquity (v : option PriceValue.t) (r : t) : t :=
  mk (PriceToEarningsRatio r) (PriceToBookRatio r) (PriceToSalesRatio r)
     (PriceToEbitda r) (EnterpriseToRevenue r) (EnterpriseToEbitda r) v
     (ReturnOnAssets r) (GrossMargins r) (EbitdaMargins r) (OperatingMargins
     r) (ProfitMargins r) (CurrentRatio r) (QuickRatio r) (DebtToEquity r)
     (TotalDebtToCapital r) (EarningsGrowth r) (RevenueGrowth r)
     (EarningsPerShare r) (BookValuePerShare r) (DividendRate r)
     (DividendYield r).
Definition set_ReturnOnAssets (v : option PriceValue.t) (r : t) : t :=
  mk (PriceToEarningsRatio r) (PriceToBookRatio r) (PriceToSalesRatio r)
     (PriceToEbitda r) (EnterpriseToRevenue r) (EnterpriseToEbitda r)
     (ReturnOnEquity r) v (GrossMargins r) (EbitdaMargins r)
     (OperatingMargins r) (ProfitMargins r) (CurrentRatio r) (QuickRatio r)
     (DebtToEquity r) (TotalDebtToCapital r) (EarningsGrowth r)
     (RevenueGrowth r) (EarningsPerShare r) (BookValuePerShare r)
     (DividendRate r) (DividendYield r).
Definition set_GrossMargins (v : option PriceValue.t) (r : t) : t :=
  mk (PriceToEarningsRatio r) (PriceToBookRatio r) (PriceToSalesRatio r)
     (PriceToEbitda r) (EnterpriseToRevenue r) (EnterpriseToEbitda r)
     (ReturnOnEquity r) (ReturnOnAssets r) v (EbitdaMargins r)
     (OperatingMargins r) (ProfitMargins r) (CurrentRatio r) (QuickRatio r)
     (DebtToEquity r) (TotalDebtToCapital r) (EarningsGrowth r)
     (RevenueGrowth r) (EarningsPerShare r) (BookValuePerShare r)
     (DividendRate r) (DividendYield r).
Definition set_EbitdaMargins (v : option PriceValue.t) (r : t) : t :=
  mk (PriceToEarningsRatio r) (PriceToBookRatio r) (PriceToSalesRatio r)
     (PriceToEbitda r) (EnterpriseToRevenue r) (EnterpriseToEbitda r)
     (ReturnOnEquity r) (ReturnOnAssets r) (GrossMargins r) v
     (OperatingMargins r) (ProfitMargins r) (CurrentRatio r) (QuickRatio r)
     (DebtToEquity r) (TotalDebtToCapital r) (EarningsGrowth r)
     (RevenueGrowth r) (EarningsPerShare r) (BookValuePerShare r)
     (DividendRate r) (DividendYield r).
Definition set_OperatingMargins (v : option PriceValue.t) (r : t) : t :=
  mk (PriceToEarningsRatio r) (PriceToBookRatio r) (PriceToSalesRatio r)
     (PriceToEbitda r) (EnterpriseToRevenue r) (EnterpriseToEbitda r)
     (ReturnOnEquity r) (ReturnOnAssets r) (GrossMargins r) (EbitdaMargins r)
     v (ProfitMargins r) (CurrentRatio r) (QuickRatio r) (DebtToEquity r)
     (TotalDebtToCapital r) (EarningsGrowth r) (RevenueGrowth r)
     (EarningsPerShare r) (BookValuePerShare r) (DividendRate r)
     (DividendYield r).
Definition set_ProfitMargins (v : option PriceValue.t) (r : t) : t :=
  mk (PriceToEarningsRatio r) (PriceToBookRatio r) (PriceToSalesRatio r)
     (PriceToEbitda r) (EnterpriseToRevenue r) (EnterpriseToEbitda r)
     (ReturnOnEquity r) (ReturnOnAssets r) (GrossMargins r) (EbitdaMargins r)
     (OperatingMargins r) v (CurrentRatio r) (QuickRatio r) (DebtToEquity r)
     (TotalDebtToCapital r) (EarningsGrowth r) (RevenueGrowth r)
     (EarningsPerShare r) (BookValuePerShare r) (DividendRate r)
     (DividendYield r).
Definition set_CurrentRatio (v : option PriceValue.t) (r : t) : t :=
  mk (PriceToEarningsRatio r) (PriceToBookRatio r) (PriceToSalesRatio r)
     (PriceToEbitda r) (EnterpriseToRevenue r) (EnterpriseToEbitda r)
     (ReturnOnEquity r) (ReturnOnAssets r) (GrossMargins r) (EbitdaMargins r)
     (OperatingMargins r) (ProfitMargins r) v (QuickRatio r) (DebtToEquity r)
     (TotalDebtToCapital r) (EarningsGrowth r) (RevenueGrowth r)
     (EarningsPerShare r) (BookValuePerShare r) (DividendRate r)
     (DividendYield r).
Definition set_QuickRatio (v : option PriceValue.t) (r : t) : t :=
  mk (PriceToEarningsRatio r) (PriceToBookRatio r) (PriceToSalesRatio r)
     (PriceToEbitda r) (EnterpriseToRevenue r) (EnterpriseToEbitda r)
     (ReturnOnEquity r) (ReturnOnAssets r) (GrossMargins r) (EbitdaMargins r)
     (OperatingMargins r) (ProfitMargins r) (CurrentRatio r) v (DebtToEquity
     r) (TotalDebtToCapital r) (EarningsGrowth r) (RevenueGrowth r)
     (EarningsPerShare r) (BookValuePerShare r) (DividendRate r)
     (DividendYield r).
Definition set_DebtToEquity (v : option PriceValue.t) (r : t) : t :=
  mk (PriceToEarningsRatio r) (PriceToBookRatio r) (PriceToSalesRatio r)
     (PriceToEbitda r) (EnterpriseToRevenue r) (EnterpriseToEbitda r)
     (ReturnOnEquity r) (ReturnOnAssets r) (GrossMargins r) (EbitdaMargins r)
     (OperatingMargins r) (ProfitMargins r) (CurrentRatio r) (QuickRatio r) v
     (TotalDebtToCapital r) (EarningsGrowth r) (RevenueGrowth r)
     (EarningsPerShare r) (BookValuePerShare r) (DividendRate r)
     (DividendYield r).
Definition set_TotalDebtToCapital (v : option PriceValue.t) (r : t) : t :=
  mk (PriceToEarningsRatio r) (PriceToBookRatio r) (PriceToSalesRatio r)
     (PriceToEbitda r) (EnterpriseToRevenue r) (EnterpriseToEbitda r)
     (ReturnOnEquity r) (ReturnOnAssets r) (GrossMargins r) (EbitdaMargins r)
     (OperatingMargins r) (ProfitMargins r) (CurrentRatio r) (QuickRatio r)
     (DebtToEquity r) v (EarningsGrowth r) (RevenueGrowth r)
     (EarningsPerShare r) (BookValuePerShare r) (DividendRate r)
     (DividendYield r).
Definition set_EarningsGrowth (v : option PriceValue.t) (r : t) : t :=
  mk (PriceToEarningsRatio r) (PriceToBookRatio r) (PriceToSalesRatio r)
     (PriceToEbitda r) (EnterpriseToRevenue r) (EnterpriseToEbitda r)
     (ReturnOnEquity r) (ReturnOnAssets r) (GrossMargins r) (EbitdaMargins r)
     (OperatingMargins r) (ProfitMargins r) (CurrentRatio r) (QuickRatio r)
     (DebtToEquity r) (TotalDebtToCapital r) v (RevenueGrowth r)
     (EarningsPerShare r) (BookValuePerShare r) (DividendRate r)
     (DividendYield r).
Definition set_RevenueGrowth (v : option PriceValue.t) (r : t) : t :=
  mk (PriceToEarningsRatio r) (PriceToBookRatio r) (PriceToSalesRatio r)
     (PriceToEbitda r) (EnterpriseToRevenue r) (EnterpriseToEbitda r)
     (ReturnOnEquity r) (ReturnOnAssets r) (GrossMargins r) (EbitdaMargins r)
     (OperatingMargins r) (ProfitMargins r) (CurrentRatio r) (QuickRatio r)
     (DebtToEquity r) (TotalDebtToCapital r) (EarningsGrowth r) v
     (EarningsPerShare r) (BookValuePerShare r) (DividendRate r)
     (DividendYield r).
Definition set_EarningsPerShare (v : option PriceValue.t) (r : t) : t :=
  mk (PriceToEarningsRatio r) (PriceToBookRatio r) (PriceToSalesRatio r)
     (PriceToEbitda r) (EnterpriseToRevenue r) (EnterpriseToEbitda r)
     (ReturnOnEquity r) (ReturnOnAssets r) (GrossMargins r) (EbitdaMargins r)
     (OperatingMargins r) (ProfitMargins r) (CurrentRatio r) (QuickRatio r)
     (DebtToEquity r) (TotalDebtToCapital r) (EarningsGrowth r)
     (RevenueGrowth r) v (BookValuePerShare r) (DividendRate r)
     (DividendYield r).
Definition set_BookValuePerShare (v : option PriceValue.t) (r : t) : t :=
  mk (PriceToEarningsRatio r) (PriceToBookRatio r) (PriceToSalesRatio r)
     (PriceToEbitda r) (EnterpriseToRevenue r) (EnterpriseToEbitda r)
     (ReturnOnEquity r) (ReturnOnAssets r) (GrossMargins r) (EbitdaMargins r)
     (OperatingMargins r) (ProfitMargins r) (CurrentRatio r) (QuickRatio r)
     (DebtToEquity r) (TotalDebtToCapital r) (EarningsGrowth r)
     (RevenueGrowth r) (EarningsPerShare r) v (DividendRate r) (DividendYield
     r).
Definition set_DividendRate (v : option PriceValue.t) (r : t) : t :=
  mk (PriceToEarningsRatio r) (PriceToBookRatio r) (PriceToSalesRatio r)
     (PriceToEbitda r) (EnterpriseToRevenue r) (EnterpriseToEbitda r)
     (ReturnOnEquity r) (ReturnOnAssets r) (GrossMargins r) (EbitdaMargins r)
     (OperatingMargins r) (ProfitMargins r) (CurrentRatio r) (QuickRatio r)
     (DebtToEquity r) (TotalDebtToCapital r) (EarningsGrowth r)
     (RevenueGrowth r) (EarningsPerShare r) (BookValuePerShare r) v
     (DividendYield r).
Definition set_DividendYield (v : option PriceValue.t) (r : t) : t :=
  mk (PriceToEarningsRatio r) (PriceToBookRatio r) (PriceToSalesRatio r)
     (PriceToEbitda r) (EnterpriseToRevenue r) (EnterpriseToEbitda r)
     (ReturnOnEquity r) (ReturnOnAssets r) (GrossMargins r) (EbitdaMargins r)
     (OperatingMargins r) (ProfitMargins r) (CurrentRatio r) (QuickRatio r)
     (DebtToEquity r) (TotalDebtToCapital r) (EarningsGrowth r)
     (RevenueGrowth r) (EarningsPerShare r) (BookValuePerShare r)
     (DividendRate r) v.
End FinancialRatios.

(** [FinancialSummary]: the summary record, also the shape of the defaultKeyStatistics module. *)
Module FinancialSummary.
Record t : Type := mk {
  MaxAge : Z;
  MarketCap : option PriceValue.t;
  EnterpriseValue : option PriceValue.t;
  ForwardPE : option PriceValue.t;
  TrailingPE : option PriceValue.t;
  PegRatio : option PriceValue.t;
  PriceToSalesTrailing12Months : option PriceValue.t;
  PriceToBook : option PriceValue.t;
  Beta : option PriceValue.t;
  FiftyTwoWeekLow : option PriceValue.t;
  FiftyTwoWeekHigh : option PriceValue.t;
  FiftyDayAverage : option PriceValue.t;
  TwoHundredDayAverage : option PriceValue.t
}.
(** The Go zero value [FinancialSummary{}]. *)
Definition zero : t :=
  mk 0 None None None None None None None None None None None None.
Definition set_MarketCap (v : option PriceValue.t) (r : t) : t :=
  mk (MaxAge r) v (EnterpriseValue r) (ForwardPE r) (TrailingPE r) (PegRatio
     r) (PriceToSalesTrailing12Months r) (PriceToBook r) (Beta r)
     (FiftyTwoWeekLow r) (FiftyTwoWeekHigh r) (FiftyDayAverage r)
     (TwoHundredDayAverage r).
Definition set_ForwardPE (v : option PriceValue.t) (r : t) : t :=
  mk (MaxAge r) (MarketCap r) (EnterpriseValue r) v (TrailingPE r) (PegRatio
     r) (PriceToSalesTrailing12Months r) (PriceToBook r) (Beta r)
     (FiftyTwoWeekLow r) (FiftyTwoWeekHigh r) (FiftyDayAverage r)
     (TwoHundredDayAverage r).
Definition set_TrailingPE (v : option PriceValue.t) (r : t) : t :=
  mk (MaxAge r) (MarketCap r) (EnterpriseValue r) (ForwardPE r) v (PegRatio
     r) (PriceToSalesTrailing12Months r) (PriceToBook r) (Beta r)
     (FiftyTwoWeekLow r) (FiftyTwoWeekHigh r) (FiftyDayAverage r)
     (TwoHundredDayAverage r).
Definition set_PriceToSalesTrailing12Months (v : option PriceValue.t) (r : t) : t :=
  mk (MaxAge r) (MarketCap r) (EnterpriseValue r) (ForwardPE r) (TrailingPE
     r) (PegRatio r) v (PriceToBook r) (Beta r) (FiftyTwoWeekLow r)
     (FiftyTwoWeekHigh r) (FiftyDayAverage r) (TwoHundredDayAverage r).
Definition set_PriceToBook (v : option PriceValue.t) (r : t) : t :=
  mk (MaxAge r) (MarketCap r) (EnterpriseValue r) (ForwardPE r) (TrailingPE
     r) (PegRatio r) (PriceToSalesTrailing12Months r) v (Beta r)
     (FiftyTwoWeekLow r) (FiftyTwoWeekHigh r) (FiftyDayAverage r)
     (TwoHundredDayAverage r).
Definition set_Beta (v : option PriceValue.t) (r : t) : t :=
  mk (MaxAge r) (MarketCap r) (EnterpriseValue r) (ForwardPE r) (TrailingPE
     r) (PegRatio r) (PriceToSalesTrailing12Months r) (PriceToBook r) v
     (FiftyTwoWeekLow r) (FiftyTwoWeekHigh r) (FiftyDayAverage r)
     (TwoHundredDayAverage r).
End FinancialSummary.

(** [IncomeStatement] *)
Module IncomeStatement.
Record t : Type := mk {
  TotalRevenue : option PriceValue.t;
  GrossProfit : option PriceValue.t;
  OperatingIncome : option PriceValue.t;
  NetIncome : option PriceValue.t;
  Ebitda : option PriceValue.t;
  EarningsPerShare : option PriceValue.t;
  DilutedEPS : option PriceValue.t
}.
(** The Go zero value [IncomeStatement{}]. *)
Definition zero : t :=
  mk None None None None None None None.
Definition set_TotalRevenue (v : option PriceValue.t) (r : t) : t :=
  mk v (GrossProfit r) (OperatingIncome r) (NetIncome r) (Ebitda r)
     (EarningsPerShare r) (DilutedEPS r).
Definition set_GrossProfit (v : option PriceValue.t) (r : t) : t :=
  mk (TotalRevenue r) v (OperatingIncome r) (NetIncome r) (Ebitda r)
     (EarningsPerShare r) (DilutedEPS r).
Definition set_OperatingIncome (v : option PriceValue.t) (r : t) : t :=
  mk (TotalRevenue r) (GrossProfit r) v (NetIncome r) (Ebitda r)
     (EarningsPerShare r) (DilutedEPS r).
Definition set_NetIncome (v : option PriceValue.t) (r : t) : t :=
  mk (TotalRevenue r) (GrossProfit r) (OperatingIncome r) v (Ebitda r)
     (EarningsPerShare r) (DilutedEPS r).
Definition set_Ebitda (v : option PriceValue.t) (r : t) : t :=
  mk (TotalRevenue r) (GrossProfit r) (OperatingIncome r) (NetIncome r) v
     (EarningsPerShare r) (DilutedEPS r).
Definition set_EarningsPerShare (v : option PriceValue.t) (r : t) : t :=
  mk (TotalRevenue r) (GrossProfit r) (OperatingIncome r) (NetIncome r)
     (Ebitda r) v (DilutedEPS r).
End IncomeStatement.

(** [BalanceSheet] *)
Module BalanceSheet.
Record t : Type := mk {
  TotalAssets : option PriceValue.t;
  TotalLiabilities : option PriceValue.t;
  TotalEquity : option PriceValue.t;
  TotalDebt : option PriceValue.t;
  Cash : option PriceValue.t;
  ShortTermDebt : option PriceValue.t;
  LongTermDebt : option PriceValue.t;
  BookValuePerShare : option PriceValue.t
}.
(** The Go zero value [BalanceSheet{}]. *)
Definition zero : t :=
  mk None None None None None None None None.
Definition set_TotalAssets (v : option PriceValue.t) (r : t) : t :=
  mk v (TotalLiabilities r) (TotalEquity r) (TotalDebt r) (Cash r)
     (ShortTermDebt r) (LongTermDebt r) (BookValuePerShare r).
Definition set_TotalLiabilities (v : option PriceValue.t) (r : t) : t :=
  mk (TotalAssets r) v (TotalEquity r) (TotalDebt r) (Cash r) (ShortTermDebt
     r) (LongTermDebt r) (BookValuePerShare r).
Definition set_TotalEquity (v : option PriceValue.t) (r : t) : t :=
  mk (TotalAssets r) (TotalLiabilities r) v (TotalDebt r) (Cash r)
     (ShortTermDebt r) (LongTermDebt r) (BookValuePerShare r).
Definition set_TotalDebt (v : option PriceValue.t) (r : t) : t :=
  mk (TotalAssets r) (TotalLiabilities r) (TotalEquity r) v (Cash r)
     (ShortTermDebt r) (LongTermDebt r) (BookValuePerShare r).
Definition set_Cash (v : option PriceValue.t) (r : t) : t :=
  mk (TotalAssets r) (TotalLiabilities r) (TotalEquity r) (TotalDebt r) v
     (ShortTermDebt r) (LongTermDebt r) (BookValuePerShare r).
Definition set_BookValuePerShare (v : option PriceValue.t) (r : t) : t :=
  mk (TotalAssets r) (TotalLiabilities r) (TotalEquity r) (TotalDebt r) (Cash
     r) (ShortTermDebt r) (LongTermDebt r) v.
End BalanceSheet.

(** [CashFlow] *)
Module CashFlow.
Record t : Type := mk {
  OperatingCashFlow : option PriceValue.t;
  FreeCashFlow : option PriceValue.t;
  CapitalExpenditures : option PriceValue.t;
  DividendsPaid : option PriceValue.t
}.
(** The Go zero value [CashFlow{}]. *)
Definition zero : t :=
  mk None None None None.
Definition set_OperatingCashFlow (v : option PriceValue.t) (r : t) : t :=
  mk v (FreeCashFlow r) (CapitalExpenditures r) (DividendsPaid r).
Definition set_CapitalExpenditures (v : option PriceValue.t) (r : t) : t :=
  mk (OperatingCashFlow r) (FreeCashFlow r) v (DividendsPaid r).
Definition set_FreeCashFlow (v : option PriceValue.t) (r : t) : t :=
  mk (OperatingCashFlow r) v (CapitalExpenditures r) (DividendsPaid r).
Definition set_DividendsPaid (v : option PriceValue.t) (r : t) : t :=
  mk (OperatingCashFlow r) (FreeCashFlow r) (CapitalExpenditures r) v.
End CashFlow.

(** [FinancialData]: the five normalized records together. *)
Module FinancialData.
Record t : Type := mk {
  Ratios : FinancialRatios.t;
  Summary : FinancialSummary.t;
  IncomeStatement : IncomeStatement.t;
  BalanceSheet : BalanceSheet.t;
  CashFlow : CashFlow.t
}.
(** The Go zero value [FinancialData{}]. *)
Definition zero : t :=
  mk FinancialRatios.zero FinancialSummary.zero IncomeStatement.zero
     BalanceSheet.zero CashFlow.zero.
End FinancialData.

(** The anonymous struct behind the [summaryDetail] module of [YahooFinancialResponse]. *)
Module SummaryDetail.
Record t : Type := mk {
  MarketCap : option PriceValue.t;
  ForwardPE : option PriceValue.t;
  TrailingPE : option PriceValue.t;
  PriceToSalesTrailing12Months : option PriceValue.t;
  PriceToBook : option PriceValue.t;
  Beta : option PriceValue.t;
  DividendRate : option PriceValue.t;
  DividendYield : option PriceValue.t
}.
End SummaryDetail.

(** One element of [incomeStatementHistory.incomeStatementHistory]. *)
Module IncomeStatementEntry.
Record t : Type := mk {
  EndDate : option PriceValue.t;
  TotalRevenue : option PriceValue.t;
  GrossProfit : option PriceValue.t;
  OperatingIncome : option PriceValue.t;
  NetIncome : option PriceValue.t;
  Ebitda : option PriceValue.t
}.
End IncomeStatementEntry.

(** One element of [balanceSheetHistory.balanceSheetStatements]. *)
Module BalanceSheetEntry.
Record t : Type := mk {
  EndDate : option PriceValue.t;
  TotalAssets : option PriceValue.t;
  TotalLiab : option PriceValue.t;
  TotalStockholderEquity : option PriceValue.t;
  TotalDebt : option PriceValue.t;
  Cash : option PriceValue.t
}.
End BalanceSheetEntry.

(** One element of [cashflowStatementHistory.cashflowStatements]. *)
Module CashflowEntry.
Record t : Type := mk {
  EndDate : option PriceValue.t;
  TotalCashFromOperatingActivities : option PriceValue.t;
  CapitalExpenditures : option PriceValue.t;
  FreeCashFlow : option PriceValue.t;
  DividendsPaid : option PriceValue.t
}.
End CashflowEntry.

(** [DividendInfo]: dividend-related information for a stock. *)
Module DividendInfo.
Record t : Type := mk {
  DividendRate : option PriceValue.t;
  DividendYield : option PriceValue.t;
  DividendsPaid : option PriceValue.t;
  PayoutRatio : option PriceValue.t;
  ExDividendDate : option PriceValue.t;
  DividendDate : option PriceValue.t;
  FiveYearAvgDividendYield : option PriceValue.t
}.
(** The Go zero value [DividendInfo{}]. *)
Definition zero : t :=
  mk None None None None None None None.
Definition set_DividendRate (v : option PriceValue.t) (r : t) : t :=
  mk v (DividendYield r) (DividendsPaid r) (PayoutRatio r) (ExDividendDate r)
     (DividendDate r) (FiveYearAvgDividendYield r).
Definition set_DividendYield (v : option PriceValue.t) (r : t) : t :=
  mk (DividendRate r) v (DividendsPaid r) (PayoutRatio r) (ExDividendDate r)
     (DividendDate r) (FiveYearAvgDividendYield r).
Definition set_DividendsPaid (v : option PriceValue.t) (r : t) : t :=
  mk (DividendRate r) (DividendYield r) v (PayoutRatio r) (ExDividendDate r)
     (DividendDate r) (FiveYearAvgDividendYield r).
Definition set_PayoutRatio (v : option PriceValue.t) (r : t) : t :=
  mk (DividendRate r) (DividendYield r) (DividendsPaid r) v (ExDividendDate
     r) (DividendDate r) (FiveYearAvgDividendYield r).
Definition set_ExDividendDate (v : option PriceValue.t) (r : t) : t :=
  mk (DividendRate r) (DividendYield r) (DividendsPaid r) (PayoutRatio r) v
     (DividendDate r) (FiveYearAvgDividendYield r).
Definition set_DividendDate (v : option PriceValue.t) (r : t) : t :=
  mk (DividendRate r) (DividendYield r) (DividendsPaid r) (PayoutRatio r)
     (ExDividendDate r) v (FiveYearAvgDividendYield r).
Definition set_FiveYearAvgDividendYield (v : option PriceValue.t) (r : t) : t :=
  mk (DividendRate r) (DividendYield r) (DividendsPaid r) (PayoutRatio r)
     (ExDividendDate r) (DividendDate r) v.
End DividendInfo.

(** The [summaryDetail] module as [FetchDividendInfo] decodes it. *)
Module DividendSummaryDetail.
Record t : Type := mk {
  DividendRate : option PriceValue.t;
  DividendYield : option PriceValue.t;
  ExDividendDate : option PriceValue.t;
  DividendDate : option PriceValue.t;
  PayoutRatio : option PriceValue.t;
  FiveYearAvgDividendYield : option PriceValue.t
}.
End DividendSummaryDetail.

(** The [defaultKeyStatistics] module as [FetchDividendInfo] decodes it. *)
Module DividendKeyStatistics.
Record t : Type := mk {
  DividendRate : option PriceValue.t;
  DividendYield : option PriceValue.t;
  PayoutRatio : option PriceValue.t;
  FiveYearAvgDividendYield : option PriceValue.t
}.
End DividendKeyStatistics.

(** *** Raw responses *)

(** [YahooInfoResponse]: [quoteSummary.result[].price].  The [error]
    member of every response is decoded and never read; it is left out. *)
Module YahooInfoResponse.
Record result : Type := mkResult { Price : YahooTickerInfo.t }.
Record quoteSummary : Type := mkQuoteSummary { Result : list result }.
Record t : Type := mk { QuoteSummary : quoteSummary }.
End YahooInfoResponse.

(** The [incomeStatementHistory], [balanceSheetHistory] and
    [cashflowStatementHistory] modules: a struct around one slice. *)
Module IncomeStatementHistory.
Record t : Type := mk { IncomeStatementHistory : list IncomeStatementEntry.t }.
End IncomeStatementHistory.

Module BalanceSheetHistory.
Record t : Type := mk { BalanceSheetStatements : list BalanceSheetEntry.t }.
End BalanceSheetHistory.

Module CashflowStatementHistory.
Record t : Type := mk { CashflowStatements : list CashflowEntry.t }.
End CashflowStatementHistory.

(** One element of [YahooFinancialResponse.QuoteSummary.Result]: the
    anonymous struct that every [extract*] function of [ticker_utils.go]
    takes as [result]. *)
Module FinancialResult.
Record t : Type := mk {
  DefaultKeyStatistics : option FinancialSummary.t;
  FinancialData : option FinancialRatios.t;
  SummaryDetail : option SummaryDetail.t;
  IncomeStatementHistory : option IncomeStatementHistory.t;
  BalanceSheetHistory : option BalanceSheetHistory.t;
  CashflowStatementHistory : option CashflowStatementHistory.t
}.
End FinancialResult.

Module YahooFinancialResponse.
Record quoteSummary : Type := mkQuoteSummary { Result : list FinancialResult.t }.
Record t : Type := mk { QuoteSummary : quoteSummary }.
End YahooFinancialResponse.

(** The response that [FetchDividendInfo] declares inline. *)
Module DividendCashflowEntry.
Record t : Type := mk { DividendsPaid : option PriceValue.t }.
End DividendCashflowEntry.

Module DividendCashflowHistory.
Record t : Type := mk { CashflowStatements : list DividendCashflowEntry.t }.
End DividendCashflowHistory.

Module DividendResult.
Record t : Type := mk {
  SummaryDetail : option DividendSummaryDetail.t;
  DefaultKeyStatistics : option DividendKeyStatistics.t;
  CashflowStatementHistory : option DividendCashflowHistory.t
}.
End DividendResult.

Module DividendResponse.
Record quoteSummary : Type := mkQuoteSummary { Result : list DividendResult.t }.
Record t : Type := mk { QuoteSummary : quoteSummary }.
End DividendResponse.

(** [YahooHistoryResponse]: [chart.result[]] with the timestamps and the
    five parallel arrays of the first quote block.  The [meta] block is
    decoded and never read by the package; it is left out. *)
Module Quote.
Record t : Type := mk {
  Open : list (option float);
  High : list (option float);
  Low : list (option float);
  Close : list (option float);
  Volume : list (option Z)
}.
End Quote.

Module Indicators.
Record t : Type := mk { Quote : list Quote.t }.
End Indicators.

Module ChartResult.
Record t : Type := mk {
  Timestamp : list Z;
  Indicators : Indicators.t
}.
End ChartResult.

Module YahooHistoryResponse.
Record chart : Type := mkChart { Result : list ChartResult.t }.
Record t : Type := mk { Chart : chart }.
(** The zero value [YahooHistoryResponse{}]: a nil result slice. *)
Definition zero : t := mk (mkChart []).
End YahooHistoryResponse.

(** ** Module merge ([ticker_utils.go]) *)

(** The test [p == nil] on a pointer. *)
Definition is_nil {A : Type} (p : option A) : bool :=
  match p with
  | None => true
  | Some _ => false
  end.

(** [extractFinancialRatios]: [summaryDetail] first, then
    [financialData], then [defaultKeyStatistics] for the two fields that
    are still nil.  The receiver is not used by any [extract*] method and
    is dropped. *)
Definition extractFinancialRatios (result : FinancialResult.t) : FinancialRatios.t :=
  let ratios := FinancialRatios.zero in
  let ratios :=
    match FinancialResult.SummaryDetail result with
    | Some sd =>
        let ratios := FinancialRatios.set_PriceToEarningsRatio (SummaryDetail.TrailingPE sd) ratios in
        let ratios := FinancialRatios.set_PriceToBookRatio (SummaryDetail.PriceToBook sd) ratios in
        let ratios := FinancialRatios.set_PriceToSalesRatio (SummaryDetail.PriceToSalesTrailing12Months sd) ratios in
        let ratios := FinancialRatios.set_DividendRate (SummaryDetail.DividendRate sd) ratios in
        let ratios := FinancialRatios.set_DividendYield (SummaryDetail.DividendYield sd) ratios in
        ratios
    | None => ratios
    end in
  let ratios :=
    match FinancialResult.FinancialData result with
    | Some fd =>
        let ratios := FinancialRatios.set_ReturnOnEquity (FinancialRatios.ReturnOnEquity fd) ratios in
        let ratios := FinancialRatios.set_ReturnOnAssets (FinancialRatios.ReturnOnAssets fd) ratios in
        let ratios := FinancialRatios.set_GrossMargins (FinancialRatios.GrossMargins fd) ratios in
        let ratios := FinancialRatios.set_EbitdaMargins (FinancialRatios.EbitdaMargins fd) ratios in
        let ratios := FinancialRatios.set_OperatingMargins (FinancialRatios.OperatingMargins fd) ratios in
        let ratios := FinancialRatios.set_ProfitMargins (FinancialRatios.ProfitMargins fd) ratios in
        let ratios := FinancialRatios.set_CurrentRatio (FinancialRatios.CurrentRatio fd) ratios in
        let ratios := FinancialRatios.set_QuickRatio (FinancialRatios.QuickRatio fd) ratios in
        let ratios := FinancialRatios.set_DebtToEquity (FinancialRatios.DebtToEquity fd) ratios in
        let ratios := FinancialRatios.set_TotalDebtToCapital (FinancialRatios.TotalDebtToCapital fd) ratios in
        let ratios := FinancialRatios.set_EarningsGrowth (FinancialRatios.EarningsGrowth fd) ratios in
        let ratios := FinancialRatios.set_RevenueGrowth (FinancialRatios.RevenueGrowth fd) ratios in
        let ratios := FinancialRatios.set_EarningsPerShare (FinancialRatios.EarningsPerShare fd) ratios in
        let ratios := FinancialRatios.set_BookValuePerShare (FinancialRatios.BookValuePerShare fd) ratios in
        ratios
    | None => ratios
    end in
  let ratios :=
    match FinancialResult.DefaultKeyStatistics result with
    | Some dks =>
        let ratios :=
          if is_nil (FinancialRatios.PriceToEarningsRatio ratios)
          then FinancialRatios.set_PriceToEarningsRatio (FinancialSummary.TrailingPE dks) ratios
          else ratios in
        let ratios :=
          if is_nil (FinancialRatios.PriceToBookRatio ratios)
          then FinancialRatios.set_PriceToBookRatio (FinancialSummary.PriceToBook dks) ratios
          else ratios in
        ratios
    | None => ratios
    end in
  ratios.

(** [extractFinancialSummary]: [summary = *result.DefaultKeyStatistics]
    copies the whole struct; [summaryDetail] then fills the six fields
    that are still nil. *)
Definition extractFinancialSummary (result : FinancialResult.t) : FinancialSummary.t :=
  let summary := FinancialSummary.zero in
  let summary :=
    match FinancialResult.DefaultKeyStatistics result with
    | Some dks => dks
    | None => summary
    end in
  let summary :=
    match FinancialResult.SummaryDetail result with
    | Some sd =>
        let summary :=
          if is_nil (FinancialSummary.MarketCap summary)
          then FinancialSummary.set_MarketCap (SummaryDetail.MarketCap sd) summary
          else summary in
        let summary :=
          if is_nil (FinancialSummary.ForwardPE summary)
          then FinancialSummary.set_ForwardPE (SummaryDetail.ForwardPE sd) summary
          else summary in
        let summary :=
          if is_nil (FinancialSummary.TrailingPE summary)
          then FinancialSummary.set_TrailingPE (SummaryDetail.TrailingPE sd) summary
          else summary in
        let summary :=
          if is_nil (FinancialSummary.PriceToSalesTrailing12Months summary)
          then FinancialSummary.set_PriceToSalesTrailing12Months
                 (SummaryDetail.PriceToSalesTrailing12Months sd) summary
          else summary in
        let summary :=
          if is_nil (FinancialSummary.PriceToBook summary)
          then FinancialSummary.set_PriceToBook (SummaryDetail.PriceToBook sd) summary
          else summary in
        let summary :=
          if is_nil (FinancialSummary.Beta summary)
          then FinancialSummary.set_Beta (SummaryDetail.Beta sd) summary
          else summary in
        summary
    | None => summary
    end in
  summary.

(** [extractIncomeStatement]: the first entry of the history when the
    module is present and its slice is not empty; EPS from
    [financialData]. *)
Definition extractIncomeStatement (result : FinancialResult.t) : IncomeStatement.t :=
  let income := IncomeStatement.zero in
  let income :=
    match FinancialResult.IncomeStatementHistory result with
    | Some h =>
        match IncomeStatementHistory.IncomeStatementHistory h with
        | latest :: _ =>
            let income := IncomeStatement.set_TotalRevenue (IncomeStatementEntry.TotalRevenue latest) income in
            let income := IncomeStatement.set_GrossProfit (IncomeStatementEntry.GrossProfit latest) income in
            let income := IncomeStatement.set_OperatingIncome (IncomeStatementEntry.OperatingIncome latest) income in
            let income := IncomeStatement.set_NetIncome (IncomeStatementEntry.NetIncome latest) income in
            let income := IncomeStatement.set_Ebitda (IncomeStatementEntry.Ebitda latest) income in
            income
        | [] => income
        end
    | None => income
    end in
  let income :=
    match FinancialResult.FinancialData result with
    | Some fd => IncomeStatement.set_EarningsPerShare (FinancialRatios.EarningsPerShare fd) income
    | None => income
    end in
  income.

(** [extractBalanceSheet]: the first entry of the statements when the
    module is present and its slice is not empty; book value per share
    from [financialData]. *)
Definition extractBalanceSheet (result : FinancialResult.t) : BalanceSheet.t :=
  let balance := BalanceSheet.zero in
  let balance :=
    match FinancialResult.BalanceSheetHistory result with
    | Some h =>
        match BalanceSheetHistory.BalanceSheetStatements h with
        | latest :: _ =>
            let balance := BalanceSheet.set_TotalAssets (BalanceSheetEntry.TotalAssets latest) balance in
            let balance := BalanceSheet.set_TotalLiabilities (BalanceSheetEntry.TotalLiab latest) balance in
            let balance := BalanceSheet.set_TotalEquity (BalanceSheetEntry.TotalStockholderEquity latest) balance in
            let balance := BalanceSheet.set_TotalDebt (BalanceSheetEntry.TotalDebt latest) balance in
            let balance := BalanceSheet.set_Cash (BalanceSheetEntry.Cash latest) balance in
            balance
        | [] => balance
        end
    | None => balance
    end in
  let balance :=
    match FinancialResult.FinancialData result with
    | Some fd => BalanceSheet.set_BookValuePerShare (FinancialRatios.BookValuePerShare fd) balance
    | None => balance
    end in
  balance.

(** [extractCashFlow]: the first entry of the statements when the module
    is present and its slice is not empty. *)
Definition extractCashFlow (result : FinancialResult.t) : CashFlow.t :=
  let cashflow := CashFlow.zero in
  let cashflow :=
    match FinancialResult.CashflowStatementHistory result with
    | Some h =>
        match CashflowStatementHistory.CashflowStatements h with
        | latest :: _ =>
            let cashflow := CashFlow.set_OperatingCashFlow (CashflowEntry.TotalCashFromOperatingActivities latest) cashflow in
            let cashflow := CashFlow.set_CapitalExpenditures (CashflowEntry.CapitalExpenditures latest) cashflow in
            let cashflow := CashFlow.set_FreeCashFlow (CashflowEntry.FreeCashFlow latest) cashflow in
            let cashflow := CashFlow.set_DividendsPaid (CashflowEntry.DividendsPaid latest) cashflow in
            cashflow
        | [] => cashflow
        end
    | None => cashflow
    end in
  cashflow.

(** [transformFinancialData]: the five extractions side by side. *)
Definition transformFinancialData (result : FinancialResult.t) : FinancialData.t :=
  FinancialData.mk
    (extractFinancialRatios result)
    (extractFinancialSummary result)
    (extractIncomeStatement result)
    (extractBalanceSheet result)
    (extractCashFlow result).

(** [extractDividendInfo]: [summaryDetail] first, [defaultKeyStatistics]
    for four fields that are still nil, dividends paid from the first
    cash-flow statement. *)
Definition extractDividendInfo (result : DividendResult.t) : DividendInfo.t :=
  let dividend := DividendInfo.zero in
  let dividend :=
    match DividendResult.SummaryDetail result with
    | Some sd =>
        let dividend := DividendInfo.set_DividendRate (DividendSummaryDetail.DividendRate sd) dividend in
        let dividend := DividendInfo.set_DividendYield (DividendSummaryDetail.DividendYield sd) dividend in
        let dividend := DividendInfo.set_ExDividendDate (DividendSummaryDetail.ExDividendDate sd) dividend in
        let dividend := DividendInfo.set_DividendDate (DividendSummaryDetail.DividendDate sd) dividend in
        let dividend := DividendInfo.set_PayoutRatio (DividendSummaryDetail.PayoutRatio sd) dividend in
        let dividend := DividendInfo.set_FiveYearAvgDividendYield
                          (DividendSummaryDetail.FiveYearAvgDividendYield sd) dividend in
        dividend
    | None => dividend
    end in
  let dividend :=
    match DividendResult.DefaultKeyStatistics result with
    | Some dks =>
        let dividend :=
          if is_nil (DividendInfo.DividendRate dividend)
          then DividendInfo.set_DividendRate (DividendKeyStatistics.DividendRate dks) dividend
          else dividend in
        let dividend :=
          if is_nil (DividendInfo.DividendYield dividend)
          then DividendInfo.set_DividendYield (DividendKeyStatistics.DividendYield dks) dividend
          else dividend in
        let dividend :=
          if is_nil (DividendInfo.PayoutRatio dividend)
          then DividendInfo.set_PayoutRatio (DividendKeyStatistics.PayoutRatio dks) dividend
          else dividend in
        let dividend :=
          if is_nil (DividendInfo.FiveYearAvgDividendYield dividend)
          then DividendInfo.set_FiveYearAvgDividendYield
                 (DividendKeyStatistics.FiveYearAvgDividendYield dks) dividend
          else dividend in
        dividend
    | None => dividend
    end in
  let dividend :=
    match DividendResult.CashflowStatementHistory result with
    | Some h =>
        match DividendCashflowHistory.CashflowStatements h with
        | latest :: _ => DividendInfo.set_DividendsPaid (DividendCashflowEntry.DividendsPaid latest) dividend
        | [] => dividend
        end
    | None => dividend
    end in
  dividend.

(** ** The [time] package, as far as [transformHistoricalData] uses it

    [time.Unix(sec, 0)] followed by [Format] with the layouts
    ["2006-01-02"] and ["2006-01-02 15:04:05"].  [time.Unix] yields a
    time in the process's local zone, so the zone is a parameter: [Local]
    gives the offset east of UTC, in seconds, in force at a Unix instant.

    The library counts seconds from 1 January of the year
    [absoluteZeroYear], an epoch chosen so that its arithmetic stays
    unsigned, and it does so in 64-bit words: the sum of the Unix
    seconds, the zone offset and the distance between the two epochs is
    converted to [uint64].  For an instant before the absolute zero
    (Unix seconds below -9223372028715321600, zone apart) the sum is
    negative and the conversion wraps: the date computed is 2^64 seconds
    later than the instant.  The timestamps of a response are [int64]
    values that the package does not bound, so the wrap is part of the
    model. *)
Module time.

Definition secondsPerMinute : Z := 60.
Definition secondsPerHour : Z := 60 * secondsPerMinute.
Definition secondsPerDay : Z := 24 * secondsPerHour.
Definition daysPer400Years : Z := 365 * 400 + 97.
Definition daysPer100Years : Z := 365 * 100 + 24.
Definition daysPer4Years : Z := 365 * 4 + 1.

(** The year of the absolute zero; it is 1 modulo 400. *)
Definition absoluteZeroYear : Z := -292277022399.

(** Seconds from 1 January of year 1 to 1 January 1970. *)
Definition unixToInternal : Z :=
  (1969 * 365 + 1969 / 4 - 1969 / 100 + 1969 / 400) * secondsPerDay.

(** Seconds from the absolute zero to 1 January of year 1: the library's
    [(absoluteZeroYear - 1) * 365.2425 * secondsPerDay], negated;
    365.2425 days are 31556952 seconds. *)
Definition absoluteToInternal : Z := (absoluteZeroYear - 1) * 31556952.
Definition internalToAbsolute : Z := - absoluteToInternal.

(** The conversion of a 64-bit sum to [uint64]. *)
Definition uint64 (x : Z) : Z := x mod 2 ^ 64.

(** A [Time]: the instant, in Unix seconds (the nanoseconds are 0). *)
Record Time : Type := mkTime { unixSec : Z }.

Definition Unix (sec : Z) : Time := mkTime sec.

(** [daysBefore[m]]: days in a non-leap year before month [m+1]. *)
Definition daysBefore : list Z :=
  [0; 31; 31 + 28; 31 + 28 + 31; 31 + 28 + 31 + 30; 31 + 28 + 31 + 30 + 31;
   31 + 28 + 31 + 30 + 31 + 30; 31 + 28 + 31 + 30 + 31 + 30 + 31;
   31 + 28 + 31 + 30 + 31 + 30 + 31 + 31;
   31 + 28 + 31 + 30 + 31 + 30 + 31 + 31 + 30;
   31 + 28 + 31 + 30 + 31 + 30 + 31 + 31 + 30 + 31;
   31 + 28 + 31 + 30 + 31 + 30 + 31 + 31 + 30 + 31 + 30;
   31 + 28 + 31 + 30 + 31 + 30 + 31 + 31 + 30 + 31 + 30 + 31].

Definition isLeap (year : Z) : bool :=
  (Z.rem year 4 =? 0) && (negb (Z.rem year 100 =? 0) || (Z.rem year 400 =? 0)).

(** [absDate]: the year and the day of that year (from 0) of a count
    of days since the absolute zero. *)
Definition yearDay (days : Z) : Z * Z :=
  let d := days in
  (* 400-year cycles *)
  let n := d / daysPer400Years in
  let y := 400 * n in
  let d := d - daysPer400Years * n in
  (* 100-year cycles; the last one is a day longer: turn 4 into 3 *)
  let n := d / daysPer100Years in
  let n := n - Z.shiftr n 2 in
  let y := y + 100 * n in
  let d := d - daysPer100Years * n in
  (* 4-year cycles *)
  let n := d / daysPer4Years in
  let y := y + 4 * n in
  let d := d - daysPer4Years * n in
  (* years of a 4-year cycle; the last one is a day longer *)
  let n := d / 365 in
  let n := n - Z.shiftr n 2 in
  let y := y + n in
  let d := d - 365 * n in
  (y + absoluteZeroYear, d).

(** Month (from 1) and day of the month (from 1) of a day of a year. *)
Definition monthDay (year yday : Z) : Z * Z :=
  let day := yday in
  if isLeap year && (day =? 31 + 29 - 1) then (2, 29)
  else
    let day := if isLeap year && (31 + 29 - 1 <? day) then day - 1 else day in
    (* estimate assuming 31-day months; too low by at most one *)
    let month := day / 31 in
    let end_ := nth (Z.to_nat (month + 1)) daysBefore 0 in
    let '(month, begin) :=
      if end_ <=? day then (month + 1, end_)
      else (month, nth (Z.to_nat month) daysBefore 0) in
    (month + 1, day - begin + 1).

Section Zone.
Variable Local : Z -> Z.

(** [abs]: seconds since the absolute zero on the local wall clock, as
    a [uint64]. *)
Definition abs (t : Time) : Z :=
  uint64 (unixSec t + Local (unixSec t) + (unixToInternal + internalToAbsolute)).

Definition Year (t : Time) : Z := fst (yearDay (abs t / secondsPerDay)).
Definition YearDay (t : Time) : Z := snd (yearDay (abs t / secondsPerDay)).
Definition Month (t : Time) : Z := fst (monthDay (Year t) (YearDay t)).
Definition Day (t : Time) : Z := snd (monthDay (Year t) (YearDay t)).
Definition Hour (t : Time) : Z := (abs t mod secondsPerDay) / secondsPerHour.
Definition Minute (t : Time) : Z := (abs t mod secondsPerHour) / secondsPerMinute.
Definition Second (t : Time) : Z := abs t mod secondsPerMinute.

End Zone.

(** The pieces of a layout that the two layouts of the package use. *)
Inductive chunk : Type :=
| stdLongYear                (* "2006" *)
| stdZeroMonth               (* "01" *)
| stdZeroDay                 (* "02" *)
| stdHour                    (* "15" *)
| stdZeroMinute              (* "04" *)
| stdZeroSecond              (* "05" *)
| literal (s : string).

(** The layout ["2006-01-02"]. *)
Definition layoutDate : list chunk :=
  [stdLongYear; literal "-"; stdZeroMonth; literal "-"; stdZeroDay].

(** The layout ["2006-01-02 15:04:05"]. *)
Definition layoutDateTime : list chunk :=
  [stdLongYear; literal "-"; stdZeroMonth; literal "-"; stdZeroDay; literal " ";
   stdHour; literal ":"; stdZeroMinute; literal ":"; stdZeroSecond].

Definition digit (d : Z) : string :=
  String (Ascii.ascii_of_nat (48 + Z.to_nat d)) EmptyString.

(** The decimal digits of [u], most significant first; the library
    assembles them in a buffer of 20 bytes, which is the fuel. *)
Fixpoint utoa (fuel : nat) (u : Z) : string :=
  match fuel with
  | O => EmptyString
  | S fuel =>
      if u <? 10 then digit u
      else utoa fuel (u / 10) +:+ digit (u mod 10)
  end.

Fixpoint zeros (n : nat) : string :=
  match n with
  | O => EmptyString
  | S n => "0" +:+ zeros n
  end.

(** [appendInt]: a minus sign for a negative [x], then the decimal form
    of its magnitude, padded with leading zeros up to [width]. *)
Definition appendInt (b : string) (x : Z) (width : nat) : string :=
  let b := if x <? 0 then b +:+ "-" else b in
  let digits := utoa 20 (Z.abs x) in
  b +:+ zeros (width - String.length digits) +:+ digits.

Definition appendChunk (Local : Z -> Z) (t : Time) (b : string) (c : chunk) : string :=
  match c with
  | stdLongYear => appendInt b (Year Local t) 4
  | stdZeroMonth => appendInt b (Month Local t) 2
  | stdZeroDay => appendInt b (Day Local t) 2
  | stdHour => appendInt b (Hour Local t) 2
  | stdZeroMinute => appendInt b (Minute Local t) 2
  | stdZeroSecond => appendInt b (Second Local t) 2
  | literal s => b +:+ s
  end.

(** [t.Format(layout)]. *)
Definition Format (Local : Z -> Z) (t : Time) (layout : list chunk) : string :=
  foldl (appendChunk Local t) EmptyString layout.

(** The zone of a process that runs on UTC. *)
Definition UTC : Z -> Z := fun _ => 0.

End time.

(** ** Time series transform ([ticker_utils.go]) *)

Section Transform.
Variable Local : Z -> Z.

(** The key of one position: the date for an interval in days, weeks or
    months, the date and time otherwise. *)
Definition formatKey (interval : string) (timestamp : Z) : string :=
  let t := time.Unix timestamp in
  if HasSuffix interval "d" || HasSuffix interval "wk" || HasSuffix interval "mo"
  then time.Format Local t time.layoutDate
  else time.Format Local t time.layoutDateTime.

(** The test that guards the five index expressions. *)
Definition inBounds (quote : Quote.t) (i : nat) : bool :=
  (i <? length (Quote.Open quote))%nat && (i <? length (Quote.High quote))%nat &&
  (i <? length (Quote.Low quote))%nat && (i <? length (Quote.Close quote))%nat &&
  (i <? length (Quote.Volume quote))%nat.

(** The body of [for i, timestamp := range result.Timestamp], from
    position [i] on, over the remaining timestamps. *)
Fixpoint rangeTimestamps (result : ChartResult.t) (interval : string)
    (i : nat) (timestamps : list Z) (d : gmap string PriceData.t)
    : outcome (gmap string PriceData.t) :=
  match timestamps with
  | [] => Returns d
  | timestamp :: rest =>
      let key := formatKey interval timestamp in
      d ← match Indicators.Quote (ChartResult.Indicators result) with
          | quote :: _ =>
              if inBounds quote i then
                open ← index (Quote.Open quote) i;
                high ← index (Quote.High quote) i;
                low ← index (Quote.Low quote) i;
                close ← index (Quote.Close quote) i;
                volume ← index (Quote.Volume quote) i;
                Returns (<[key := PriceData.mk open high low close volume]> d)
              else Returns d
          | [] => Returns d
          end;
      rangeTimestamps result interval (S i) rest d
  end.

(** [transformHistoricalData]: a fresh map, returned as it is when there
    is no chart result, filled from the first result otherwise.  The map
    is local to the call, so it is passed along as a value. *)
Definition transformHistoricalData (data : YahooHistoryResponse.t) (interval : string)
    : outcome (gmap string PriceData.t) :=
  let d : gmap string PriceData.t := ∅ in
  match YahooHistoryResponse.Result (YahooHistoryResponse.Chart data) with
  | [] => Returns d
  | result :: _ =>
      rangeTimestamps result interval 0 (ChartResult.Timestamp result) d
  end.

End Transform.

(** ** Entry points ([ticker.go]) *)

Module Ticker.
(** The [Client] member points to the process-wide client, modelled in
    the session part below. *)
Record t : Type := mk { Symbol : string }.
End Ticker.

(** [url.Values] as the entry points build it: the pairs in the order of
    the [Add] calls.  The order they take in the query string is that of
    [Encode], further down. *)
Definition Values : Type := list (string * string).

Definition Add (key value : string) (params : Values) : Values :=
  (params ++ [(key, value)])%list.

(** What one request hands back to an entry point: [t.Client.Get] fails,
    or reading the body fails, or the body does not decode, or it decodes
    to a response value. *)
Inductive exchange (A : Type) : Type :=
| GetFailed (err : error)
| ReadFailed (err : error)
| DecodeFailed (err : error)
| Decoded (response : A).
Arguments GetFailed {A} err.
Arguments ReadFailed {A} err.
Arguments DecodeFailed {A} err.
Arguments Decoded {A} response.

(** [json.NewDecoder(resp.Body).Decode(&v)]: a read error and a syntax
    error both come back as the decoder's error. *)
Definition Decode {A : Type} (x : exchange A) : A + error :=
  match x with
  | Decoded response => inl response
  | ReadFailed err | DecodeFailed err | GetFailed err => inr err
  end.

Section EntryPoints.
(** The constant [BaseUrl] is declared outside the files at hand. *)
Variable BaseUrl : string.

(** [FetchInformation]: the price module of the first result. *)
Definition FetchInformation (Get : string -> Values -> exchange YahooInfoResponse.t)
    (t : Ticker.t) : YahooTickerInfo.t * option error :=
  let params := Add "modules" "price" [] in
  let endpoint := BaseUrl +:+ "/v10/finance/quoteSummary/" +:+ Ticker.Symbol t in
  match Get endpoint params with
  | GetFailed err => (YahooTickerInfo.zero, Some err)
  | ReadFailed err =>
      (YahooTickerInfo.zero, Some (Errorf "failed to read response body: " err))
  | DecodeFailed err =>
      (YahooTickerInfo.zero, Some (Errorf "failed to decode info JSON: " err))
  | Decoded infoResponse =>
      match YahooInfoResponse.Result (YahooInfoResponse.QuoteSummary infoResponse) with
      | [] => (YahooTickerInfo.zero, Some (Errorf "no info found for symbol: " (Ticker.Symbol t)))
      | first :: _ => (YahooInfoResponse.Price first, None)
      end
  end.

(** [FetchHistoricalData]: the defaults, the request, the emptiness test
    and the transform.  A nil map is [None]. *)
Definition FetchHistoricalData (Local : Z -> Z)
    (Get : string -> Values -> exchange YahooHistoryResponse.t)
    (t : Ticker.t) (rangeParam interval period1 period2 : string)
    : outcome (option (gmap string PriceData.t) * option error) :=
  let interval := if String.eqb interval EmptyString then "1d" else interval in
  let rangeParam := if String.eqb rangeParam EmptyString then "1y" else rangeParam in
  let params := Add "range" rangeParam [] in
  let params := Add "interval" interval params in
  let params := if negb (String.eqb period1 EmptyString) then Add "period1" period1 params else params in
  let params := if negb (String.eqb period2 EmptyString) then Add "period2" period2 params else params in
  let endpoint := BaseUrl +:+ "/v8/finance/chart/" +:+ Ticker.Symbol t in
  match Get endpoint params with
  | GetFailed err => Returns (None, Some err)
  | x =>
      match Decode x with
      | inr err =>
          Returns (None, Some (Errorf "failed to decode history data JSON response: " err))
      | inl historyResponse =>
          match YahooHistoryResponse.Result (YahooHistoryResponse.Chart historyResponse) with
          | [] => Returns (None, Some (Errorf "no data found for symbol: " (Ticker.Symbol t)))
          | _ :: _ =>
              d ← transformHistoricalData Local historyResponse interval;
              Returns (Some d, None)
          end
      end
  end.

(** [FetchFinancialData]: comprehensive financial data: all six modules, all five records. *)
Definition FetchFinancialData (Get : string -> Values -> exchange YahooFinancialResponse.t)
    (t : Ticker.t) : FinancialData.t * option error :=
  let params :=
    Add "modules"
      "defaultKeyStatistics,financialData,summaryDetail,incomeStatementHistory,balanceSheetHistory,cashflowStatementHistory" [] in
  let endpoint := BaseUrl +:+ "/v10/finance/quoteSummary/" +:+ Ticker.Symbol t in
  match Get endpoint params with
  | GetFailed err => (FinancialData.zero, Some err)
  | x =>
      match Decode x with
      | inr err =>
          (FinancialData.zero,
           Some (Errorf "failed to decode financial data JSON response: " err))
      | inl financialResponse =>
          match YahooFinancialResponse.Result
                  (YahooFinancialResponse.QuoteSummary financialResponse) with
          | [] => (FinancialData.zero,
                   Some (Errorf "no financial data found for symbol: " (Ticker.Symbol t)))
          | result :: _ => (transformFinancialData result, None)
          end
      end
  end.

(** [FetchFinancialRatios]: the ratios only. *)
Definition FetchFinancialRatios (Get : string -> Values -> exchange YahooFinancialResponse.t)
    (t : Ticker.t) : FinancialRatios.t * option error :=
  let params :=
    Add "modules"
      "defaultKeyStatistics,financialData,summaryDetail" [] in
  let endpoint := BaseUrl +:+ "/v10/finance/quoteSummary/" +:+ Ticker.Symbol t in
  match Get endpoint params with
  | GetFailed err => (FinancialRatios.zero, Some err)
  | x =>
      match Decode x with
      | inr err =>
          (FinancialRatios.zero,
           Some (Errorf "failed to decode financial ratios JSON response: " err))
      | inl financialResponse =>
          match YahooFinancialResponse.Result
                  (YahooFinancialResponse.QuoteSummary financialResponse) with
          | [] => (FinancialRatios.zero,
                   Some (Errorf "no financial ratios found for symbol: " (Ticker.Symbol t)))
          | result :: _ => (extractFinancialRatios result, None)
          end
      end
  end.

(** [FetchKeyStatistics]: the summary only. *)
Definition FetchKeyStatistics (Get : string -> Values -> exchange YahooFinancialResponse.t)
    (t : Ticker.t) : FinancialSummary.t * option error :=
  let params :=
    Add "modules"
      "defaultKeyStatistics,summaryDetail" [] in
  let endpoint := BaseUrl +:+ "/v10/finance/quoteSummary/" +:+ Ticker.Symbol t in
  match Get endpoint params with
  | GetFailed err => (FinancialSummary.zero, Some err)
  | x =>
      match Decode x with
      | inr err =>
          (FinancialSummary.zero,
           Some (Errorf "failed to decode key statistics JSON response: " err))
      | inl financialResponse =>
          match YahooFinancialResponse.Result
                  (YahooFinancialResponse.QuoteSummary financialResponse) with
          | [] => (FinancialSummary.zero,
                   Some (Errorf "no key statistics found for symbol: " (Ticker.Symbol t)))
          | result :: _ => (extractFinancialSummary result, None)
          end
      end
  end.

(** [FetchIncomeStatement]: the latest income statement. *)
Definition FetchIncomeStatement (Get : string -> Values -> exchange YahooFinancialResponse.t)
    (t : Ticker.t) : IncomeStatement.t * option error :=
  let params :=
    Add "modules"
      "incomeStatementHistory" [] in
  let endpoint := BaseUrl +:+ "/v10/finance/quoteSummary/" +:+ Ticker.Symbol t in
  match Get endpoint params with
  | GetFailed err => (IncomeStatement.zero, Some err)
  | x =>
      match Decode x with
      | inr err =>
          (IncomeStatement.zero,
           Some (Errorf "failed to decode income statement JSON response: " err))
      | inl financialResponse =>
          match YahooFinancialResponse.Result
                  (YahooFinancialResponse.QuoteSummary financialResponse) with
          | [] => (IncomeStatement.zero,
                   Some (Errorf "no income statement found for symbol: " (Ticker.Symbol t)))
          | result :: _ => (extractIncomeStatement result, None)
          end
      end
  end.

(** [FetchBalanceSheet]: the latest balance sheet. *)
Definition FetchBalanceSheet (Get : string -> Values -> exchange YahooFinancialResponse.t)
    (t : Ticker.t) : BalanceSheet.t * option error :=
  let params :=
    Add "modules"
      "balanceSheetHistory" [] in
  let endpoint := BaseUrl +:+ "/v10/finance/quoteSummary/" +:+ Ticker.Symbol t in
  match Get endpoint params with
  | GetFailed err => (BalanceSheet.zero, Some err)
  | x =>
      match Decode x with
      | inr err =>
          (BalanceSheet.zero,
           Some (Errorf "failed to decode balance sheet JSON response: " err))
      | inl financialResponse =>
          match YahooFinancialResponse.Result
                  (YahooFinancialResponse.QuoteSummary financialResponse) with
          | [] => (BalanceSheet.zero,
                   Some (Errorf "no balance sheet found for symbol: " (Ticker.Symbol t)))
          | result :: _ => (extractBalanceSheet result, None)
          end
      end
  end.

(** [FetchCashFlow]: the latest cash flow statement. *)
Definition FetchCashFlow (Get : string -> Values -> exchange YahooFinancialResponse.t)
    (t : Ticker.t) : CashFlow.t * option error :=
  let params :=
    Add "modules"
      "cashflowStatementHistory" [] in
  let endpoint := BaseUrl +:+ "/v10/finance/quoteSummary/" +:+ Ticker.Symbol t in
  match Get endpoint params with
  | GetFailed err => (CashFlow.zero, Some err)
  | x =>
      match Decode x with
      | inr err =>
          (CashFlow.zero,
           Some (Errorf "failed to decode cash flow JSON response: " err))
      | inl financialResponse =>
          match YahooFinancialResponse.Result
                  (YahooFinancialResponse.QuoteSummary financialResponse) with
          | [] => (CashFlow.zero,
                   Some (Errorf "no cash flow found for symbol: " (Ticker.Symbol t)))
          | result :: _ => (extractCashFlow result, None)
          end
      end
  end.

(** [FetchDividendInfo]: its own response type, the same shape. *)
Definition FetchDividendInfo (Get : string -> Values -> exchange DividendResponse.t)
    (t : Ticker.t) : DividendInfo.t * option error :=
  let params :=
    Add "modules" "summaryDetail,defaultKeyStatistics,cashflowStatementHistory,calendarEvents" [] in
  let endpoint := BaseUrl +:+ "/v10/finance/quoteSummary/" +:+ Ticker.Symbol t in
  match Get endpoint params with
  | GetFailed err => (DividendInfo.zero, Some err)
  | x =>
      match Decode x with
      | inr err =>
          (DividendInfo.zero, Some (Errorf "failed to decode dividend info JSON response: " err))
      | inl financialResponse =>
          match DividendResponse.Result (DividendResponse.QuoteSummary financialResponse) with
          | [] => (DividendInfo.zero,
                   Some (Errorf "no dividend info found for symbol: " (Ticker.Symbol t)))
          | result :: _ => (extractDividendInfo result, None)
          end
      end
  end.

(** [FetchCurrentDividendYield]. *)
Definition FetchCurrentDividendYield (Get : string -> Values -> exchange DividendResponse.t)
    (t : Ticker.t) : float * option error :=
  let '(dividendInfo, err) := FetchDividendInfo Get t in
  match err with
  | Some err => (0%float, Some err)
  | None =>
      match DividendInfo.DividendYield dividendInfo with
      | None => (0%float, Some (Errorf "dividend yield not available for symbol: " (Ticker.Symbol t)))
      | Some dividendYield => (PriceValue.Raw dividendYield, None)
      end
  end.

(** [FetchDividendRate]: the annual dividend rate per share. *)
Definition FetchDividendRate (Get : string -> Values -> exchange DividendResponse.t)
    (t : Ticker.t) : float * option error :=
  let '(dividendInfo, err) := FetchDividendInfo Get t in
  match err with
  | Some err => (0%float, Some err)
  | None =>
      match DividendInfo.DividendRate dividendInfo with
      | None => (0%float, Some (Errorf "dividend rate not available for symbol: " (Ticker.Symbol t)))
      | Some dividendRate => (PriceValue.Raw dividendRate, None)
      end
  end.

(** [IsDividendPaying]:
    [dividendInfo.DividendRate != nil && dividendInfo.DividendRate.Raw > 0]. *)
Definition IsDividendPaying (Get : string -> Values -> exchange DividendResponse.t)
    (t : Ticker.t) : bool * option error :=
  let '(dividendInfo, err) := FetchDividendInfo Get t in
  match err with
  | Some err => (false, Some err)
  | None =>
      (match DividendInfo.DividendRate dividendInfo with
       | None => false
       | Some dividendRate => PrimFloat.ltb 0%float (PriceValue.Raw dividendRate)
       end, None)
  end.

End EntryPoints.

(** ** Session bootstrap ([part_001]: the client)

    The client is one object shared by every caller: [getClient] creates
    it under [once.Do] and hands the same pointer to all.  Callers of
    [Client.Get] run as threads over that shared object.  A thread takes
    one step at a time; a step is at most one read or write of the shared
    fields together with the request it feeds, so every run of this
    machine is a run of the Go program in which the steps happen in that
    order.  The choice of the [User-Agent] header does not touch the
    session and is left out.

    The machine follows the session, that is the cookie and crumb
    requests and the two shared fields.  It takes [http.NewRequest] to
    accept what [get] hands it: the cookie and crumb endpoints are
    fixed, and a caller whose own URL is rejected returns at its last
    step without sending, which touches neither field and no cookie or
    crumb request.  That failure, and the order in which [Encode] writes
    the query, are modelled in [Client.get] further down. *)
Module Session.

Definition Cookie : Type := string.

(** [Client]: the cookie jar and the crumb ([client *http.Client] is the
    transport). *)
Record Client : Type := mkClient {
  cookies : list Cookie;
  crumb : string
}.

(** What a request is for; a label on the wire, not a field of the code. *)
Inductive purpose : Type := CookieFetch | CrumbFetch | DataFetch.

#[global] Instance purpose_eq_dec : EqDecision purpose.
Proof. solve_decision. Defined.

(** A request as it leaves [get]: the query with the crumb added when
    there is one, and the cookies held at that moment. *)
Record Request : Type := mkRequest {
  what : purpose;
  url : string;
  params : Values;
  sent : list Cookie
}.

(** The answer of [c.client.Do]: an error, or a response with its
    cookies and its body ([None]: reading the body fails). *)
Inductive Response : Type :=
| DoFailed (err : error)
| Replied (setCookies : list Cookie) (body : option string).

(** The far end: it sees the requests made so far and the new one. *)
Definition Server : Type := list Request -> Request -> Response.

(** Where a caller of [Get] stands. *)
Inductive pc : Type :=
| AtGetClient                       (* getClient: once.Do(...) *)
| AtCrumbCheck                      (* getCrumb: if c.crumb is not empty *)
| AtCookieCheck                     (* getCookie: if len(c.cookies) > 0 *)
| AtCookieFetch                     (* getCookie: c.get("https://fc.yahoo.com", ...) *)
| AtCookieStore (cs : list Cookie)  (* getCookie: c.cookies = resp.Cookies() *)
| AtCrumbFetch                      (* getCrumb: c.get(BaseUrl + "/v1/test/getcrumb", ...) *)
| AtCrumbStore (body : string)      (* getCrumb: c.crumb = string(body) *)
| AtRequest                         (* Get: return c.get(url, params) *)
| Done (request : Request) (response : Response).

Record Thread : Type := mkThread {
  target : string;
  query : Values;
  at_ : pc
}.

Record State : Type := mkState {
  onceDone : bool;
  instance : Client;
  wire : list Request;
  threads : list Thread
}.

Section Machine.
Variable BaseUrl : string.
Variable server : Server.

(** [getClient]: [once.Do] runs the constructor the first time only. *)
Definition getClient (s : State) : State :=
  if onceDone s then s
  else mkState true (mkClient [] EmptyString) (wire s) (threads s).

(** [get]: build the request from the fields as they are now. *)
Definition get (c : Client) (w : purpose) (u : string) (p : Values) : Request :=
  let p := if negb (String.eqb (crumb c) EmptyString) then Add "crumb" (crumb c) p else p in
  mkRequest w u p (cookies c).

(** One request on the wire and its answer. *)
Definition doRequest (s : State) (r : Request) : State * Response :=
  (mkState (onceDone s) (instance s) (wire s ++ [r])%list (threads s), server (wire s) r).

Definition setCookies (cs : list Cookie) (s : State) : State :=
  mkState (onceDone s) (mkClient cs (crumb (instance s))) (wire s) (threads s).

Definition setCrumb (body : string) (s : State) : State :=
  mkState (onceDone s) (mkClient (cookies (instance s)) body) (wire s) (threads s).

(** One step of a caller standing at [p]: the new shared state and where
    the caller stands next. *)
Definition advance (th : Thread) (s : State) : State * pc :=
  match at_ th with
  | AtGetClient => (getClient s, AtCrumbCheck)
  | AtCrumbCheck =>
      if negb (String.eqb (crumb (instance s)) EmptyString) then (s, AtRequest)
      else (s, AtCookieCheck)
  | AtCookieCheck =>
      if (0 <? length (cookies (instance s)))%nat then (s, AtCrumbFetch)
      else (s, AtCookieFetch)
  | AtCookieFetch =>
      let '(s, resp) := doRequest s (get (instance s) CookieFetch "https://fc.yahoo.com" []) in
      match resp with
      | DoFailed _ => (s, AtCrumbFetch)
      | Replied cs _ => (s, AtCookieStore cs)
      end
  | AtCookieStore cs => (setCookies cs s, AtCrumbFetch)
  | AtCrumbFetch =>
      let '(s, resp) :=
        doRequest s (get (instance s) CrumbFetch (BaseUrl +:+ "/v1/test/getcrumb") []) in
      match resp with
      | DoFailed _ => (s, AtRequest)
      | Replied _ None => (s, AtRequest)
      | Replied _ (Some body) => (s, AtCrumbStore body)
      end
  | AtCrumbStore body => (setCrumb body s, AtRequest)
  | AtRequest =>
      let r := get (instance s) DataFetch (target th) (query th) in
      let '(s, resp) := doRequest s r in
      (s, Done r resp)
  | Done r resp => (s, Done r resp)
  end.

(** Thread [i] takes one step (nothing happens when there is no such
    thread). *)
Definition step (s : State) (i : nat) : State :=
  match threads s !! i with
  | None => s
  | Some th =>
      let '(s', p) := advance th s in
      mkState (onceDone s') (instance s') (wire s')
        (<[i := mkThread (target th) (query th) p]> (threads s'))
  end.

(** A schedule names the thread that moves at each step. *)
Definition run (schedule : list nat) (s : State) : State :=
  foldl step s schedule.

End Machine.

(** The process before anyone called [getClient]; [callers] are the
    requests the concurrent callers are about to make. *)
Definition start (callers : list (string * Values)) : State :=
  mkState false (mkClient [] EmptyString) []
    (map (fun c => mkThread (fst c) (snd c) AtGetClient) callers).

Definition fetches (w : purpose) (s : State) : nat :=
  length (filter (fun r => what r = w) (wire s)).

Definition finished (th : Thread) : bool :=
  match at_ th with
  | Done _ _ => true
  | _ => false
  end.

(** The crumb a finished caller's own request carried. *)
Definition crumbSent (th : Thread) : option string :=
  match at_ th with
  | Done r _ => snd <$> find (fun kv => String.eqb (fst kv) "crumb") (params r)
  | _ => None
  end.

(** A schedule in which thread [i] runs alone from start to end: eight
    steps at most take a caller from [AtGetClient] to [Done]. *)
Definition alone (i : nat) : list nat := replicate 8 i.

(** A server that hands out a fresh crumb at every crumb request and one
    cookie at every cookie request. *)
Definition freshCrumbs : Server := fun seen r =>
  match what r with
  | CookieFetch => Replied ["A3=d"] (Some EmptyString)
  | CrumbFetch =>
      Replied [] (Some (if (length (filter (fun q => what q = CrumbFetch) seen) =? 0)%nat
                        then "crumb-1" else "crumb-2"))
  | DataFetch => Replied [] (Some "{}")
  end.

End Session.

(** ** Vocabulary of the properties and sample inputs *)

(** The first value when it is present, the fallback otherwise. *)
Definition orElse {A : Type} (first fallback : option A) : option A :=
  match first with
  | Some v => Some v
  | None => fallback
  end.

(** The response with its [defaultKeyStatistics] module taken away. *)
Definition withoutKeyStatistics (result : FinancialResult.t) : FinancialResult.t :=
  FinancialResult.mk None
    (FinancialResult.FinancialData result)
    (FinancialResult.SummaryDetail result)
    (FinancialResult.IncomeStatementHistory result)
    (FinancialResult.BalanceSheetHistory result)
    (FinancialResult.CashflowStatementHistory result).

(** The ratios with trailing P/E and price-to-book blanked. *)
Definition withoutPEandPB (ratios : FinancialRatios.t) : FinancialRatios.t :=
  FinancialRatios.set_PriceToEarningsRatio None
    (FinancialRatios.set_PriceToBookRatio None ratios).

(** A pointer to a quoted value without a long form. *)
Definition quoted (raw : float) (fmt : string) : option PriceValue.t :=
  Some (PriceValue.mk raw fmt EmptyString).

(** A response in which [summaryDetail] and [defaultKeyStatistics] both
    carry a trailing P/E and a price-to-book, with different values. *)
Definition bothModules : FinancialResult.t :=
  FinancialResult.mk
    (Some (FinancialSummary.mk 1 None None None (quoted 30 "30.00") None None
             (quoted 40 "40.00") None None None None None))
    None
    (Some (SummaryDetail.mk None None (quoted 28.5 "28.50") None (quoted 45 "45.00")
             None None None))
    None None None.

(** What [extractFinancialSummary] starts from: the
    [defaultKeyStatistics] module itself, or the zero value. *)
Definition summaryBase (result : FinancialResult.t) : FinancialSummary.t :=
  default FinancialSummary.zero (FinancialResult.DefaultKeyStatistics result).

(** A transport whose body decodes to [response]. *)
Definition decodesTo {A : Type} (response : A) : string -> Values -> exchange A :=
  fun _ _ => Decoded response.

(** Responses with an empty result array. *)
Definition emptyInfo : YahooInfoResponse.t :=
  YahooInfoResponse.mk (YahooInfoResponse.mkQuoteSummary []).

Definition emptyFinancial : YahooFinancialResponse.t :=
  YahooFinancialResponse.mk (YahooFinancialResponse.mkQuoteSummary []).

Definition emptyDividends : DividendResponse.t :=
  DividendResponse.mk (DividendResponse.mkQuoteSummary []).

(** A ticker and a base URL for the sample runs. *)
Definition ZZZZ : Ticker.t := Ticker.mk "ZZZZ".

Definition query2 : string := "https://query2.finance.yahoo.com".

(** The statements of a result: none when the module is absent. *)
Definition balanceSheetStatements (result : FinancialResult.t) : list BalanceSheetEntry.t :=
  match FinancialResult.BalanceSheetHistory result with
  | Some h => BalanceSheetHistory.BalanceSheetStatements h
  | None => []
  end.

(** C8 as it is worded: without statements the record is all absent. *)
Definition empty_statements_give_an_empty_record : Prop :=
  forall (BaseUrl : string) (t : Ticker.t) (response : YahooFinancialResponse.t)
         (result : FinancialResult.t) (rest : list FinancialResult.t),
    YahooFinancialResponse.Result (YahooFinancialResponse.QuoteSummary response) = result :: rest ->
    balanceSheetStatements result = [] ->
    FetchBalanceSheet BaseUrl (decodesTo response) t = (BalanceSheet.zero, None).

(** A response with a [financialData] module that carries a book value
    per share, and a [balanceSheetHistory] module without statements. *)
Definition bookValueOnly : FinancialResult.t :=
  FinancialResult.mk None
    (Some (FinancialRatios.set_BookValuePerShare (quoted 4.25 "4.25") FinancialRatios.zero))
    None None (Some (BalanceSheetHistory.mk [])) None.

Definition bookValueOnlyResponse : YahooFinancialResponse.t :=
  YahooFinancialResponse.mk (YahooFinancialResponse.mkQuoteSummary [bookValueOnly]).

(** A stock whose [summaryDetail] reports a dividend rate of 0. *)
Definition zeroRate : DividendResponse.t :=
  DividendResponse.mk (DividendResponse.mkQuoteSummary
    [DividendResult.mk
       (Some (DividendSummaryDetail.mk (quoted 0 "0.00") None None None None None))
       None None]).

(** A stock whose response carries no dividend rate at all. *)
Definition noRate : DividendResponse.t :=
  DividendResponse.mk (DividendResponse.mkQuoteSummary [DividendResult.mk None None None]).

(** A stock whose [summaryDetail] reports a negative dividend rate. *)
Definition negativeRate : DividendResponse.t :=
  DividendResponse.mk (DividendResponse.mkQuoteSummary
    [DividendResult.mk
       (Some (DividendSummaryDetail.mk (quoted (-0.5) "-0.50") None None None None None))
       None None]).

(** A stock whose [summaryDetail] reports a dividend rate of 0.75. *)
Definition payingRate : DividendResponse.t :=
  DividendResponse.mk (DividendResponse.mkQuoteSummary
    [DividendResult.mk
       (Some (DividendSummaryDetail.mk (quoted 0.75 "0.75") None None None None None))
       None None]).

(** The shortest of the five parallel arrays. *)
Definition shortest (quote : Quote.t) : nat :=
  Nat.min (length (Quote.Open quote))
    (Nat.min (length (Quote.High quote))
       (Nat.min (length (Quote.Low quote))
          (Nat.min (length (Quote.Close quote)) (length (Quote.Volume quote))))).

(** The bar at position [i], when all five arrays reach that far. *)
Definition barAt (quote : Quote.t) (i : nat) : option PriceData.t :=
  open ← Quote.Open quote !! i;
  high ← Quote.High quote !! i;
  low ← Quote.Low quote !! i;
  close ← Quote.Close quote !! i;
  volume ← Quote.Volume quote !! i;
  Some (PriceData.mk open high low close volume).

(** The assignments [d[key] = ...] that the loop makes from position [i]
    on, in order. *)
Fixpoint assignments (Local : Z -> Z) (interval : string) (quote : Quote.t)
    (i : nat) (timestamps : list Z) : list (string * PriceData.t) :=
  match timestamps with
  | [] => []
  | timestamp :: rest =>
      match barAt quote i with
      | Some bar => [(formatKey Local interval timestamp, bar)]
      | None => []
      end ++ assignments Local interval quote (S i) rest
  end.

(** One assignment [d[key] = bar]. *)
Definition assign (d : gmap string PriceData.t) (kv : string * PriceData.t)
    : gmap string PriceData.t :=
  <[kv.1 := kv.2]> d.

(** The bar that the sample responses hold at position 0. *)
Definition firstBar : PriceData.t :=
  PriceData.mk (Some 150%float) (Some 155%float) (Some 149%float) (Some 154%float)
               (Some 1000000).

(** Two daily bars whose volume array is one short of the timestamps. *)
Definition shortVolumeQuote : Quote.t :=
  Quote.mk [Some 150%float; Some 151%float] [Some 155%float; Some 156%float]
           [Some 149%float; Some 150%float] [Some 154%float; Some 155%float]
           [Some 1000000].

Definition shortVolumeResult : ChartResult.t :=
  ChartResult.mk [1700000000; 1700086400] (Indicators.mk [shortVolumeQuote]).

Definition shortVolume : YahooHistoryResponse.t :=
  YahooHistoryResponse.mk (YahooHistoryResponse.mkChart [shortVolumeResult]).

(** Seconds on the local wall clock, counted from 1970, of the first
    instant of year 0 and of the first instant of year 10000. *)
Definition startOfYear0 : Z := -62167219200.

Definition startOfYear10000 : Z := 253402300800.

(** The number of characters of a key: 10 for a date, 19 for a date and
    time. *)
Definition keyWidth (interval : string) : nat :=
  if HasSuffix interval "d" || HasSuffix interval "wk" || HasSuffix interval "mo"
  then 10%nat else 19%nat.

(** The layout that [transformHistoricalData] picks for a granularity. *)
Definition keyLayout (interval : string) : list time.chunk :=
  if HasSuffix interval "d" || HasSuffix interval "wk" || HasSuffix interval "mo"
  then time.layoutDate else time.layoutDateTime.

(** C4 as it is worded: every key has the width of its layout. *)
Definition keys_have_fixed_width : Prop :=
  forall (Local : Z -> Z) (data : YahooHistoryResponse.t) (interval : string)
         (d : gmap string PriceData.t) (k : string),
    transformHistoricalData Local data interval = Returns d ->
    is_Some (d !! k) ->
    String.length k = keyWidth interval.

(** Every timestamp of the first result falls, on the local wall clock,
    in a year from 0 to 9999. *)
Definition fourDigitYears (Local : Z -> Z) (data : YahooHistoryResponse.t) : Prop :=
  forall result results timestamp,
    YahooHistoryResponse.Result (YahooHistoryResponse.Chart data) = result :: results ->
    timestamp ∈ ChartResult.Timestamp result ->
    startOfYear0 <= timestamp + Local timestamp < startOfYear10000.

(** One bar, stamped with the first second of the year 10000. *)
Definition oneBar : Quote.t :=
  Quote.mk [PriceData.Open firstBar] [PriceData.High firstBar] [PriceData.Low firstBar]
           [PriceData.Close firstBar] [PriceData.Volume firstBar].

Definition year10000Result : ChartResult.t :=
  ChartResult.mk [253402300800] (Indicators.mk [oneBar]).

Definition year10000 : YahooHistoryResponse.t :=
  YahooHistoryResponse.mk (YahooHistoryResponse.mkChart [year10000Result]).

(** Two callers on a fresh process. *)
Definition twoCallers (BaseUrl : string) : list (string * Values) :=
  [(BaseUrl +:+ "/v8/finance/chart/AAPL", [("range", "1y"); ("interval", "1d")]);
   (BaseUrl +:+ "/v8/finance/chart/MSFT", [("range", "1y"); ("interval", "1d")])].

(** A schedule in which both callers test the crumb before either has
    stored one; the first then stores its crumb and sends its request
    before the second stores its own. *)
Definition overlapping : list nat :=
  [0; 1; 0; 1; 0; 1; 0; 1; 0; 1; 0; 1; 0; 0; 1; 1]%nat.

(** A caller that has read both fields empty and not yet asked for the
    cookie still owes a cookie request. *)
Definition owesCookie (p : Session.pc) : bool :=
  match p with
  | Session.AtCookieFetch => true
  | _ => false
  end.

(** A caller that is past the crumb test and has not yet asked for the
    crumb still owes a crumb request. *)
Definition owesCrumb (p : Session.pc) : bool :=
  match p with
  | Session.AtCookieFetch | Session.AtCookieStore _ | Session.AtCrumbFetch => true
  | _ => false
  end.

(** A caller that has left the two emptiness tests behind. *)
Definition pastTests (p : Session.pc) : bool :=
  match p with
  | Session.AtGetClient | Session.AtCrumbCheck | Session.AtCookieCheck => false
  | _ => true
  end.

(** The number of threads whose position satisfies [f]. *)
Fixpoint count (f : Session.pc -> bool) (ths : list Session.Thread) : nat :=
  match ths with
  | [] => 0
  | th :: ths => ((if f (Session.at_ th) then 1 else 0) + count f ths)%nat
  end.

(** Both callers take their first three steps in turn: [getClient], the
    crumb test, the cookie test. *)
Definition bothTestFirst : list nat := [0; 1; 0; 1; 0; 1]%nat.

(** ** The rest of the package *)

(** [Query] ([part_000]): the parameters of a historical data request.
    [End] is a reserved word here, hence [End_]. *)
Module Query.
Record t : Type := mk {
  Range : string;
  Interval : string;
  Start : string;
  End_ : string
}.

(** [SetDefault]: the receiver is a pointer; the new value is returned. *)
Definition SetDefault (q : t) : t :=
  let q := if String.eqb (Interval q) EmptyString
           then mk (Range q) "1d" (Start q) (End_ q) else q in
  let q := if String.eqb (Range q) EmptyString
           then mk "1y" (Interval q) (Start q) (End_ q) else q in
  q.
End Query.

(** [NewsItem] ([part_000]): one news article. *)
Module Resolution.
Record t : Type := mk {
  URL : string;
  Width : Z;
  Height : Z;
  Tag : string
}.
End Resolution.

Module Thumbnail.
Record t : Type := mk { Resolutions : list Resolution.t }.
End Thumbnail.

Module NewsItem.
Record t : Type := mk {
  UUID : string;
  Title : string;
  Publisher : string;
  Link : string;
  ProviderPublishTime : Z;
  Type_ : string;
  Thumbnail : option Thumbnail.t;
  RelatedTickers : list string
}.
End NewsItem.

(** What a request hands back before any decoding: [t.Client.Get]
    fails, or reading the body fails, or the body is read. *)
Inductive fetched : Type :=
| GetFails (err : error)
| ReadFails (err : error)
| Body (bytes : string).

(** [fmt.Sprintf("%d", x)]: the decimal form, with a minus sign for a
    negative number. *)
Definition Sprintf_d (x : Z) : string := time.appendInt EmptyString x 0.

Section MoreEntryPoints.
Variable BaseUrl : string.

(** [FetchPriceValue]: the regular market price of [FetchInformation]. *)
Definition FetchPriceValue (Get : string -> Values -> exchange YahooInfoResponse.t)
    (t : Ticker.t) : PriceValue.t * option error :=
  let '(info, err) := FetchInformation BaseUrl Get t in
  match err with
  | Some err => (PriceValue.zero, Some err)
  | None =>
      match YahooTickerInfo.RegularMarketPrice info with
      | Some price => (price, None)
      | None =>
          (PriceValue.zero,
           Some (Errorf "regular market price not available for symbol: " (Ticker.Symbol t)))
      end
  end.

(** The two shapes that [FetchNews] tries on the body, in this order:
    [json.Unmarshal] into [{news}] and into [{result: {news}}].  The
    decoder is library code; it is a parameter. *)
Variable unmarshalNews : string -> list NewsItem.t + error.
Variable unmarshalResultNews : string -> list NewsItem.t + error.

(** [FetchNews]: the defaults, the request, the two decodings.  A nil
    slice is the empty list. *)
Definition FetchNews (Get : string -> Values -> fetched) (t : Ticker.t)
    (count start : Z) : list NewsItem.t * option error :=
  let count := if count <=? 0 then 10 else count in
  let start := if start <? 0 then 0 else start in
  let params := Add "symbols" (Ticker.Symbol t) [] in
  let params := Add "count" (Sprintf_d count) params in
  let params := Add "start" (Sprintf_d start) params in
  let params := Add "region" "US" params in
  let params := Add "lang" "en-US" params in
  let endpoint := BaseUrl +:+ "/v1/finance/search" in
  match Get endpoint params with
  | GetFails err => ([], Some err)
  | ReadFails err => ([], Some (Errorf "failed to read response body: " err))
  | Body bodyBytes =>
      match unmarshalNews bodyBytes with
      | inl news => (news, None)
      | inr _ =>
          match unmarshalResultNews bodyBytes with
          | inl news => (news, None)
          | inr err => ([], Some (Errorf "failed to decode news JSON response: " err))
          end
      end
  end.

(** [FetchNewsAlternative]: the request is made and its body is not
    read; an empty slice comes back unless the request fails. *)
Definition FetchNewsAlternative (Get : string -> Values -> fetched) (t : Ticker.t)
    : list NewsItem.t * option error :=
  let params := Add "modules" "recommendationTrend,upgradeDowngradeHistory" [] in
  let endpoint := BaseUrl +:+ "/v10/finance/quoteSummary/" +:+ Ticker.Symbol t in
  match Get endpoint params with
  | GetFails err => ([], Some err)
  | _ => ([], None)
  end.

End MoreEntryPoints.

(** ** The client, one call at a time ([part_001])

    [Get] as a function of the shared state, for calls that do not
    overlap.  [get] draws the [User-Agent] header at random; the header
    is not part of a [Session.Request], so the draw is left out.  The
    [params] of a call are a map, which may be nil ([None]); [Add]
    writes into the caller's map, so a call is given by the content of
    its map at the time of the call. *)

(** [url.Values.Encode].  A [url.Values] is a map from a key to the list
    of its values, and [Values] lists its entries in the order of the
    calls of [Add].  [Encode] writes the keys in increasing order, each
    with its values in the order they were added; the result lists the
    pairs in the order they have in the query string, where each key and
    value is escaped. *)
Fixpoint insertKey (k : string) (keys : list string) : list string :=
  match keys with
  | [] => [k]
  | k' :: rest =>
      match String.compare k k' with
      | Lt => k :: keys
      | Eq => keys
      | Gt => k' :: insertKey k rest
      end
  end.

Definition sortedKeys (v : Values) : list string := foldr insertKey [] (fst <$> v).

Definition Encode (v : Values) : Values :=
  k ← sortedKeys v; filter (fun kv => kv.1 = k) v.

Module Client.
Section Calls.
Variable BaseUrl : string.
(** [http.NewRequest("GET", url + "?" + query, nil)]: its error, if it
    has one; it is the library's verdict on the URL. *)
Variable NewRequest : string -> Values -> option error.
Variable server : Session.Server.

(** [get]: the crumb is added to the query when there is one, which
    panics on a nil map; [Encode] of a nil map is empty.  When
    [http.NewRequest] fails its error is returned and nothing is sent;
    else the request goes out with the cookies held. *)
Definition get (s : Session.State) (w : Session.purpose) (url : string)
    (params : option Values) : outcome (Session.State * Session.Response) :=
  let c := Session.instance s in
  params ←
    (if negb (String.eqb (Session.crumb c) EmptyString) then
       match params with
       | Some entries => Returns (Add "crumb" (Session.crumb c) entries)
       | None => Panics "assignment to entry in nil map"
       end
     else Returns (default [] params));
  let query := Encode params in
  match NewRequest url query with
  | Some err => Returns (s, Session.DoFailed err)
  | None =>
      Returns (Session.doRequest server s
                 (Session.mkRequest w url query (Session.cookies c)))
  end.

(** [getCookie]: nothing when the jar holds a cookie; else one call of
    [get] with an empty map, whose cookies are stored unless it fails. *)
Definition getCookie (s : Session.State) : outcome Session.State :=
  if (0 <? length (Session.cookies (Session.instance s)))%nat then Returns s
  else
    '(s, resp) ← get s Session.CookieFetch "https://fc.yahoo.com" (Some []);
    match resp with
    | Session.DoFailed _ => Returns s
    | Session.Replied cs _ => Returns (Session.setCookies cs s)
    end.

(** [getCrumb]: nothing when there is a crumb; else the cookie, then one
    call of [get] with an empty map, whose whole body is stored unless
    the call or the reading fails. *)
Definition getCrumb (s : Session.State) : outcome Session.State :=
  if negb (String.eqb (Session.crumb (Session.instance s)) EmptyString) then Returns s
  else
    s ← getCookie s;
    '(s, resp) ← get s Session.CrumbFetch (BaseUrl +:+ "/v1/test/getcrumb") (Some []);
    match resp with
    | Session.DoFailed _ => Returns s
    | Session.Replied _ None => Returns s
    | Session.Replied _ (Some body) => Returns (Session.setCrumb body s)
    end.

(** [Get]: [c.getCrumb()] and then [c.get(url, params)]. *)
Definition Get (s : Session.State) (url : string) (params : option Values)
    : outcome (Session.State * Session.Response) :=
  s ← getCrumb s;
  get s Session.DataFetch url params.

(** A series of calls of [Get], one after the other, each with a map
    that is not nil. *)
Fixpoint Gets (s : Session.State) (calls : list (string * Values))
    : outcome Session.State :=
  match calls with
  | [] => Returns s
  | call :: calls =>
      '(s, _) ← Get s call.1 (Some call.2);
      Gets s calls
  end.

End Calls.
End Client.

(** ** Vocabulary of the further properties and sample inputs *)

(** What [transformHistoricalData] reads of a response: the first
    result, its first quote block, and the timestamps up to the end of
    the shortest of the five arrays. *)
Definition firstBlock (result : ChartResult.t) (quote : Quote.t) : YahooHistoryResponse.t :=
  YahooHistoryResponse.mk (YahooHistoryResponse.mkChart
    [ChartResult.mk (take (shortest quote) (ChartResult.Timestamp result))
       (Indicators.mk [quote])]).

(** Two bars of the same day (one hour apart) under a daily interval. *)
Definition secondBar : PriceData.t :=
  PriceData.mk (Some 151%float) (Some 156%float) None (Some 155%float) (Some 1100000).

Definition sameDayQuote : Quote.t :=
  Quote.mk [Some 150%float; Some 151%float] [Some 155%float; Some 156%float]
           [Some 149%float; None] [Some 154%float; Some 155%float]
           [Some 1000000; Some 1100000].

Definition sameDayResult : ChartResult.t :=
  ChartResult.mk [1700000000; 1700003600] (Indicators.mk [sameDayQuote]).

Definition sameDay : YahooHistoryResponse.t :=
  YahooHistoryResponse.mk (YahooHistoryResponse.mkChart [sameDayResult]).

(** Two bars stamped twenty hours apart, eight and a half hours after
    the least [int64]: both instants lie before the absolute zero of the
    [time] package. *)
Definition beforeZeroResult : ChartResult.t :=
  ChartResult.mk [-9223372036854745208; -9223372036854673208] (Indicators.mk [sameDayQuote]).

Definition beforeZero : YahooHistoryResponse.t :=
  YahooHistoryResponse.mk (YahooHistoryResponse.mkChart [beforeZeroResult]).

(** The most recent entry of each statement history: the first element
    of the slice, when the module is present and the slice not empty. *)
Definition latestIncome (result : FinancialResult.t) : option IncomeStatementEntry.t :=
  FinancialResult.IncomeStatementHistory result ≫=
    (fun h => head (IncomeStatementHistory.IncomeStatementHistory h)).

Definition latestBalance (result : FinancialResult.t) : option BalanceSheetEntry.t :=
  FinancialResult.BalanceSheetHistory result ≫=
    (fun h => head (BalanceSheetHistory.BalanceSheetStatements h)).

Definition latestCashflow (result : FinancialResult.t) : option CashflowEntry.t :=
  FinancialResult.CashflowStatementHistory result ≫=
    (fun h => head (CashflowStatementHistory.CashflowStatements h)).

Definition latestDividendCashflow (result : DividendResult.t)
    : option DividendCashflowEntry.t :=
  DividendResult.CashflowStatementHistory result ≫=
    (fun h => head (DividendCashflowHistory.CashflowStatements h)).

(** A response whose only content is a trailing P/E in [summaryDetail]. *)
Definition onlyTrailingPE : FinancialResult.t :=
  FinancialResult.mk None None
    (Some (SummaryDetail.mk None None (quoted 28.5 "28.50") None None None None None))
    None None None.

(** A transport on which [t.Client.Get] fails with [err]. *)
Definition getFails {A : Type} (err : error) : string -> Values -> exchange A :=
  fun _ _ => GetFailed err.

(** The price module of a stock without a regular market price, and of
    one quoted at 189.5. *)
Definition unpriced : YahooInfoResponse.t :=
  YahooInfoResponse.mk (YahooInfoResponse.mkQuoteSummary
    [YahooInfoResponse.mkResult YahooTickerInfo.zero]).

Definition pricedInfo : YahooTickerInfo.t :=
  YahooTickerInfo.mk 1 None None EmptyString None None 0 None EmptyString None None 0 None
    (quoted 189.5 "189.50") None None None None None None EmptyString None None None
    "NMS" "NasdaqGS" 0 "REGULAR" "EQUITY" "ZZZZ" None "Zed" "Zed Inc." "USD" "Delayed Quote"
    "$" None None None None None None None.

Definition priced : YahooInfoResponse.t :=
  YahooInfoResponse.mk (YahooInfoResponse.mkQuoteSummary
    [YahooInfoResponse.mkResult pricedInfo]).

(** A stock whose dividend yield is carried by [defaultKeyStatistics]
    only. *)
Definition yieldInKeyStatistics : DividendResponse.t :=
  DividendResponse.mk (DividendResponse.mkQuoteSummary
    [DividendResult.mk
       (Some (DividendSummaryDetail.mk None None None None None None))
       (Some (DividendKeyStatistics.mk (quoted 0.75 "0.75") (quoted 0.015625 "1.56%") None None))
       None]).

(** A transport that hands back the body [bytes]. *)
Definition bodyIs (bytes : string) : string -> Values -> fetched :=
  fun _ _ => Body bytes.

(** A query with nothing set, and one article. *)
Definition blankQuery : Query.t := Query.mk EmptyString EmptyString "1700000000" EmptyString.

Definition article : NewsItem.t :=
  NewsItem.mk "u-1" "Zed beats estimates" "Wire" "https://example.com/zed" 1700000000
    "STORY" None ["ZZZZ"].

(** A decoder of the first shape that rejects every body, and one of the
    second shape that finds [article]. *)
Definition rejects : string -> list NewsItem.t + error :=
  fun _ => inr "json: cannot unmarshal object into Go struct field .news".

Definition findsArticle : string -> list NewsItem.t + error :=
  fun _ => inl [article].

(** The request that [get] builds for a caller once the client holds
    the crumb and the cookies of [c], and the one it builds while there
    is no crumb. *)
Definition signed (c : Session.Client) (call : string * Values) : Session.Request :=
  Session.mkRequest Session.DataFetch call.1
    (Encode (Add "crumb" (Session.crumb c) call.2)) (Session.cookies c).

(** [http.NewRequest] accepts the URL of the request. *)
Definition built (NewRequest : string -> Values -> option error) (r : Session.Request)
    : Prop :=
  NewRequest (Session.url r) (Session.params r) = None.

#[global] Instance built_dec NewRequest r : Decision (built NewRequest r).
Proof. unfold built. apply _. Defined.



(** A caller that may still ask for a cookie, and one that may still ask
    for a crumb. *)
Definition mayFetchCookie (p : Session.pc) : bool :=
  match p with
  | Session.AtGetClient | Session.AtCrumbCheck | Session.AtCookieCheck
  | Session.AtCookieFetch => true
  | _ => false
  end.

Definition mayFetchCrumb (p : Session.pc) : bool :=
  match p with
  | Session.AtGetClient | Session.AtCrumbCheck | Session.AtCookieCheck
  | Session.AtCookieFetch | Session.AtCookieStore _ | Session.AtCrumbFetch => true
  | _ => false
  end.


(** A server that is down. *)
Definition down : Session.Server := fun _ _ => Session.DoFailed "connection refused".

(** A client that holds a cookie and a crumb, with nobody running. *)
Definition warm : Session.State :=
  Session.mkState true (Session.mkClient ["A3=d"] "crumb-1") [] [].

(** A fresh process with nobody running. *)
Definition cold : Session.State :=
  Session.mkState true (Session.mkClient [] EmptyString) [] [].

(** A server whose crumb endpoint answers every request with [body]. *)
Definition issues (body : string) (server : Session.Server) : Prop :=
  forall seen r, Session.what r = Session.CrumbFetch ->
    exists cs, server seen r = Session.Replied cs (Some body).

(** A server that answers every request with the same cookie and body. *)
Definition steady : Session.Server := fun _ _ => Session.Replied ["A3=d"] (Some "crumb-1").

(** A [http.NewRequest] that fails on the endpoint [bad] and on no
    other. *)
Definition rejecting (bad : string) : string -> Values -> option error :=
  fun url _ => if String.eqb url bad then Some "invalid URL escape" else None.

(** * Properties *)

(** ** Strings *)

Lemma length_append (a b : string) :
  String.length (a +:+ b) = (String.length a + String.length b)%nat.
Proof. induction a as [|c a IH]; simpl; [reflexivity | f_equal; exact IH]. Qed.

Lemma substring_all (s : string) : String.substring 0 (String.length s) s = s.
Proof. induction s as [|c s IH]; simpl; [reflexivity | f_equal; exact IH]. Qed.

Lemma substring_append (p s : string) (n : nat) :
  String.substring (String.length p) n (p +:+ s) = String.substring 0 n s.
Proof. induction p as [|c p IH]; simpl; [reflexivity | exact IH]. Qed.

Lemma substring_split (s : string) :
  forall n : nat, (n <= String.length s)%nat ->
  s = String.substring 0 n s +:+ String.substring n (String.length s - n) s.
Proof.
  induction s as [|c s IH]; intros n Hn.
  - destruct n; reflexivity.
  - destruct n as [|n].
    + rewrite Nat.sub_0_r, substring_all. reflexivity.
    + change (String c s = String c (String.substring 0 n s +:+
                                       String.substring n (String.length s - n) s)).
      f_equal. apply IH. simpl in Hn. lia.
Qed.

(** [HasSuffix s suffix] holds exactly when [s] ends with [suffix]. *)
Lemma HasSuffix_spec (s suffix : string) :
  HasSuffix s suffix = true <-> exists p, s = p +:+ suffix.
Proof.
  unfold HasSuffix. rewrite andb_true_iff, Nat.leb_le, String.eqb_eq. split.
  - intros [Hlen Hsub].
    exists (String.substring 0 (String.length s - String.length suffix) s).
    rewrite (substring_split s (String.length s - String.length suffix)) at 1 by lia.
    f_equal.
    replace (String.length s - (String.length s - String.length suffix))%nat
      with (String.length suffix) by lia.
    exact Hsub.
  - intros [p ->]. rewrite length_append. split; [lia |].
    replace (String.length p + String.length suffix - String.length suffix)%nat
      with (String.length p) by lia.
    rewrite substring_append. apply substring_all.
Qed.

Example HasSuffix_1d : HasSuffix "1d" "d" = true.
Proof. reflexivity. Qed.
Example HasSuffix_1wk : HasSuffix "1wk" "wk" = true.
Proof. reflexivity. Qed.
Example HasSuffix_3mo : HasSuffix "3mo" "mo" = true.
Proof. reflexivity. Qed.
Example HasSuffix_5m : HasSuffix "5m" "d" || HasSuffix "5m" "wk" || HasSuffix "5m" "mo" = false.
Proof. reflexivity. Qed.
Example HasSuffix_empty : HasSuffix EmptyString "d" = false.
Proof. reflexivity. Qed.

(** ** The [time] model on known dates *)

Example format_epoch : time.Format time.UTC (time.Unix 0) time.layoutDateTime = "1970-01-01 00:00:00".
Proof. vm_compute. reflexivity. Qed.
Example format_2023 : time.Format time.UTC (time.Unix 1700000000) time.layoutDateTime = "2023-11-14 22:13:20".
Proof. vm_compute. reflexivity. Qed.
Example format_leap : time.Format time.UTC (time.Unix 1709164800) time.layoutDate = "2024-02-29".
Proof. vm_compute. reflexivity. Qed.
Example format_dec31 : time.Format time.UTC (time.Unix 1735603200) time.layoutDate = "2024-12-31".
Proof. vm_compute. reflexivity. Qed.
Example format_y10k : time.Format time.UTC (time.Unix 253402300800) time.layoutDate = "10000-01-01".
Proof. vm_compute. reflexivity. Qed.
Example format_y9999 : time.Format time.UTC (time.Unix 253402300799) time.layoutDateTime = "9999-12-31 23:59:59".
Proof. vm_compute. reflexivity. Qed.
Example format_y0 : time.Format time.UTC (time.Unix (-62167219200)) time.layoutDate = "0000-01-01".
Proof. vm_compute. reflexivity. Qed.
Example format_ym1 : time.Format time.UTC (time.Unix (-62167219201)) time.layoutDate = "-0001-12-31".
Proof. vm_compute. reflexivity. Qed.
Example format_1900 : time.Format time.UTC (time.Unix (-2203891200)) time.layoutDate = "1900-03-01".
Proof. vm_compute. reflexivity. Qed.

(** The first second of the absolute zero year, and the second before
    it, which wraps to the far end of the range. *)
Example format_zero : time.Format time.UTC (time.Unix (-9223372028715321600)) time.layoutDateTime = "-292277022399-01-01 00:00:00".
Proof. vm_compute. reflexivity. Qed.
Example format_wrap : time.Format time.UTC (time.Unix (-9223372028715321601)) time.layoutDateTime = "292277026854-11-09 07:00:15".
Proof. vm_compute. reflexivity. Qed.
Example format_min : time.Format time.UTC (time.Unix (-9223372036854775808)) time.layoutDateTime = "292277026596-12-04 15:30:08".
Proof. vm_compute. reflexivity. Qed.
Example format_max : time.Format time.UTC (time.Unix 9223372036854775807) time.layoutDateTime = "292277026596-12-04 15:30:07".
Proof. vm_compute. reflexivity. Qed.

(** ** Module merge *)

(** Case analysis on the modules of a result and on the fields the
    merge tests for nil; the setters then compute. *)
Ltac split_modules result :=
  destruct result as [dks fd sd ih bh ch];
  destruct sd as [[sdMC sdFPE sdPE sdPS sdPB sdBeta sdDR sdDY]|];
  destruct fd as [[]|];
  destruct dks as [[age dMC dEV dFPE dPE dPeg dPS dPB dBeta d52l d52h d50 d200]|].

Lemma extractFinancialRatios_PE (result : FinancialResult.t) :
  FinancialRatios.PriceToEarningsRatio (extractFinancialRatios result) =
  orElse (FinancialResult.SummaryDetail result ≫= SummaryDetail.TrailingPE)
         (FinancialResult.DefaultKeyStatistics result ≫= FinancialSummary.TrailingPE).
Proof.
  split_modules result; try destruct sdPE; try destruct sdPB; cbv; reflexivity.
Qed.

Lemma extractFinancialRatios_PB (result : FinancialResult.t) :
  FinancialRatios.PriceToBookRatio (extractFinancialRatios result) =
  orElse (FinancialResult.SummaryDetail result ≫= SummaryDetail.PriceToBook)
         (FinancialResult.DefaultKeyStatistics result ≫= FinancialSummary.PriceToBook).
Proof.
  split_modules result; try destruct sdPE; try destruct sdPB; cbv; reflexivity.
Qed.

Lemma extractFinancialRatios_fallback_only_PE_PB (result : FinancialResult.t) :
  withoutPEandPB (extractFinancialRatios result) =
  withoutPEandPB (extractFinancialRatios (withoutKeyStatistics result)).
Proof.
  split_modules result; try destruct sdPE; try destruct sdPB; cbv; reflexivity.
Qed.

(** C2. [extractFinancialRatios] takes trailing P/E and price-to-book
    from [summaryDetail] when it carries them, and from
    [defaultKeyStatistics] only when the field is still absent after
    that; no other field of the ratios depends on [defaultKeyStatistics];
    when both modules carry a trailing P/E (or a price-to-book), the value
    of [summaryDetail] is the one returned. *)
Theorem extractFinancialRatios_precedence (result : FinancialResult.t) :
  let sdPE := FinancialResult.SummaryDetail result ≫= SummaryDetail.TrailingPE in
  let sdPB := FinancialResult.SummaryDetail result ≫= SummaryDetail.PriceToBook in
  let dksPE := FinancialResult.DefaultKeyStatistics result ≫= FinancialSummary.TrailingPE in
  let dksPB := FinancialResult.DefaultKeyStatistics result ≫= FinancialSummary.PriceToBook in
  let ratios := extractFinancialRatios result in
  (forall v, sdPE = Some v -> FinancialRatios.PriceToEarningsRatio ratios = Some v) /\
  (forall v, sdPB = Some v -> FinancialRatios.PriceToBookRatio ratios = Some v) /\
  (sdPE = None -> FinancialRatios.PriceToEarningsRatio ratios = dksPE) /\
  (sdPB = None -> FinancialRatios.PriceToBookRatio ratios = dksPB) /\
  (forall v w, sdPE = Some v -> dksPE = Some w ->
     FinancialRatios.PriceToEarningsRatio ratios = Some v) /\
  (forall v w, sdPB = Some v -> dksPB = Some w ->
     FinancialRatios.PriceToBookRatio ratios = Some v) /\
  withoutPEandPB ratios =
    withoutPEandPB (extractFinancialRatios (withoutKeyStatistics result)).
Proof.
  intros sdPE sdPB dksPE dksPB ratios.
  pose proof (extractFinancialRatios_PE result) as HPE.
  pose proof (extractFinancialRatios_PB result) as HPB.
  fold sdPE dksPE ratios in HPE. fold sdPB dksPB ratios in HPB.
  repeat split.
  - intros v Hv. rewrite HPE, Hv. reflexivity.
  - intros v Hv. rewrite HPB, Hv. reflexivity.
  - intros Hn. rewrite HPE, Hn. reflexivity.
  - intros Hn. rewrite HPB, Hn. reflexivity.
  - intros v w Hv _. rewrite HPE, Hv. reflexivity.
  - intros v w Hv _. rewrite HPB, Hv. reflexivity.
  - apply extractFinancialRatios_fallback_only_PE_PB.
Qed.

Lemma extractFinancialRatios_precedence_witness :
  FinancialRatios.PriceToEarningsRatio (extractFinancialRatios bothModules) = quoted 28.5 "28.50" /\
  FinancialRatios.PriceToBookRatio (extractFinancialRatios bothModules) = quoted 45 "45.00".
Proof.
  pose proof (extractFinancialRatios_precedence bothModules) as H.
  cbv zeta in H. destruct H as (_ & _ & _ & _ & HPE & HPB & _). split.
  - apply (HPE _ (PriceValue.mk 30 "30.00" EmptyString)); reflexivity.
  - apply (HPB _ (PriceValue.mk 40 "40.00" EmptyString)); reflexivity.
Defined.

(** C3. [extractFinancialSummary] starts from the whole
    [defaultKeyStatistics] module when it is present; [summaryDetail]
    then fills market cap, forward P/E, trailing P/E, price-to-sales,
    price-to-book and beta where they are still absent, never replaces a
    value that is there, and touches no other field. *)
Theorem extractFinancialSummary_merge (result : FinancialResult.t) :
  let base := summaryBase result in
  let sd (f : SummaryDetail.t -> option PriceValue.t) := FinancialResult.SummaryDetail result ≫= f in
  let summary := extractFinancialSummary result in
  (FinancialResult.SummaryDetail result = None -> summary = base) /\
  FinancialSummary.MarketCap summary =
    orElse (FinancialSummary.MarketCap base) (sd SummaryDetail.MarketCap) /\
  FinancialSummary.ForwardPE summary =
    orElse (FinancialSummary.ForwardPE base) (sd SummaryDetail.ForwardPE) /\
  FinancialSummary.TrailingPE summary =
    orElse (FinancialSummary.TrailingPE base) (sd SummaryDetail.TrailingPE) /\
  FinancialSummary.PriceToSalesTrailing12Months summary =
    orElse (FinancialSummary.PriceToSalesTrailing12Months base)
           (sd SummaryDetail.PriceToSalesTrailing12Months) /\
  FinancialSummary.PriceToBook summary =
    orElse (FinancialSummary.PriceToBook base) (sd SummaryDetail.PriceToBook) /\
  FinancialSummary.Beta summary =
    orElse (FinancialSummary.Beta base) (sd SummaryDetail.Beta) /\
  FinancialSummary.MaxAge summary = FinancialSummary.MaxAge base /\
  FinancialSummary.EnterpriseValue summary = FinancialSummary.EnterpriseValue base /\
  FinancialSummary.PegRatio summary = FinancialSummary.PegRatio base /\
  FinancialSummary.FiftyTwoWeekLow summary = FinancialSummary.FiftyTwoWeekLow base /\
  FinancialSummary.FiftyTwoWeekHigh summary = FinancialSummary.FiftyTwoWeekHigh base /\
  FinancialSummary.FiftyDayAverage summary = FinancialSummary.FiftyDayAverage base /\
  FinancialSummary.TwoHundredDayAverage summary = FinancialSummary.TwoHundredDayAverage base /\
  (forall v, FinancialSummary.TrailingPE base = Some v ->
     FinancialSummary.TrailingPE summary = Some v).
Proof.
  split_modules result;
    try destruct dMC; try destruct dFPE; try destruct dPE;
    try destruct dPS; try destruct dPB; try destruct dBeta;
    cbv; repeat split; intros; (reflexivity || assumption || discriminate).
Qed.

(** Both modules carry a trailing P/E: the one of
    [defaultKeyStatistics] stays. *)
Lemma extractFinancialSummary_merge_witness :
  FinancialSummary.TrailingPE (extractFinancialSummary bothModules) = quoted 30 "30.00".
Proof.
  pose proof (extractFinancialSummary_merge bothModules) as H.
  cbv zeta in H. apply H. reflexivity.
Defined.

(** ** Entry points *)

Section EntryPointProperties.
Variable BaseUrl : string.

(** C6. With a well-formed response whose top-level result array is
    empty, each of the nine extraction entry points returns the zero
    value of its record (a nil map for the historical data) together with
    the error "no ... found for symbol: " followed by the symbol. *)
Theorem empty_result_is_an_error (t : Ticker.t) :
  (forall info, YahooInfoResponse.Result (YahooInfoResponse.QuoteSummary info) = [] ->
     FetchInformation BaseUrl (decodesTo info) t =
     (YahooTickerInfo.zero, Some ("no info found for symbol: " +:+ Ticker.Symbol t))) /\
  (forall Local history rangeParam interval period1 period2,
     YahooHistoryResponse.Result (YahooHistoryResponse.Chart history) = [] ->
     FetchHistoricalData BaseUrl Local (decodesTo history) t rangeParam interval period1 period2 =
     Returns (None, Some ("no data found for symbol: " +:+ Ticker.Symbol t))) /\
  (forall financial,
     YahooFinancialResponse.Result (YahooFinancialResponse.QuoteSummary financial) = [] ->
     FetchFinancialData BaseUrl (decodesTo financial) t =
       (FinancialData.zero, Some ("no financial data found for symbol: " +:+ Ticker.Symbol t)) /\
     FetchFinancialRatios BaseUrl (decodesTo financial) t =
       (FinancialRatios.zero, Some ("no financial ratios found for symbol: " +:+ Ticker.Symbol t)) /\
     FetchKeyStatistics BaseUrl (decodesTo financial) t =
       (FinancialSummary.zero, Some ("no key statistics found for symbol: " +:+ Ticker.Symbol t)) /\
     FetchIncomeStatement BaseUrl (decodesTo financial) t =
       (IncomeStatement.zero, Some ("no income statement found for symbol: " +:+ Ticker.Symbol t)) /\
     FetchBalanceSheet BaseUrl (decodesTo financial) t =
       (BalanceSheet.zero, Some ("no balance sheet found for symbol: " +:+ Ticker.Symbol t)) /\
     FetchCashFlow BaseUrl (decodesTo financial) t =
       (CashFlow.zero, Some ("no cash flow found for symbol: " +:+ Ticker.Symbol t))) /\
  (forall dividends,
     DividendResponse.Result (DividendResponse.QuoteSummary dividends) = [] ->
     FetchDividendInfo BaseUrl (decodesTo dividends) t =
     (DividendInfo.zero, Some ("no dividend info found for symbol: " +:+ Ticker.Symbol t))).
Proof.
  repeat split.
  - intros info H. unfold FetchInformation, decodesTo. rewrite H. reflexivity.
  - intros Local history rangeParam interval period1 period2 H.
    unfold FetchHistoricalData, decodesTo. cbn [Decode]. rewrite H. reflexivity.
  - unfold FetchFinancialData, decodesTo. cbn [Decode]. rewrite H. reflexivity.
  - unfold FetchFinancialRatios, decodesTo. cbn [Decode]. rewrite H. reflexivity.
  - unfold FetchKeyStatistics, decodesTo. cbn [Decode]. rewrite H. reflexivity.
  - unfold FetchIncomeStatement, decodesTo. cbn [Decode]. rewrite H. reflexivity.
  - unfold FetchBalanceSheet, decodesTo. cbn [Decode]. rewrite H. reflexivity.
  - unfold FetchCashFlow, decodesTo. cbn [Decode]. rewrite H. reflexivity.
  - intros dividends H. unfold FetchDividendInfo, decodesTo. cbn [Decode]. rewrite H. reflexivity.
Qed.

End EntryPointProperties.

Lemma empty_result_is_an_error_witness :
  FetchInformation query2 (decodesTo emptyInfo) ZZZZ =
    (YahooTickerInfo.zero, Some "no info found for symbol: ZZZZ") /\
  FetchHistoricalData query2 time.UTC (decodesTo YahooHistoryResponse.zero) ZZZZ "1mo" "1d" EmptyString EmptyString =
    Returns (None, Some "no data found for symbol: ZZZZ") /\
  FetchBalanceSheet query2 (decodesTo emptyFinancial) ZZZZ =
    (BalanceSheet.zero, Some "no balance sheet found for symbol: ZZZZ") /\
  FetchDividendInfo query2 (decodesTo emptyDividends) ZZZZ =
    (DividendInfo.zero, Some "no dividend info found for symbol: ZZZZ").
Proof.
  destruct (empty_result_is_an_error query2 ZZZZ) as (Hinfo & Hhist & Hfin & Hdiv).
  split; [| split; [| split]].
  - apply Hinfo. reflexivity.
  - apply Hhist. reflexivity.
  - apply (Hfin emptyFinancial). reflexivity.
  - apply Hdiv. reflexivity.
Defined.

(** C7. A response without any chart result transforms to the empty
    map, without a panic, whatever the granularity and the zone. *)
Theorem transformHistoricalData_empty (Local : Z -> Z)
    (data : YahooHistoryResponse.t) (interval : string) :
  YahooHistoryResponse.Result (YahooHistoryResponse.Chart data) = [] ->
  transformHistoricalData Local data interval = Returns ∅.
Proof.
  intros H. unfold transformHistoricalData. rewrite H. reflexivity.
Qed.

Lemma transformHistoricalData_empty_witness :
  transformHistoricalData time.UTC YahooHistoryResponse.zero "1d" = Returns ∅.
Proof.
  apply (transformHistoricalData_empty time.UTC YahooHistoryResponse.zero "1d").
  reflexivity.
Defined.

(** *** Balance sheet *)

(** C8, as worded, fails: the record then carries the book value per
    share of [financialData]. *)
Lemma empty_statements_record_not_empty :
  FetchBalanceSheet query2 (decodesTo bookValueOnlyResponse) ZZZZ =
    (BalanceSheet.set_BookValuePerShare (quoted 4.25 "4.25") BalanceSheet.zero, None) /\
  ~ empty_statements_give_an_empty_record.
Proof.
  split; [reflexivity |].
  intros H.
  specialize (H query2 ZZZZ bookValueOnlyResponse bookValueOnly [] eq_refl eq_refl).
  discriminate H.
Qed.

(** C8, amended. With a non-empty result array whose first entry has no
    [balanceSheetHistory] module, or one without statements,
    [FetchBalanceSheet] succeeds; every field of the record is absent
    except the book value per share, which is the one of [financialData]
    (absent when that module is); and with a decoded response the call
    fails exactly when the result array is empty. *)
Theorem FetchBalanceSheet_empty_statements (BaseUrl : string) (t : Ticker.t)
    (response : YahooFinancialResponse.t) :
  (forall result rest,
     YahooFinancialResponse.Result (YahooFinancialResponse.QuoteSummary response) = result :: rest ->
     balanceSheetStatements result = [] ->
     FetchBalanceSheet BaseUrl (decodesTo response) t =
       (BalanceSheet.set_BookValuePerShare
          (FinancialResult.FinancialData result ≫= FinancialRatios.BookValuePerShare)
          BalanceSheet.zero, None) /\
     (FinancialResult.FinancialData result = None ->
      FetchBalanceSheet BaseUrl (decodesTo response) t = (BalanceSheet.zero, None))) /\
  (snd (FetchBalanceSheet BaseUrl (decodesTo response) t) <> None <->
   YahooFinancialResponse.Result (YahooFinancialResponse.QuoteSummary response) = []).
Proof.
  unfold FetchBalanceSheet, decodesTo. cbn [Decode].
  split.
  - intros result rest Hres Hst. rewrite Hres.
    assert (extractBalanceSheet result =
            BalanceSheet.set_BookValuePerShare
              (FinancialResult.FinancialData result ≫= FinancialRatios.BookValuePerShare)
              BalanceSheet.zero) as E.
    { unfold balanceSheetStatements in Hst.
      destruct result as [dks fd sd ih [[st]|] ch]; cbn in Hst; subst;
        destruct fd as [[]|]; reflexivity. }
    rewrite E. split; [reflexivity |].
    intros Hfd. rewrite Hfd. reflexivity.
  - destruct (YahooFinancialResponse.Result (YahooFinancialResponse.QuoteSummary response))
      as [|result rest]; cbn [snd]; split; intros H; try reflexivity; try discriminate.
    exfalso. apply H. reflexivity.
Qed.

Lemma FetchBalanceSheet_empty_statements_witness :
  FetchBalanceSheet query2 (decodesTo bookValueOnlyResponse) ZZZZ =
    (BalanceSheet.set_BookValuePerShare (quoted 4.25 "4.25") BalanceSheet.zero, None).
Proof.
  destruct (FetchBalanceSheet_empty_statements query2 ZZZZ bookValueOnlyResponse) as [H _].
  destruct (H bookValueOnly [] eq_refl eq_refl) as [E _]. exact E.
Defined.

(** *** Dividends *)

(** C9. When the dividend info is fetched without error,
    [FetchDividendRate] fails with "dividend rate not available for
    symbol: ..." exactly when the record's [DividendRate] is absent, and
    returns the raw value without error when it is present; a present
    rate whose raw value is 0 gives 0 and no error. *)
Theorem FetchDividendRate_absent_or_raw (BaseUrl : string)
    (Get : string -> Values -> exchange DividendResponse.t) (t : Ticker.t)
    (dividendInfo : DividendInfo.t) :
  FetchDividendInfo BaseUrl Get t = (dividendInfo, None) ->
  (DividendInfo.DividendRate dividendInfo = None ->
   FetchDividendRate BaseUrl Get t =
     (0%float, Some ("dividend rate not available for symbol: " +:+ Ticker.Symbol t))) /\
  (forall rate, DividendInfo.DividendRate dividendInfo = Some rate ->
   FetchDividendRate BaseUrl Get t = (PriceValue.Raw rate, None)) /\
  (forall rate, DividendInfo.DividendRate dividendInfo = Some rate ->
   PriceValue.Raw rate = 0%float ->
   FetchDividendRate BaseUrl Get t = (0%float, None)) /\
  (snd (FetchDividendRate BaseUrl Get t) <> None <->
   DividendInfo.DividendRate dividendInfo = None).
Proof.
  intros Hinfo. unfold FetchDividendRate. rewrite Hinfo.
  destruct (DividendInfo.DividendRate dividendInfo) as [rate|]; cbn [snd].
  - split; [discriminate |]. split; [intros r [= <-]; reflexivity |].
    split; [intros r [= <-] H0; rewrite H0; reflexivity |].
    split; [intros H; exfalso; apply H; reflexivity | discriminate].
  - split; [reflexivity |]. split; [discriminate |]. split; [discriminate |].
    split; [reflexivity | discriminate].
Qed.

Lemma FetchDividendRate_absent_or_raw_witness :
  FetchDividendRate query2 (decodesTo zeroRate) ZZZZ = (0%float, None) /\
  FetchDividendRate query2 (decodesTo noRate) ZZZZ =
    (0%float, Some "dividend rate not available for symbol: ZZZZ").
Proof.
  split.
  - destruct (FetchDividendRate_absent_or_raw query2 (decodesTo zeroRate) ZZZZ _ eq_refl)
      as (_ & _ & H & _).
    apply (H (PriceValue.mk 0 "0.00" EmptyString)); reflexivity.
  - destruct (FetchDividendRate_absent_or_raw query2 (decodesTo noRate) ZZZZ _ eq_refl)
      as (H & _).
    apply H. reflexivity.
Defined.

(** The comparison [x < 0] and the comparison [0 < x] on binary64 never
    hold together. *)
Lemma float_negative_not_positive (x : float) :
  PrimFloat.ltb x 0%float = true -> PrimFloat.ltb 0%float x = false.
Proof.
  rewrite !FloatAxioms.ltb_spec.
  change (Prim2SF 0%float) with (S754_zero false).
  destruct (Prim2SF x) as [[]|[]| |[] m e]; cbn; congruence.
Qed.

(** C10. When the dividend info is fetched without error,
    [IsDividendPaying] returns no error, and returns true exactly when
    the dividend rate is present with a raw value above 0; a present rate
    of 0, or below 0, gives false, while [FetchDividendRate] returns that
    same raw value without error. *)
Theorem IsDividendPaying_positive_rate (BaseUrl : string)
    (Get : string -> Values -> exchange DividendResponse.t) (t : Ticker.t)
    (dividendInfo : DividendInfo.t) :
  FetchDividendInfo BaseUrl Get t = (dividendInfo, None) ->
  snd (IsDividendPaying BaseUrl Get t) = None /\
  (fst (IsDividendPaying BaseUrl Get t) = true <->
   exists rate, DividendInfo.DividendRate dividendInfo = Some rate /\
                PrimFloat.ltb 0%float (PriceValue.Raw rate) = true) /\
  (forall rate, DividendInfo.DividendRate dividendInfo = Some rate ->
   PriceValue.Raw rate = 0%float \/ PrimFloat.ltb (PriceValue.Raw rate) 0%float = true ->
   IsDividendPaying BaseUrl Get t = (false, None) /\
   FetchDividendRate BaseUrl Get t = (PriceValue.Raw rate, None)).
Proof.
  intros Hinfo. unfold IsDividendPaying, FetchDividendRate. rewrite Hinfo.
  cbn [fst snd]. split; [reflexivity |]. split.
  - destruct (DividendInfo.DividendRate dividendInfo) as [rate|]; split.
    + intros H. exists rate. split; [reflexivity | exact H].
    + intros (r & [= <-] & H). exact H.
    + discriminate.
    + intros (r & Hr & _). discriminate Hr.
  - intros rate Hrate Hraw. rewrite Hrate. split; [| reflexivity].
    destruct Hraw as [H0 | Hneg].
    + rewrite H0. reflexivity.
    + rewrite (float_negative_not_positive _ Hneg). reflexivity.
Qed.

Lemma IsDividendPaying_positive_rate_witness :
  (IsDividendPaying query2 (decodesTo zeroRate) ZZZZ = (false, None) /\
   FetchDividendRate query2 (decodesTo zeroRate) ZZZZ = (0%float, None)) /\
  (IsDividendPaying query2 (decodesTo negativeRate) ZZZZ = (false, None) /\
   FetchDividendRate query2 (decodesTo negativeRate) ZZZZ = ((-0.5)%float, None)) /\
  fst (IsDividendPaying query2 (decodesTo payingRate) ZZZZ) = true.
Proof.
  split; [| split].
  - destruct (IsDividendPaying_positive_rate query2 (decodesTo zeroRate) ZZZZ _ eq_refl)
      as (_ & _ & H).
    apply (H (PriceValue.mk 0 "0.00" EmptyString)); [reflexivity | left; reflexivity].
  - destruct (IsDividendPaying_positive_rate query2 (decodesTo negativeRate) ZZZZ _ eq_refl)
      as (_ & _ & H).
    apply (H (PriceValue.mk (-0.5) "-0.50" EmptyString)); [reflexivity | right; reflexivity].
  - destruct (IsDividendPaying_positive_rate query2 (decodesTo payingRate) ZZZZ _ eq_refl)
      as (_ & H & _).
    apply H. exists (PriceValue.mk 0.75 "0.75" EmptyString). split; reflexivity.
Defined.

(** ** Time series transform *)

Section TransformProperties.
Variable Local : Z -> Z.
Variable interval : string.

Lemma inBounds_shortest (quote : Quote.t) (i : nat) :
  inBounds quote i = true <-> (i < shortest quote)%nat.
Proof.
  unfold inBounds, shortest. rewrite !andb_true_iff, !Nat.ltb_lt. lia.
Qed.

Lemma barAt_Some (quote : Quote.t) (i : nat) (bar : PriceData.t) :
  barAt quote i = Some bar <->
  Quote.Open quote !! i = Some (PriceData.Open bar) /\
  Quote.High quote !! i = Some (PriceData.High bar) /\
  Quote.Low quote !! i = Some (PriceData.Low bar) /\
  Quote.Close quote !! i = Some (PriceData.Close bar) /\
  Quote.Volume quote !! i = Some (PriceData.Volume bar).
Proof.
  unfold barAt. destruct bar as [o h l c v]. cbn.
  destruct (Quote.Open quote !! i), (Quote.High quote !! i), (Quote.Low quote !! i),
    (Quote.Close quote !! i), (Quote.Volume quote !! i); cbn;
    split; try (intros [= -> -> -> -> ->]; done); try (intros (? & ? & ? & ? & ?); congruence).
Qed.

Lemma barAt_is_Some (quote : Quote.t) (i : nat) :
  is_Some (barAt quote i) <-> (i < shortest quote)%nat.
Proof.
  unfold barAt, shortest. 
  pose proof (lookup_lt_is_Some (Quote.Open quote) i).
  pose proof (lookup_lt_is_Some (Quote.High quote) i).
  pose proof (lookup_lt_is_Some (Quote.Low quote) i).
  pose proof (lookup_lt_is_Some (Quote.Close quote) i).
  pose proof (lookup_lt_is_Some (Quote.Volume quote) i).
  destruct (Quote.Open quote !! i), (Quote.High quote !! i), (Quote.Low quote !! i),
    (Quote.Close quote !! i), (Quote.Volume quote !! i); cbn;
    rewrite ?is_Some_alt in *; split; intros; try done; try lia.
Qed.

(** The loop runs to its end and makes exactly the [assignments]. *)
Lemma rangeTimestamps_assignments (result : ChartResult.t) (quote : Quote.t)
    (quotes : list Quote.t) (timestamps : list Z) :
  Indicators.Quote (ChartResult.Indicators result) = quote :: quotes ->
  forall (i : nat) (d : gmap string PriceData.t),
  rangeTimestamps Local result interval i timestamps d =
  Returns (foldl assign d (assignments Local interval quote i timestamps)).
Proof.
  intros Hq. induction timestamps as [|timestamp rest IH]; intros i d; [reflexivity |].
  cbn [rangeTimestamps assignments]. rewrite Hq.
  destruct (inBounds quote i) eqn:Hb.
  - apply inBounds_shortest, barAt_is_Some in Hb. destruct Hb as [bar Hbar].
    rewrite Hbar. apply barAt_Some in Hbar. destruct Hbar as (Ho & Hh & Hl & Hc & Hv).
    unfold index. rewrite Ho, Hh, Hl, Hc, Hv. cbn. rewrite IH.
    destruct bar; reflexivity.
  - assert (barAt quote i = None) as ->.
    { apply eq_None_not_Some. rewrite barAt_is_Some, <- inBounds_shortest. congruence. }
    cbn. apply IH.
Qed.

Lemma rangeTimestamps_no_quote (result : ChartResult.t) (timestamps : list Z) :
  Indicators.Quote (ChartResult.Indicators result) = [] ->
  forall (i : nat) (d : gmap string PriceData.t),
  rangeTimestamps Local result interval i timestamps d = Returns d.
Proof.
  intros Hq. induction timestamps as [|timestamp rest IH]; intros i d; [reflexivity |].
  cbn [rangeTimestamps]. rewrite Hq. cbn. apply IH.
Qed.

Lemma foldl_assign_lookup (l : list (string * PriceData.t)) :
  forall (d : gmap string PriceData.t) (k : string) (bar : PriceData.t),
  foldl assign d l !! k = Some bar -> d !! k = Some bar \/ (k, bar) ∈ l.
Proof.
  induction l as [|[k' bar'] l IH]; intros d k bar H; cbn in H; [left; exact H |].
  apply IH in H. destruct H as [H | H].
  - unfold assign in H. cbn in H. apply lookup_insert_Some in H.
    destruct H as [[<- <-] | [_ H]]; [right; left | left; exact H].
  - right. right. exact H.
Qed.

Lemma foldl_assign_is_Some (l : list (string * PriceData.t)) :
  forall (d : gmap string PriceData.t) (k : string),
  is_Some (d !! k) \/ k ∈ l.*1 -> is_Some (foldl assign d l !! k).
Proof.
  induction l as [|[k' bar'] l IH]; intros d k H; cbn.
  - destruct H as [H | H]; [exact H | inversion H].
  - apply IH. unfold assign. cbn. rewrite lookup_insert_is_Some.
    destruct H as [H | H].
    + destruct (decide (k' = k)); [left; left; assumption | left; right; done].
    + cbn in H. apply elem_of_cons in H. destruct H as [-> | H]; [left; left | right]; done.
Qed.

Lemma foldl_assign_size (l : list (string * PriceData.t)) :
  forall (d : gmap string PriceData.t),
  NoDup l.*1 -> (forall k, k ∈ l.*1 -> d !! k = None) ->
  size (foldl assign d l) = (size d + length l)%nat.
Proof.
  induction l as [|[k' bar'] l IH]; intros d Hnd Hfresh; cbn; [lia |].
  cbn in Hnd. apply NoDup_cons in Hnd. destruct Hnd as [Hk' Hnd].
  rewrite IH; [| exact Hnd |].
  - unfold assign. cbn. rewrite map_size_insert_None; [lia |].
    apply Hfresh. left.
  - intros k Hk. unfold assign. cbn. rewrite lookup_insert_ne.
    + apply Hfresh. right. exact Hk.
    + intros ->. contradiction.
Qed.

Lemma assignments_elem (quote : Quote.t) (timestamps : list Z) :
  forall (i : nat) (k : string) (bar : PriceData.t),
  (k, bar) ∈ assignments Local interval quote i timestamps <->
  exists (j : nat) (timestamp : Z),
    timestamps !! j = Some timestamp /\ k = formatKey Local interval timestamp /\
    barAt quote (i + j) = Some bar.
Proof.
  induction timestamps as [|timestamp rest IH]; intros i k bar; cbn [assignments].
  - split; [intros H; inversion H | intros (j & t & H & _); destruct j; discriminate H].
  - rewrite elem_of_app, IH. split.
    + intros [H | (j & t & Hj & Hk & Hbar)].
      * destruct (barAt quote i) as [b|] eqn:Hb; [| inversion H].
        apply list_elem_of_singleton in H. injection H as -> ->.
        exists 0%nat, timestamp. rewrite Nat.add_0_r. done.
      * exists (S j), t. rewrite Nat.add_succ_r. done.
    + intros (j & t & Hj & Hk & Hbar). destruct j as [|j].
      * left. cbn in Hj. injection Hj as ->. rewrite Nat.add_0_r in Hbar.
        rewrite Hbar, Hk. apply list_elem_of_singleton. reflexivity.
      * right. exists j, t. rewrite Nat.add_succ_r in Hbar. done.
Qed.

Lemma assignments_keys_sublist (quote : Quote.t) (timestamps : list Z) :
  forall (i : nat),
  (assignments Local interval quote i timestamps).*1 `sublist_of`
  (formatKey Local interval <$> timestamps).
Proof.
  induction timestamps as [|timestamp rest IH]; intros i; cbn [assignments]; [done |].
  rewrite fmap_app, fmap_cons.
  destruct (barAt quote i); cbn.
  - apply sublist_skip, IH.
  - apply sublist_cons, IH.
Qed.

Lemma assignments_length (quote : Quote.t) (timestamps : list Z) :
  forall (i : nat),
  length (assignments Local interval quote i timestamps) =
  Nat.min (length timestamps) (shortest quote - i).
Proof.
  induction timestamps as [|timestamp rest IH]; intros i; cbn [assignments]; [done |].
  rewrite length_app, IH. cbn [length].
  pose proof (barAt_is_Some quote i) as Hb.
  destruct (barAt quote i); cbn [length].
  - assert (i < shortest quote)%nat by (apply Hb; done). lia.
  - assert (~ (i < shortest quote)%nat) by (rewrite <- Hb; intros [? ?]; done). lia.
Qed.

End TransformProperties.

(** C5. [transformHistoricalData] never panics.  Every record of its
    result comes from a position of the timestamps that is within bounds
    of all five arrays, and holds the five values at that position; a
    position beyond the end of any of the arrays leaves no record.  When
    the keys of the timestamps are pairwise distinct the result has as
    many records as there are positions within bounds of the timestamps
    and of the five arrays; so with a volume array one short of the
    timestamps, and the other four as long as the timestamps, it has one
    record fewer than there are timestamps. *)
Theorem transformHistoricalData_bounds (Local : Z -> Z)
    (data : YahooHistoryResponse.t) (interval : string) :
  exists d : gmap string PriceData.t,
    transformHistoricalData Local data interval = Returns d /\
    (forall k bar, d !! k = Some bar ->
       exists result results quote quotes (i : nat) timestamp,
         YahooHistoryResponse.Result (YahooHistoryResponse.Chart data) = result :: results /\
         Indicators.Quote (ChartResult.Indicators result) = quote :: quotes /\
         ChartResult.Timestamp result !! i = Some timestamp /\
         k = formatKey Local interval timestamp /\
         (i < length (Quote.Open quote))%nat /\ (i < length (Quote.High quote))%nat /\
         (i < length (Quote.Low quote))%nat /\ (i < length (Quote.Close quote))%nat /\
         (i < length (Quote.Volume quote))%nat /\
         Quote.Open quote !! i = Some (PriceData.Open bar) /\
         Quote.High quote !! i = Some (PriceData.High bar) /\
         Quote.Low quote !! i = Some (PriceData.Low bar) /\
         Quote.Close quote !! i = Some (PriceData.Close bar) /\
         Quote.Volume quote !! i = Some (PriceData.Volume bar)) /\
    (forall result results quote quotes (i : nat) timestamp,
       YahooHistoryResponse.Result (YahooHistoryResponse.Chart data) = result :: results ->
       Indicators.Quote (ChartResult.Indicators result) = quote :: quotes ->
       ChartResult.Timestamp result !! i = Some timestamp ->
       (i < shortest quote)%nat ->
       is_Some (d !! formatKey Local interval timestamp)) /\
    (forall result results quote quotes,
       YahooHistoryResponse.Result (YahooHistoryResponse.Chart data) = result :: results ->
       Indicators.Quote (ChartResult.Indicators result) = quote :: quotes ->
       NoDup (formatKey Local interval <$> ChartResult.Timestamp result) ->
       size d = Nat.min (length (ChartResult.Timestamp result)) (shortest quote) /\
       (length (Quote.Open quote) = length (ChartResult.Timestamp result) ->
        length (Quote.High quote) = length (ChartResult.Timestamp result) ->
        length (Quote.Low quote) = length (ChartResult.Timestamp result) ->
        length (Quote.Close quote) = length (ChartResult.Timestamp result) ->
        S (length (Quote.Volume quote)) = length (ChartResult.Timestamp result) ->
        size d = (length (ChartResult.Timestamp result) - 1)%nat)).
Proof.
  unfold transformHistoricalData.
  destruct (YahooHistoryResponse.Result (YahooHistoryResponse.Chart data))
    as [|result results] eqn:Hres.
  { exists ∅. split; [reflexivity |].
    split; [| split; [intros ? ? ? ? ? ? [=] | intros ? ? ? ? [=]]].
    intros k bar H. rewrite lookup_empty in H. discriminate H. }
  destruct (Indicators.Quote (ChartResult.Indicators result)) as [|quote quotes] eqn:Hq.
  { exists ∅. split; [apply rangeTimestamps_no_quote; exact Hq |].
    split; [| split; [intros ? ? ? ? ? ? [= <- <-]; rewrite Hq; intros [=]
                     | intros ? ? ? ? [= <- <-]; rewrite Hq; intros [=]]].
    intros k bar H. rewrite lookup_empty in H. discriminate H. }
  eexists. split; [apply (rangeTimestamps_assignments _ _ _ quote quotes _ Hq) |].
  split; [| split].
  - intros k bar H. apply foldl_assign_lookup in H.
    destruct H as [H | H]; [rewrite lookup_empty in H; discriminate H |].
    apply assignments_elem in H. destruct H as (j & timestamp & Hj & Hk & Hbar).
    cbn in Hbar. apply barAt_Some in Hbar. destruct Hbar as (Ho & Hh & Hl & Hc & Hv).
    exists result, results, quote, quotes, j, timestamp.
    repeat split; try done; eapply lookup_lt_Some; eassumption.
  - intros result' results' quote' quotes' i timestamp [= <- <-] Hq' Hi Hlt.
    rewrite Hq in Hq'. injection Hq' as <- <-.
    apply barAt_is_Some in Hlt. destruct Hlt as [bar Hbar].
    apply foldl_assign_is_Some. right. apply list_elem_of_fmap.
    exists (formatKey Local interval timestamp, bar). split; [reflexivity |].
    apply assignments_elem. exists i, timestamp. done.
  - intros result' results' quote' quotes' [= <- <-] Hq' Hnd.
    rewrite Hq in Hq'. injection Hq' as <- <-.
    assert (size (foldl assign ∅
                    (assignments Local interval quote 0 (ChartResult.Timestamp result))) =
            Nat.min (length (ChartResult.Timestamp result)) (shortest quote)) as Hsize.
    { rewrite foldl_assign_size.
      - rewrite map_size_empty, assignments_length. lia.
      - apply (sublist_NoDup _ _ Hnd), assignments_keys_sublist.
      - intros k _. apply lookup_empty. }
    split; [exact Hsize |].
    intros Ho Hh Hl Hc Hv. rewrite Hsize. unfold shortest. lia.
Qed.

Lemma transformHistoricalData_bounds_witness :
  transformHistoricalData time.UTC shortVolume "1d" = Returns {[ "2023-11-14" := firstBar ]} /\
  size ({[ "2023-11-14" := firstBar ]} : gmap string PriceData.t) = (2 - 1)%nat.
Proof.
  assert (transformHistoricalData time.UTC shortVolume "1d" =
          Returns {[ "2023-11-14" := firstBar ]}) as E by (vm_compute; reflexivity).
  split; [exact E |].
  destruct (transformHistoricalData_bounds time.UTC shortVolume "1d") as (d & Hd & _ & _ & Hsize).
  rewrite E in Hd. injection Hd as <-.
  refine (proj2 (Hsize shortVolumeResult [] shortVolumeQuote [] eq_refl eq_refl _)
            eq_refl eq_refl eq_refl eq_refl eq_refl).
  apply (bool_decide_unpack _). vm_compute. exact I.
Defined.

(** ** Key format *)

Lemma length_zeros (n : nat) : String.length (time.zeros n) = n.
Proof. induction n as [|n IH]; simpl; [reflexivity | f_equal; exact IH]. Qed.

(** A number below [10^k] has between one and [k] digits. *)
Lemma length_utoa (fuel : nat) :
  forall (k : nat) (u : Z),
  (1 <= k <= fuel)%nat -> 0 <= u < 10 ^ Z.of_nat k ->
  (1 <= String.length (time.utoa fuel u) <= k)%nat.
Proof.
  induction fuel as [|fuel IH]; intros k u Hk Hu; [lia |].
  cbn [time.utoa]. destruct (Z.ltb_spec u 10) as [Hlt | Hge].
  - cbn. lia.
  - rewrite length_append. cbn [time.digit String.length].
    destruct k as [|[|k]]; [lia | change (10 ^ Z.of_nat 1) with 10 in Hu; lia |].
    specialize (IH (S k) (u / 10)).
    assert (0 <= u / 10 < 10 ^ Z.of_nat (S k)) as Hdiv.
    { replace (Z.of_nat (S (S k))) with (Z.succ (Z.of_nat (S k))) in Hu by lia.
      rewrite Z.pow_succ_r in Hu by lia.
      split; [apply Z.div_pos; lia | apply Z.div_lt_upper_bound; lia]. }
    specialize (IH ltac:(lia) Hdiv). lia.
Qed.

(** [appendInt] of a number from 0 up to [10^width] adds [width]
    characters. *)
Lemma length_appendInt (b : string) (x : Z) (width : nat) :
  (1 <= width <= 20)%nat -> 0 <= x < 10 ^ Z.of_nat width ->
  String.length (time.appendInt b x width) = (String.length b + width)%nat.
Proof.
  intros Hw Hx. unfold time.appendInt.
  destruct (Z.ltb_spec x 0) as [Hneg | _]; [lia |].
  rewrite Z.abs_eq by lia.
  pose proof (length_utoa 20 width x ltac:(lia) Hx) as Hlen.
  rewrite !length_append, length_zeros. lia.
Qed.

(** The day of the year lies between 0 and 365. *)
Lemma yearDay_range (days : Z) : 0 <= snd (time.yearDay days) <= 365.
Proof.
  unfold time.yearDay, time.daysPer400Years, time.daysPer100Years, time.daysPer4Years.
  cbn [snd]. rewrite !Z.shiftr_div_pow2 by lia. change (2 ^ 2) with 4.
  Z.div_mod_to_equations. lia.
Qed.

(** Days from 1 January of year 0 up to, and without, 1 January of year
    10000 fall in the years 0 to 9999; the days are counted from the
    absolute zero, 106751990353932 days before 1 January of year 1. *)
Lemma yearDay_four_digits (days : Z) :
  106751990353932 - 366 <= days < 106751990353932 + 3652059 ->
  0 <= fst (time.yearDay days) <= 9999.
Proof.
  unfold time.yearDay, time.daysPer400Years, time.daysPer100Years, time.daysPer4Years,
    time.absoluteZeroYear.
  cbn [fst]. rewrite !Z.shiftr_div_pow2 by lia. change (2 ^ 2) with 4.
  intros H. Z.div_mod_to_equations. lia.
Qed.

(** The month and the day of the month take two digits. *)
Lemma monthDay_range (year yday : Z) :
  0 <= yday <= 365 ->
  1 <= fst (time.monthDay year yday) <= 13 /\ 1 <= snd (time.monthDay year yday) <= 31.
Proof.
  intros Hy. unfold time.monthDay.
  destruct (time.isLeap year && (yday =? 31 + 29 - 1)); [cbn; lia |].
  set (day := if time.isLeap year && (31 + 29 - 1 <? yday) then yday - 1 else yday).
  assert (0 <= day <= 365) as Hday.
  { subst day. destruct (time.isLeap year); cbn [andb]; [| lia].
    destruct (Z.ltb_spec (31 + 29 - 1) yday); lia. }
  clearbody day.
  assert (0 <= day / 31 <= 11) as Hm.
  { split; [apply Z.div_pos; lia |].
    assert (day / 31 < 12) by (apply Z.div_lt_upper_bound; lia). lia. }
  pose proof (Z.div_mod day 31 ltac:(lia)) as Hdm.
  pose proof (Z.mod_pos_bound day 31 ltac:(lia)) as Hmod.
  assert (day / 31 = 0 \/ day / 31 = 1 \/ day / 31 = 2 \/ day / 31 = 3 \/
          day / 31 = 4 \/ day / 31 = 5 \/ day / 31 = 6 \/ day / 31 = 7 \/
          day / 31 = 8 \/ day / 31 = 9 \/ day / 31 = 10 \/ day / 31 = 11) as Hcases by lia.
  repeat (destruct Hcases as [Hc | Hcases]; [rewrite Hc in *; clear Hc | ]);
    try rewrite Hcases in *;
    repeat match goal with
    | |- context [nth ?n time.daysBefore 0] =>
        let v := eval vm_compute in (nth n time.daysBefore 0) in
        change (nth n time.daysBefore 0) with v
    end;
    match goal with |- context [if ?a <=? ?b then _ else _] =>
      destruct (Z.leb_spec a b) end; cbn [fst snd]; lia.
Qed.

Lemma clock_ranges (Local : Z -> Z) (t : time.Time) :
  0 <= time.Hour Local t < 100 /\ 0 <= time.Minute Local t < 100 /\
  0 <= time.Second Local t < 100.
Proof.
  unfold time.Hour, time.Minute, time.Second, time.secondsPerDay, time.secondsPerHour,
    time.secondsPerMinute.
  generalize (time.abs Local t). intros a. Z.div_mod_to_equations. lia.
Qed.

Lemma Year_four_digits (Local : Z -> Z) (t : time.Time) :
  startOfYear0 <= time.unixSec t + Local (time.unixSec t) < startOfYear10000 ->
  0 <= time.Year Local t <= 9999.
Proof.
  unfold startOfYear0, startOfYear10000. intros H. unfold time.Year.
  apply yearDay_four_digits.
  unfold time.abs, time.uint64, time.secondsPerDay, time.secondsPerHour,
    time.secondsPerMinute.
  change (time.unixToInternal + time.internalToAbsolute) with 9223372028715321600.
  rewrite Z.mod_small by lia.
  Z.div_mod_to_equations. lia.
Qed.

(** Side conditions of [length_appendInt] for two and four digits. *)
Ltac width_side :=
  first [ lia
        | change (10 ^ Z.of_nat 2) with 100; lia
        | change (10 ^ Z.of_nat 4) with 10000; lia ].

Lemma Format_layoutDate_length (Local : Z -> Z) (t : time.Time) :
  0 <= time.Year Local t <= 9999 ->
  String.length (time.Format Local t time.layoutDate) = 10%nat.
Proof.
  intros Hy. unfold time.Format, time.layoutDate. cbn [foldl time.appendChunk].
  assert (1 <= time.Month Local t <= 13 /\ 1 <= time.Day Local t <= 31) as [Hm Hd]
    by (unfold time.Month, time.Day; apply monthDay_range; unfold time.YearDay;
        apply yearDay_range).
  repeat first [rewrite length_appendInt by width_side | rewrite length_append].
  reflexivity.
Qed.

Lemma Format_layoutDateTime_length (Local : Z -> Z) (t : time.Time) :
  0 <= time.Year Local t <= 9999 ->
  String.length (time.Format Local t time.layoutDateTime) = 19%nat.
Proof.
  intros Hy. unfold time.Format, time.layoutDateTime. cbn [foldl time.appendChunk].
  assert (1 <= time.Month Local t <= 13 /\ 1 <= time.Day Local t <= 31) as [Hm Hd]
    by (unfold time.Month, time.Day; apply monthDay_range; unfold time.YearDay;
        apply yearDay_range).
  pose proof (clock_ranges Local t) as (Hh & Hmin & Hs).
  repeat first [rewrite length_appendInt by width_side | rewrite length_append].
  reflexivity.
Qed.

(** C4, as worded, fails: a timestamp in the year 10000 gives a date key
    of 11 characters and a date-time key of 20. *)
Lemma key_of_year_10000 :
  transformHistoricalData time.UTC year10000 "1d" =
    Returns {[ "10000-01-01" := firstBar ]} /\
  String.length "10000-01-01" = 11%nat /\
  transformHistoricalData time.UTC year10000 "5m" =
    Returns {[ "10000-01-01 00:00:00" := firstBar ]} /\
  String.length "10000-01-01 00:00:00" = 20%nat /\
  ~ keys_have_fixed_width.
Proof.
  assert (transformHistoricalData time.UTC year10000 "1d" =
          Returns {[ "10000-01-01" := firstBar ]}) as E by (vm_compute; reflexivity).
  split; [exact E |]. split; [reflexivity |].
  split; [vm_compute; reflexivity |]. split; [reflexivity |].
  intros Hclaim.
  specialize (Hclaim time.UTC year10000 "1d" _ "10000-01-01" E).
  assert (is_Some (({[ "10000-01-01" := firstBar ]} : gmap string PriceData.t)
                     !! "10000-01-01")) as Hk
    by (exists firstBar; apply lookup_singleton_eq).
  specialize (Hclaim Hk). discriminate Hclaim.
Qed.

(** C4, amended. When every timestamp falls, on the local wall clock, in
    a year from 0 to 9999, every key of the result is the date
    (YYYY-MM-DD, 10 characters) of one of the timestamps if the
    granularity ends with "d", "wk" or "mo", and its date and time
    (YYYY-MM-DD HH:MM:SS, 19 characters) otherwise. *)
Theorem transformHistoricalData_key_width (Local : Z -> Z)
    (data : YahooHistoryResponse.t) (interval : string)
    (d : gmap string PriceData.t) (k : string) :
  fourDigitYears Local data ->
  transformHistoricalData Local data interval = Returns d ->
  is_Some (d !! k) ->
  (exists result results timestamp,
     YahooHistoryResponse.Result (YahooHistoryResponse.Chart data) = result :: results /\
     timestamp ∈ ChartResult.Timestamp result /\
     k = time.Format Local (time.Unix timestamp) (keyLayout interval)) /\
  String.length k = keyWidth interval.
Proof.
  intros Hyears Hd [bar Hk]. unfold transformHistoricalData in Hd.
  destruct (YahooHistoryResponse.Result (YahooHistoryResponse.Chart data))
    as [|result results] eqn:Hres.
  { injection Hd as <-. rewrite lookup_empty in Hk. discriminate Hk. }
  destruct (Indicators.Quote (ChartResult.Indicators result)) as [|quote quotes] eqn:Hq.
  { rewrite (rangeTimestamps_no_quote _ _ _ _ Hq) in Hd. injection Hd as <-.
    rewrite lookup_empty in Hk. discriminate Hk. }
  rewrite (rangeTimestamps_assignments _ _ _ quote quotes _ Hq) in Hd. injection Hd as <-.
  apply foldl_assign_lookup in Hk.
  destruct Hk as [Hk | Hk]; [rewrite lookup_empty in Hk; discriminate Hk |].
  apply assignments_elem in Hk. destruct Hk as (j & timestamp & Hj & -> & _).
  assert (timestamp ∈ ChartResult.Timestamp result) as Hin
    by (eapply list_elem_of_lookup_2; exact Hj).
  pose proof (Year_four_digits Local (time.Unix timestamp)
                (Hyears _ _ _ Hres Hin)) as Hy.
  split.
  - exists result, results, timestamp. repeat split; [exact Hin |].
    unfold formatKey, keyLayout.
    destruct (HasSuffix interval "d" || HasSuffix interval "wk" || HasSuffix interval "mo");
      reflexivity.
  - unfold formatKey, keyWidth.
    destruct (HasSuffix interval "d" || HasSuffix interval "wk" || HasSuffix interval "mo").
    + apply Format_layoutDate_length, Hy.
    + apply Format_layoutDateTime_length, Hy.
Qed.

Lemma transformHistoricalData_key_width_witness :
  fourDigitYears time.UTC shortVolume /\
  transformHistoricalData time.UTC shortVolume "1d" = Returns {[ "2023-11-14" := firstBar ]} /\
  is_Some (({[ "2023-11-14" := firstBar ]} : gmap string PriceData.t) !! "2023-11-14") /\
  String.length "2023-11-14" = keyWidth "1d".
Proof.
  assert (fourDigitYears time.UTC shortVolume) as Hy.
  { intros result results timestamp [= <- <-] Hin. cbn in Hin.
    unfold startOfYear0, startOfYear10000, time.UTC.
    apply elem_of_cons in Hin. destruct Hin as [-> | Hin]; [lia |].
    apply elem_of_cons in Hin. destruct Hin as [-> | Hin]; [lia | inversion Hin]. }
  assert (transformHistoricalData time.UTC shortVolume "1d" =
          Returns {[ "2023-11-14" := firstBar ]}) as Hd by (vm_compute; reflexivity).
  assert (is_Some (({[ "2023-11-14" := firstBar ]} : gmap string PriceData.t)
                     !! "2023-11-14")) as Hk
    by (exists firstBar; apply lookup_singleton_eq).
  split; [exact Hy |]. split; [exact Hd |]. split; [exact Hk |].
  exact (proj2 (transformHistoricalData_key_width time.UTC shortVolume "1d" _ "2023-11-14"
                  Hy Hd Hk)).
Defined.

(** ** Session bootstrap *)

Section SessionProperties.
Variable BaseUrl : string.
Variable server : Session.Server.

Lemma count_insert (f : Session.pc -> bool) (ths : list Session.Thread) :
  forall (i : nat) (old new : Session.Thread),
  ths !! i = Some old ->
  (count f (<[i := new]> ths) + (if f (Session.at_ old) then 1 else 0) =
   count f ths + (if f (Session.at_ new) then 1 else 0))%nat.
Proof.
  induction ths as [|th ths IH]; intros i old new Hi; [discriminate Hi |].
  destruct i as [|i]; cbn in Hi |- *.
  - injection Hi as ->.
    destruct (f (Session.at_ new)), (f (Session.at_ old)); lia.
  - rewrite <- !Nat.add_assoc. f_equal. exact (IH i old new Hi).
Qed.

(** Relate the callers' debts after thread [i] moved to those before. *)
Ltac owed_after Hcookie Hcrumb Hi :=
  match goal with
  | |- context [<[_ := ?new]> _] =>
      specialize (Hcookie new Hi); specialize (Hcrumb new Hi);
      cbn in Hcookie, Hcrumb |- *; repeat case_decide; try done; cbn [length]; lia
  end.

Lemma count_finished (f : Session.pc -> bool) (ths : list Session.Thread) :
  (forall r resp, f (Session.Done r resp) = false) ->
  forallb Session.finished ths = true -> count f ths = 0%nat.
Proof.
  intros Hf. induction ths as [|th ths IH]; cbn; [reflexivity |].
  rewrite andb_true_iff. intros [Hth Hths]. rewrite (IH Hths).
  unfold Session.finished in Hth. destruct (Session.at_ th); try discriminate Hth.
  rewrite Hf. reflexivity.
Qed.

(** While every caller is past the tests, a step keeps that so, and
    keeps the requests made plus the requests owed constant. *)
Lemma step_conserves (s : Session.State) (i : nat) :
  Forall (fun th => pastTests (Session.at_ th) = true) (Session.threads s) ->
  let s' := Session.step BaseUrl server s i in
  Forall (fun th => pastTests (Session.at_ th) = true) (Session.threads s') /\
  (Session.fetches Session.CookieFetch s' + count owesCookie (Session.threads s') =
   Session.fetches Session.CookieFetch s + count owesCookie (Session.threads s))%nat /\
  (Session.fetches Session.CrumbFetch s' + count owesCrumb (Session.threads s') =
   Session.fetches Session.CrumbFetch s + count owesCrumb (Session.threads s))%nat.
Proof.
  intros Hall. unfold Session.step.
  destruct (Session.threads s !! i) as [th|] eqn:Hi; [| cbn; auto].
  pose proof (proj1 (Forall_lookup _ _) Hall i th Hi) as Hth. cbn beta in Hth.
  pose proof (count_insert owesCookie (Session.threads s) i th) as Hcookie.
  pose proof (count_insert owesCrumb (Session.threads s) i th) as Hcrumb.
  unfold Session.advance.
  destruct th as [target query p]. cbn [Session.at_ Session.target Session.query] in *.
  destruct p; try discriminate Hth.
  - (* AtCookieFetch *)
    destruct (server (Session.wire s)
                (Session.get (Session.instance s) Session.CookieFetch "https://fc.yahoo.com" []))
      as [err | cs body] eqn:Hresp;
      cbn [Session.doRequest]; rewrite Hresp; cbn [Session.threads Session.wire
        Session.onceDone Session.instance];
      (split; [apply Forall_insert; [exact Hall | reflexivity] |]);
      unfold Session.fetches; cbn [Session.wire]; rewrite !filter_app, !length_app;
      owed_after Hcookie Hcrumb Hi.
  - (* AtCookieStore *)
    cbn [Session.setCookies Session.threads Session.wire Session.onceDone Session.instance].
    split; [apply Forall_insert; [exact Hall | reflexivity] |].
    unfold Session.fetches; cbn [Session.wire].
    owed_after Hcookie Hcrumb Hi.
  - (* AtCrumbFetch *)
    destruct (server (Session.wire s)
                (Session.get (Session.instance s) Session.CrumbFetch
                   (BaseUrl +:+ "/v1/test/getcrumb") []))
      as [err | cs [body|]] eqn:Hresp;
      cbn [Session.doRequest]; rewrite Hresp; cbn [Session.threads Session.wire
        Session.onceDone Session.instance];
      (split; [apply Forall_insert; [exact Hall | reflexivity] |]);
      unfold Session.fetches; cbn [Session.wire]; rewrite !filter_app, !length_app;
      owed_after Hcookie Hcrumb Hi.
  - (* AtCrumbStore *)
    cbn [Session.setCrumb Session.threads Session.wire Session.onceDone Session.instance].
    split; [apply Forall_insert; [exact Hall | reflexivity] |].
    unfold Session.fetches; cbn [Session.wire].
    owed_after Hcookie Hcrumb Hi.
  - (* AtRequest *)
    cbn [Session.doRequest Session.threads Session.wire Session.onceDone Session.instance].
    split; [apply Forall_insert; [exact Hall | reflexivity] |].
    unfold Session.fetches; cbn [Session.wire]. rewrite !filter_app, !length_app.
    owed_after Hcookie Hcrumb Hi.
  - (* Done *)
    cbn [Session.threads Session.wire Session.onceDone Session.instance].
    split; [apply Forall_insert; [exact Hall | reflexivity] |].
    unfold Session.fetches; cbn [Session.wire].
    owed_after Hcookie Hcrumb Hi.
Qed.

Lemma run_conserves (schedule : list nat) :
  forall s : Session.State,
  Forall (fun th => pastTests (Session.at_ th) = true) (Session.threads s) ->
  let s' := Session.run BaseUrl server schedule s in
  (Session.fetches Session.CookieFetch s' + count owesCookie (Session.threads s') =
   Session.fetches Session.CookieFetch s + count owesCookie (Session.threads s))%nat /\
  (Session.fetches Session.CrumbFetch s' + count owesCrumb (Session.threads s') =
   Session.fetches Session.CrumbFetch s + count owesCrumb (Session.threads s))%nat.
Proof.
  induction schedule as [|i schedule IH]; intros s Hall; cbn; [split; reflexivity |].
  destruct (step_conserves s i Hall) as (Hall' & Hcookie & Hcrumb).
  destruct (IH _ Hall') as [Hcookie' Hcrumb'].
  unfold Session.run in Hcookie', Hcrumb'. split; lia.
Qed.

End SessionProperties.

(** After both callers took their three first steps in turn, both stand
    before the cookie request and nothing has been sent. *)
Lemma bothTestFirst_state (BaseUrl : string) (server : Session.Server)
    (first second : string * Values) :
  Session.run BaseUrl server bothTestFirst (Session.start [first; second]) =
  Session.mkState true (Session.mkClient [] EmptyString) []
    [Session.mkThread first.1 first.2 Session.AtCookieFetch;
     Session.mkThread second.1 second.2 Session.AtCookieFetch].
Proof. reflexivity. Qed.

(** C1 on the code.  [getCrumb] and [getCookie] test that [c.crumb] is empty and that
    [c.cookies] is empty without any lock; only [getClient] runs under
    [once.Do].  So when two callers both make the two tests before either
    goes on, then whatever the server answers and however the callers
    are scheduled afterwards, once both are done the client has sent two
    cookie requests and two crumb requests; and against a server that
    hands out a fresh crumb each time, the two callers' own requests
    carry different crumbs. *)
Theorem overlapping_first_use_fetches_twice (BaseUrl : string) :
  (forall (server : Session.Server) (first second : string * Values) (rest : list nat),
     let s := Session.run BaseUrl server (bothTestFirst ++ rest)
                (Session.start [first; second]) in
     forallb Session.finished (Session.threads s) = true ->
     Session.fetches Session.CookieFetch s = 2%nat /\
     Session.fetches Session.CrumbFetch s = 2%nat) /\
  (let s := Session.run BaseUrl Session.freshCrumbs overlapping
              (Session.start (twoCallers BaseUrl)) in
   forallb Session.finished (Session.threads s) = true /\
   Session.crumbSent <$> Session.threads s = [Some "crumb-1"; Some "crumb-2"]).
Proof.
  split; [| vm_compute; split; reflexivity].
  intros server first second rest s Hdone. subst s.
  unfold Session.run in *. rewrite foldl_app in *.
  fold (Session.run BaseUrl server bothTestFirst (Session.start [first; second])) in *.
  rewrite bothTestFirst_state in *.
  match type of Hdone with
  | context [foldl _ ?s0 rest] =>
      assert (Forall (fun th => pastTests (Session.at_ th) = true) (Session.threads s0))
        as Hall by (repeat constructor);
      destruct (run_conserves BaseUrl server rest s0 Hall) as [Hcookie Hcrumb]
  end.
  unfold Session.run in Hcookie, Hcrumb.
  rewrite (count_finished owesCookie _ (fun _ _ => eq_refl) Hdone) in Hcookie.
  rewrite (count_finished owesCrumb _ (fun _ _ => eq_refl) Hdone) in Hcrumb.
  cbn in Hcookie, Hcrumb. split; lia.
Qed.

Lemma overlapping_first_use_fetches_twice_witness :
  let s := Session.run query2 Session.freshCrumbs overlapping
             (Session.start (twoCallers query2)) in
  forallb Session.finished (Session.threads s) = true /\
  Session.fetches Session.CookieFetch s = 2%nat /\
  Session.fetches Session.CrumbFetch s = 2%nat.
Proof.
  split; [vm_compute; reflexivity |].
  apply (proj1 (overlapping_first_use_fetches_twice query2) Session.freshCrumbs
           (query2 +:+ "/v8/finance/chart/AAPL", [("range", "1y"); ("interval", "1d")])
           (query2 +:+ "/v8/finance/chart/MSFT", [("range", "1y"); ("interval", "1d")])
           [0; 1; 0; 1; 0; 1; 0; 0; 1; 1]%nat).
  vm_compute. reflexivity.
Defined.

(** The same two callers one after the other: one cookie request, one
    crumb request, the same crumb on both requests. *)
Lemma sequential_first_use_fetches_once (BaseUrl : string) :
  let s := Session.run BaseUrl Session.freshCrumbs (Session.alone 0 ++ Session.alone 1)
             (Session.start (twoCallers BaseUrl)) in
  forallb Session.finished (Session.threads s) = true /\
  Session.fetches Session.CookieFetch s = 1%nat /\
  Session.fetches Session.CrumbFetch s = 1%nat /\
  Session.crumbSent <$> Session.threads s = [Some "crumb-1"; Some "crumb-1"].
Proof. vm_compute. repeat split. Qed.

(** * Further properties *)

(** ** Time series transform: overwriting and what is never read *)

Lemma assignments_app (Local : Z -> Z) (interval : string) (quote : Quote.t)
    (front back : list Z) :
  forall i : nat,
  assignments Local interval quote i (front ++ back)%list =
  (assignments Local interval quote i front ++
   assignments Local interval quote (i + length front) back)%list.
Proof.
  induction front as [|timestamp front IH]; intros i; cbn [assignments app length].
  - rewrite Nat.add_0_r. reflexivity.
  - rewrite IH, <- app_assoc. do 3 f_equal. lia.
Qed.

Lemma foldl_assign_other (l : list (string * PriceData.t)) :
  forall (d : gmap string PriceData.t) (k : string),
  k ∉ l.*1 -> foldl assign d l !! k = d !! k.
Proof.
  induction l as [|[k' bar'] l IH]; intros d k Hk; cbn; [reflexivity |].
  cbn in Hk. apply not_elem_of_cons in Hk. destruct Hk as [Hne Hk].
  rewrite (IH _ _ Hk). unfold assign. cbn. apply lookup_insert_ne. congruence.
Qed.

(** Positions at or beyond the end of the shortest array assign nothing. *)
Lemma assignments_beyond (Local : Z -> Z) (interval : string) (quote : Quote.t)
    (timestamps : list Z) :
  forall i : nat, (shortest quote <= i)%nat ->
  assignments Local interval quote i timestamps = [].
Proof.
  induction timestamps as [|timestamp rest IH]; intros i Hi; cbn [assignments]; [reflexivity |].
  assert (barAt quote i = None) as ->.
  { apply eq_None_not_Some. rewrite barAt_is_Some. lia. }
  rewrite IH by lia. reflexivity.
Qed.

(** Timestamps before the absolute zero wrap: the two bars of
    [beforeZero] would fall on 27 and 28 January of the year
    -292277022657, and are filed under one and the same day of the year
    292277026596, where the second overwrites the first. *)
Example wrapped_timestamps_share_a_key :
  transformHistoricalData time.UTC beforeZero "1d" =
    Returns {[ "292277026596-12-05" := secondBar ]} /\
  transformHistoricalData time.UTC beforeZero "1h" =
    Returns {[ "292277026596-12-05 00:00:08" := firstBar;
               "292277026596-12-05 20:00:08" := secondBar ]}.
Proof. split; vm_compute; reflexivity. Qed.

(** X1. When several positions of the timestamps format to the same
    key, the record kept under that key is the one of the last such
    position that is within bounds of the five arrays. *)
Theorem transformHistoricalData_last_write_wins (Local : Z -> Z)
    (data : YahooHistoryResponse.t) (interval : string)
    (result : ChartResult.t) (results : list ChartResult.t)
    (quote : Quote.t) (quotes : list Quote.t)
    (i : nat) (timestamp : Z) (bar : PriceData.t) :
  YahooHistoryResponse.Result (YahooHistoryResponse.Chart data) = result :: results ->
  Indicators.Quote (ChartResult.Indicators result) = quote :: quotes ->
  ChartResult.Timestamp result !! i = Some timestamp ->
  barAt quote i = Some bar ->
  (forall (j : nat) (later : Z),
     (i < j < shortest quote)%nat -> ChartResult.Timestamp result !! j = Some later ->
     formatKey Local interval later <> formatKey Local interval timestamp) ->
  exists d : gmap string PriceData.t,
    transformHistoricalData Local data interval = Returns d /\
    d !! formatKey Local interval timestamp = Some bar.
Proof.
  intros Hres Hq Hi Hbar Hlast. unfold transformHistoricalData. rewrite Hres.
  eexists. split; [apply (rangeTimestamps_assignments _ _ _ quote quotes _ Hq) |].
  rewrite <- (take_drop_middle _ _ _ Hi), assignments_app, foldl_app.
  cbn [assignments]. rewrite Nat.add_0_l.
  assert (length (take i (ChartResult.Timestamp result)) = i) as ->.
  { rewrite length_take. apply lookup_lt_Some in Hi. lia. }
  rewrite Hbar. cbn [app foldl]. rewrite foldl_assign_other.
  - unfold assign. cbn. apply lookup_insert_eq.
  - intros Hin. apply list_elem_of_fmap in Hin. destruct Hin as ([k bar'] & Hk & Hin).
    cbn in Hk. subst k. apply assignments_elem in Hin.
    destruct Hin as (j & later & Hj & Hkey & Hbar').
    rewrite lookup_drop in Hj.
    apply (Hlast (S i + j)%nat later); [| exact Hj | congruence].
    assert (is_Some (barAt quote (S i + j))) as Hs by (rewrite Hbar'; done).
    apply barAt_is_Some in Hs. lia.
Qed.

Lemma transformHistoricalData_last_write_wins_witness :
  exists d : gmap string PriceData.t,
    transformHistoricalData time.UTC sameDay "1d" = Returns d /\
    d !! "2023-11-14" = Some secondBar.
Proof.
  apply (transformHistoricalData_last_write_wins time.UTC sameDay "1d"
           sameDayResult [] sameDayQuote [] 1%nat 1700003600 secondBar
           eq_refl eq_refl eq_refl eq_refl).
  intros j later Hj. vm_compute in Hj. lia.
Defined.

(** X2. [transformHistoricalData] reads nothing but the first result,
    its first quote block, and the timestamps up to the end of the
    shortest of the five arrays: on the response cut down to these it
    gives the same map. *)
Theorem transformHistoricalData_reads_first_block (Local : Z -> Z)
    (data : YahooHistoryResponse.t) (interval : string)
    (result : ChartResult.t) (results : list ChartResult.t)
    (quote : Quote.t) (quotes : list Quote.t) :
  YahooHistoryResponse.Result (YahooHistoryResponse.Chart data) = result :: results ->
  Indicators.Quote (ChartResult.Indicators result) = quote :: quotes ->
  transformHistoricalData Local data interval =
  transformHistoricalData Local (firstBlock result quote) interval.
Proof.
  intros Hres Hq. unfold transformHistoricalData, firstBlock. rewrite Hres.
  cbn [YahooHistoryResponse.Result YahooHistoryResponse.Chart ChartResult.Timestamp].
  rewrite (rangeTimestamps_assignments _ _ _ quote quotes _ Hq).
  rewrite (rangeTimestamps_assignments Local interval
             (ChartResult.mk (take (shortest quote) (ChartResult.Timestamp result))
                (Indicators.mk [quote])) quote [] _ eq_refl).
  do 2 f_equal.
  set (timestamps := ChartResult.Timestamp result).
  set (n := shortest quote).
  transitivity (assignments Local interval quote 0 (take n timestamps ++ drop n timestamps));
    [rewrite take_drop; reflexivity |].
  rewrite assignments_app, Nat.add_0_l.
  destruct (decide (n <= length timestamps)%nat) as [Hle | Hgt].
  - rewrite (assignments_beyond _ _ _ (drop n timestamps)); [apply app_nil_r |].
    rewrite length_take. lia.
  - rewrite drop_ge by lia. apply app_nil_r.
Qed.

Lemma transformHistoricalData_reads_first_block_witness :
  transformHistoricalData time.UTC shortVolume "1d" =
  transformHistoricalData time.UTC (firstBlock shortVolumeResult shortVolumeQuote) "1d".
Proof.
  apply (transformHistoricalData_reads_first_block time.UTC shortVolume "1d"
           shortVolumeResult [] shortVolumeQuote [] eq_refl eq_refl).
Defined.

(** ** Module merge: where each field comes from *)

(** X3. Every field of the ratios has one fixed source: price-to-sales,
    dividend rate and dividend yield come from [summaryDetail] alone, the
    fourteen profitability, liquidity, leverage, growth and per-share
    fields from [financialData] alone, trailing P/E and price-to-book from
    [summaryDetail] and else [defaultKeyStatistics]; price-to-EBITDA,
    enterprise-to-revenue and enterprise-to-EBITDA are never filled, even
    when a module carries them.  So a response whose only content is
    [summaryDetail.trailingPE] gives that value and nothing else. *)
Theorem extractFinancialRatios_sources (result : FinancialResult.t) :
  let sd (f : SummaryDetail.t -> option PriceValue.t) :=
    FinancialResult.SummaryDetail result ≫= f in
  let fd (f : FinancialRatios.t -> option PriceValue.t) :=
    FinancialResult.FinancialData result ≫= f in
  let dks (f : FinancialSummary.t -> option PriceValue.t) :=
    FinancialResult.DefaultKeyStatistics result ≫= f in
  extractFinancialRatios result =
  {| FinancialRatios.PriceToEarningsRatio :=
       orElse (sd SummaryDetail.TrailingPE) (dks FinancialSummary.TrailingPE);
     FinancialRatios.PriceToBookRatio :=
       orElse (sd SummaryDetail.PriceToBook) (dks FinancialSummary.PriceToBook);
     FinancialRatios.PriceToSalesRatio := sd SummaryDetail.PriceToSalesTrailing12Months;
     FinancialRatios.PriceToEbitda := None;
     FinancialRatios.EnterpriseToRevenue := None;
     FinancialRatios.EnterpriseToEbitda := None;
     FinancialRatios.ReturnOnEquity := fd FinancialRatios.ReturnOnEquity;
     FinancialRatios.ReturnOnAssets := fd FinancialRatios.ReturnOnAssets;
     FinancialRatios.GrossMargins := fd FinancialRatios.GrossMargins;
     FinancialRatios.EbitdaMargins := fd FinancialRatios.EbitdaMargins;
     FinancialRatios.OperatingMargins := fd FinancialRatios.OperatingMargins;
     FinancialRatios.ProfitMargins := fd FinancialRatios.ProfitMargins;
     FinancialRatios.CurrentRatio := fd FinancialRatios.CurrentRatio;
     FinancialRatios.QuickRatio := fd FinancialRatios.QuickRatio;
     FinancialRatios.DebtToEquity := fd FinancialRatios.DebtToEquity;
     FinancialRatios.TotalDebtToCapital := fd FinancialRatios.TotalDebtToCapital;
     FinancialRatios.EarningsGrowth := fd FinancialRatios.EarningsGrowth;
     FinancialRatios.RevenueGrowth := fd FinancialRatios.RevenueGrowth;
     FinancialRatios.EarningsPerShare := fd FinancialRatios.EarningsPerShare;
     FinancialRatios.BookValuePerShare := fd FinancialRatios.BookValuePerShare;
     FinancialRatios.DividendRate := sd SummaryDetail.DividendRate;
     FinancialRatios.DividendYield := sd SummaryDetail.DividendYield |} /\
  extractFinancialRatios onlyTrailingPE =
    FinancialRatios.set_PriceToEarningsRatio (quoted 28.5 "28.50") FinancialRatios.zero.
Proof.
  split; [| reflexivity].
  split_modules result; try destruct sdPE; try destruct sdPB; cbv; reflexivity.
Qed.

(** X4. The three statement records are read off the first entry of
    their history alone (later entries are never looked at), earnings per
    share and book value per share come from [financialData], and diluted
    EPS, short-term debt and long-term debt are never filled. *)
Theorem statements_from_latest_entry (result : FinancialResult.t) :
  let fd (f : FinancialRatios.t -> option PriceValue.t) :=
    FinancialResult.FinancialData result ≫= f in
  extractIncomeStatement result =
  {| IncomeStatement.TotalRevenue := latestIncome result ≫= IncomeStatementEntry.TotalRevenue;
     IncomeStatement.GrossProfit := latestIncome result ≫= IncomeStatementEntry.GrossProfit;
     IncomeStatement.OperatingIncome :=
       latestIncome result ≫= IncomeStatementEntry.OperatingIncome;
     IncomeStatement.NetIncome := latestIncome result ≫= IncomeStatementEntry.NetIncome;
     IncomeStatement.Ebitda := latestIncome result ≫= IncomeStatementEntry.Ebitda;
     IncomeStatement.EarningsPerShare := fd FinancialRatios.EarningsPerShare;
     IncomeStatement.DilutedEPS := None |} /\
  extractBalanceSheet result =
  {| BalanceSheet.TotalAssets := latestBalance result ≫= BalanceSheetEntry.TotalAssets;
     BalanceSheet.TotalLiabilities := latestBalance result ≫= BalanceSheetEntry.TotalLiab;
     BalanceSheet.TotalEquity :=
       latestBalance result ≫= BalanceSheetEntry.TotalStockholderEquity;
     BalanceSheet.TotalDebt := latestBalance result ≫= BalanceSheetEntry.TotalDebt;
     BalanceSheet.Cash := latestBalance result ≫= BalanceSheetEntry.Cash;
     BalanceSheet.ShortTermDebt := None;
     BalanceSheet.LongTermDebt := None;
     BalanceSheet.BookValuePerShare := fd FinancialRatios.BookValuePerShare |} /\
  extractCashFlow result =
  {| CashFlow.OperatingCashFlow :=
       latestCashflow result ≫= CashflowEntry.TotalCashFromOperatingActivities;
     CashFlow.FreeCashFlow := latestCashflow result ≫= CashflowEntry.FreeCashFlow;
     CashFlow.CapitalExpenditures := latestCashflow result ≫= CashflowEntry.CapitalExpenditures;
     CashFlow.DividendsPaid := latestCashflow result ≫= CashflowEntry.DividendsPaid |}.
Proof.
  destruct result as [dks fd sd ih bh ch].
  destruct fd as [[]|], ih as [[[|[] ?]]|], bh as [[[|[] ?]]|], ch as [[[|[] ?]]|];
    cbv; repeat split; reflexivity.
Qed.

(** X5. In the dividend info, rate, yield, payout ratio and five-year
    average yield come from [summaryDetail] and else from
    [defaultKeyStatistics]; the ex-dividend date and the dividend date
    come from [summaryDetail] alone; the dividends paid come from the
    first cash-flow statement alone. *)
Theorem extractDividendInfo_sources (result : DividendResult.t) :
  let sd (f : DividendSummaryDetail.t -> option PriceValue.t) :=
    DividendResult.SummaryDetail result ≫= f in
  let dks (f : DividendKeyStatistics.t -> option PriceValue.t) :=
    DividendResult.DefaultKeyStatistics result ≫= f in
  extractDividendInfo result =
  {| DividendInfo.DividendRate :=
       orElse (sd DividendSummaryDetail.DividendRate) (dks DividendKeyStatistics.DividendRate);
     DividendInfo.DividendYield :=
       orElse (sd DividendSummaryDetail.DividendYield) (dks DividendKeyStatistics.DividendYield);
     DividendInfo.DividendsPaid :=
       latestDividendCashflow result ≫= DividendCashflowEntry.DividendsPaid;
     DividendInfo.PayoutRatio :=
       orElse (sd DividendSummaryDetail.PayoutRatio) (dks DividendKeyStatistics.PayoutRatio);
     DividendInfo.ExDividendDate := sd DividendSummaryDetail.ExDividendDate;
     DividendInfo.DividendDate := sd DividendSummaryDetail.DividendDate;
     DividendInfo.FiveYearAvgDividendYield :=
       orElse (sd DividendSummaryDetail.FiveYearAvgDividendYield)
              (dks DividendKeyStatistics.FiveYearAvgDividendYield) |}.
Proof.
  destruct result as [[[rate yield ex date payout five]|] [[]|] [[[|[] ?]]|]];
    try destruct rate; try destruct yield; try destruct payout; try destruct five;
    cbv; reflexivity.
Qed.

(** ** Entry points: errors and values *)

Lemma transformHistoricalData_returns (Local : Z -> Z) (data : YahooHistoryResponse.t)
    (interval : string) :
  exists d, transformHistoricalData Local data interval = Returns d.
Proof.
  unfold transformHistoricalData.
  destruct (YahooHistoryResponse.Result (YahooHistoryResponse.Chart data))
    as [|result results]; [eexists; reflexivity |].
  destruct (Indicators.Quote (ChartResult.Indicators result)) as [|quote quotes] eqn:Hq.
  - eexists. apply rangeTimestamps_no_quote. exact Hq.
  - eexists. apply (rangeTimestamps_assignments _ _ _ quote quotes _ Hq).
Qed.

Lemma FetchHistoricalData_nil_iff_error (BaseUrl : string) (Local : Z -> Z) (t : Ticker.t)
    (Get : string -> Values -> exchange YahooHistoryResponse.t)
    (rangeParam interval period1 period2 : string) :
  exists (m : option (gmap string PriceData.t)) (err : option error),
    FetchHistoricalData BaseUrl Local Get t rangeParam interval period1 period2 =
      Returns (m, err) /\
    (m = None <-> err <> None).
Proof.
  unfold FetchHistoricalData.
  destruct (Get _ _) as [e|e|e|history]; cbn [Decode];
    try (eexists _, _; split; [reflexivity | split; [discriminate | reflexivity]]).
  destruct (YahooHistoryResponse.Result (YahooHistoryResponse.Chart history)) eqn:Hres;
    [eexists _, _; split; [reflexivity | split; [discriminate | reflexivity]] |].
  match goal with
  | |- context [transformHistoricalData Local history ?i] =>
      destruct (transformHistoricalData_returns Local history i) as [d Hd]; rewrite Hd
  end.
  exists (Some d), None. split; [reflexivity |]. split; [discriminate | congruence].
Qed.

Section MoreEntryPointProperties.
Variable BaseUrl : string.
Variable unmarshalNews : string -> list NewsItem.t + error.
Variable unmarshalResultNews : string -> list NewsItem.t + error.

(** X6. None of the fifteen entry points returns data together with an
    error: whenever the error is not nil the value is the zero value of
    its type (a nil map, a nil slice, 0, false), whatever the transport
    and the decoder hand back. *)
Theorem error_comes_with_zero_value (t : Ticker.t) :
  (forall Get, snd (FetchInformation BaseUrl Get t) <> None ->
               fst (FetchInformation BaseUrl Get t) = YahooTickerInfo.zero) /\
  (forall Get, snd (FetchPriceValue BaseUrl Get t) <> None ->
               fst (FetchPriceValue BaseUrl Get t) = PriceValue.zero) /\
  (forall Local Get rangeParam interval period1 period2,
     exists (m : option (gmap string PriceData.t)) (err : option error),
       FetchHistoricalData BaseUrl Local Get t rangeParam interval period1 period2 =
         Returns (m, err) /\
       (err <> None -> m = None)) /\
  (forall Get, snd (FetchFinancialData BaseUrl Get t) <> None ->
               fst (FetchFinancialData BaseUrl Get t) = FinancialData.zero) /\
  (forall Get, snd (FetchFinancialRatios BaseUrl Get t) <> None ->
               fst (FetchFinancialRatios BaseUrl Get t) = FinancialRatios.zero) /\
  (forall Get, snd (FetchKeyStatistics BaseUrl Get t) <> None ->
               fst (FetchKeyStatistics BaseUrl Get t) = FinancialSummary.zero) /\
  (forall Get, snd (FetchIncomeStatement BaseUrl Get t) <> None ->
               fst (FetchIncomeStatement BaseUrl Get t) = IncomeStatement.zero) /\
  (forall Get, snd (FetchBalanceSheet BaseUrl Get t) <> None ->
               fst (FetchBalanceSheet BaseUrl Get t) = BalanceSheet.zero) /\
  (forall Get, snd (FetchCashFlow BaseUrl Get t) <> None ->
               fst (FetchCashFlow BaseUrl Get t) = CashFlow.zero) /\
  (forall Get, snd (FetchDividendInfo BaseUrl Get t) <> None ->
               fst (FetchDividendInfo BaseUrl Get t) = DividendInfo.zero) /\
  (forall Get, snd (FetchCurrentDividendYield BaseUrl Get t) <> None ->
               fst (FetchCurrentDividendYield BaseUrl Get t) = 0%float) /\
  (forall Get, snd (FetchDividendRate BaseUrl Get t) <> None ->
               fst (FetchDividendRate BaseUrl Get t) = 0%float) /\
  (forall Get, snd (IsDividendPaying BaseUrl Get t) <> None ->
               fst (IsDividendPaying BaseUrl Get t) = false) /\
  (forall Get count start,
     snd (FetchNews BaseUrl unmarshalNews unmarshalResultNews Get t count start) <> None ->
     fst (FetchNews BaseUrl unmarshalNews unmarshalResultNews Get t count start) = []) /\
  (forall Get, snd (FetchNewsAlternative BaseUrl Get t) <> None ->
               fst (FetchNewsAlternative BaseUrl Get t) = []).
Proof.
  repeat apply conj; try intros Get.
  - unfold FetchInformation. destruct (Get _ _) as [e|e|e|resp]; cbn; try done.
    destruct (YahooInfoResponse.Result _); cbn; done.
  - unfold FetchPriceValue. destruct (FetchInformation BaseUrl Get t) as [info [e|]]; [done |].
    destruct (YahooTickerInfo.RegularMarketPrice info); cbn; done.
  - rename Get into Local. intros Get rangeParam interval period1 period2.
    destruct (FetchHistoricalData_nil_iff_error BaseUrl Local t Get rangeParam interval
                period1 period2) as (m & err & HF & Hiff).
    exists m, err. split; [exact HF | apply Hiff].
  - unfold FetchFinancialData. destruct (Get _ _) as [e|e|e|resp]; cbn; try done.
    destruct (YahooFinancialResponse.Result _); cbn; done.
  - unfold FetchFinancialRatios. destruct (Get _ _) as [e|e|e|resp]; cbn; try done.
    destruct (YahooFinancialResponse.Result _); cbn; done.
  - unfold FetchKeyStatistics. destruct (Get _ _) as [e|e|e|resp]; cbn; try done.
    destruct (YahooFinancialResponse.Result _); cbn; done.
  - unfold FetchIncomeStatement. destruct (Get _ _) as [e|e|e|resp]; cbn; try done.
    destruct (YahooFinancialResponse.Result _); cbn; done.
  - unfold FetchBalanceSheet. destruct (Get _ _) as [e|e|e|resp]; cbn; try done.
    destruct (YahooFinancialResponse.Result _); cbn; done.
  - unfold FetchCashFlow. destruct (Get _ _) as [e|e|e|resp]; cbn; try done.
    destruct (YahooFinancialResponse.Result _); cbn; done.
  - unfold FetchDividendInfo. destruct (Get _ _) as [e|e|e|resp]; cbn; try done.
    destruct (DividendResponse.Result _); cbn; done.
  - unfold FetchCurrentDividendYield.
    destruct (FetchDividendInfo BaseUrl Get t) as [info [e|]]; [done |].
    destruct (DividendInfo.DividendYield info); cbn; done.
  - unfold FetchDividendRate.
    destruct (FetchDividendInfo BaseUrl Get t) as [info [e|]]; [done |].
    destruct (DividendInfo.DividendRate info); cbn; done.
  - unfold IsDividendPaying.
    destruct (FetchDividendInfo BaseUrl Get t) as [info [e|]]; cbn; done.
  - intros count start. unfold FetchNews. destruct (Get _ _) as [e|e|body]; cbn; try done.
    destruct (unmarshalNews body); cbn; [done |].
    destruct (unmarshalResultNews body); cbn; done.
  - unfold FetchNewsAlternative. destruct (Get _ _); cbn; done.
Qed.

End MoreEntryPointProperties.

Lemma error_comes_with_zero_value_witness :
  fst (FetchBalanceSheet query2 (decodesTo emptyFinancial) ZZZZ) = BalanceSheet.zero /\
  fst (FetchDividendRate query2 (getFails "dial tcp: i/o timeout") ZZZZ) = 0%float /\
  (exists m err,
     FetchHistoricalData query2 time.UTC (getFails "dial tcp: i/o timeout") ZZZZ
       "1y" "1d" EmptyString EmptyString = Returns (m, err) /\
     (err <> None -> m = None)).
Proof.
  destruct (error_comes_with_zero_value query2 (fun _ => inl []) (fun _ => inl []) ZZZZ)
    as (_ & _ & Hhistory & _ & _ & _ & _ & Hbalance & _ & _ & _ & Hrate & _).
  split; [apply Hbalance; discriminate |]. split; [apply Hrate; discriminate |].
  exact (Hhistory time.UTC (getFails "dial tcp: i/o timeout") "1y" "1d" EmptyString
           EmptyString).
Defined.

Lemma extractDividendInfo_DividendRate (result : DividendResult.t) :
  DividendInfo.DividendRate (extractDividendInfo result) =
  orElse (DividendResult.SummaryDetail result ≫= DividendSummaryDetail.DividendRate)
         (DividendResult.DefaultKeyStatistics result ≫= DividendKeyStatistics.DividendRate).
Proof.
  destruct result as [[[rate yield ex date payout five]|] [[]|] [[[|[] ?]]|]];
    try destruct rate; try destruct yield; try destruct payout; try destruct five;
    cbv; reflexivity.
Qed.

Lemma extractDividendInfo_DividendYield (result : DividendResult.t) :
  DividendInfo.DividendYield (extractDividendInfo result) =
  orElse (DividendResult.SummaryDetail result ≫= DividendSummaryDetail.DividendYield)
         (DividendResult.DefaultKeyStatistics result ≫= DividendKeyStatistics.DividendYield).
Proof.
  destruct result as [[[rate yield ex date payout five]|] [[]|] [[[|[] ?]]|]];
    try destruct rate; try destruct yield; try destruct payout; try destruct five;
    cbv; reflexivity.
Qed.

(** X7. The accessors built on [FetchInformation] and
    [FetchDividendInfo] hand the error of the underlying fetch on
    unchanged, so a transport failure reaches the caller verbatim through
    two levels. *)
Theorem accessors_pass_errors_on (BaseUrl : string) (t : Ticker.t) (err : error) :
  (forall Get, snd (FetchInformation BaseUrl Get t) = Some err ->
     FetchPriceValue BaseUrl Get t = (PriceValue.zero, Some err)) /\
  (forall Get, snd (FetchDividendInfo BaseUrl Get t) = Some err ->
     FetchCurrentDividendYield BaseUrl Get t = (0%float, Some err) /\
     FetchDividendRate BaseUrl Get t = (0%float, Some err) /\
     IsDividendPaying BaseUrl Get t = (false, Some err)) /\
  FetchPriceValue BaseUrl (getFails err) t = (PriceValue.zero, Some err) /\
  FetchCurrentDividendYield BaseUrl (getFails err) t = (0%float, Some err) /\
  FetchDividendRate BaseUrl (getFails err) t = (0%float, Some err) /\
  IsDividendPaying BaseUrl (getFails err) t = (false, Some err).
Proof.
  split; [| split; [| repeat split; reflexivity]].
  - intros Get H. unfold FetchPriceValue.
    destruct (FetchInformation BaseUrl Get t) as [info e]. cbn in H. subst e. reflexivity.
  - intros Get H. unfold FetchCurrentDividendYield, FetchDividendRate, IsDividendPaying.
    destruct (FetchDividendInfo BaseUrl Get t) as [info e]. cbn in H. subst e.
    repeat split; reflexivity.
Qed.

Lemma accessors_pass_errors_on_witness :
  FetchPriceValue query2 (decodesTo emptyInfo) ZZZZ =
    (PriceValue.zero, Some "no info found for symbol: ZZZZ") /\
  IsDividendPaying query2 (decodesTo emptyDividends) ZZZZ =
    (false, Some "no dividend info found for symbol: ZZZZ").
Proof.
  destruct (accessors_pass_errors_on query2 ZZZZ "no info found for symbol: ZZZZ")
    as (Hprice & _).
  destruct (accessors_pass_errors_on query2 ZZZZ "no dividend info found for symbol: ZZZZ")
    as (_ & Hdiv & _).
  split; [apply Hprice; reflexivity | apply Hdiv; reflexivity].
Defined.

(** X8. [FetchPriceValue], on a response whose result array is not
    empty, returns the whole regular market price of the first result
    when it is there, and the error "regular market price not available
    for symbol: ..." with the zero value when it is absent. *)
Theorem FetchPriceValue_absent_or_price (BaseUrl : string) (t : Ticker.t)
    (response : YahooInfoResponse.t) (first : YahooInfoResponse.result)
    (rest : list YahooInfoResponse.result) :
  YahooInfoResponse.Result (YahooInfoResponse.QuoteSummary response) = first :: rest ->
  FetchPriceValue BaseUrl (decodesTo response) t =
  match YahooTickerInfo.RegularMarketPrice (YahooInfoResponse.Price first) with
  | Some price => (price, None)
  | None => (PriceValue.zero,
             Some ("regular market price not available for symbol: " +:+ Ticker.Symbol t))
  end.
Proof.
  intros H. unfold FetchPriceValue, FetchInformation, decodesTo. rewrite H.
  destruct (YahooTickerInfo.RegularMarketPrice (YahooInfoResponse.Price first)); reflexivity.
Qed.

Lemma FetchPriceValue_absent_or_price_witness :
  FetchPriceValue query2 (decodesTo priced) ZZZZ =
    (PriceValue.mk 189.5 "189.50" EmptyString, None) /\
  FetchPriceValue query2 (decodesTo unpriced) ZZZZ =
    (PriceValue.zero, Some "regular market price not available for symbol: ZZZZ").
Proof.
  split.
  - apply (FetchPriceValue_absent_or_price query2 ZZZZ priced
             (YahooInfoResponse.mkResult pricedInfo) [] eq_refl).
  - apply (FetchPriceValue_absent_or_price query2 ZZZZ unpriced
             (YahooInfoResponse.mkResult YahooTickerInfo.zero) [] eq_refl).
Defined.

(** X9. End to end, the three dividend accessors read the first result
    of the response with [summaryDetail] before [defaultKeyStatistics]:
    the rate and the yield returned are those of [summaryDetail] when it
    carries them, else those of [defaultKeyStatistics], and the "not
    available" error comes only when both lack the field. *)
Theorem dividend_accessors_end_to_end (BaseUrl : string) (t : Ticker.t)
    (response : DividendResponse.t) (result : DividendResult.t)
    (rest : list DividendResult.t) :
  DividendResponse.Result (DividendResponse.QuoteSummary response) = result :: rest ->
  let sd (f : DividendSummaryDetail.t -> option PriceValue.t) :=
    DividendResult.SummaryDetail result ≫= f in
  let dks (f : DividendKeyStatistics.t -> option PriceValue.t) :=
    DividendResult.DefaultKeyStatistics result ≫= f in
  let rate :=
    orElse (sd DividendSummaryDetail.DividendRate) (dks DividendKeyStatistics.DividendRate) in
  let yield :=
    orElse (sd DividendSummaryDetail.DividendYield) (dks DividendKeyStatistics.DividendYield) in
  FetchDividendRate BaseUrl (decodesTo response) t =
    match rate with
    | Some v => (PriceValue.Raw v, None)
    | None => (0%float, Some ("dividend rate not available for symbol: " +:+ Ticker.Symbol t))
    end /\
  FetchCurrentDividendYield BaseUrl (decodesTo response) t =
    match yield with
    | Some v => (PriceValue.Raw v, None)
    | None => (0%float, Some ("dividend yield not available for symbol: " +:+ Ticker.Symbol t))
    end /\
  IsDividendPaying BaseUrl (decodesTo response) t =
    (match rate with
     | Some v => PrimFloat.ltb 0%float (PriceValue.Raw v)
     | None => false
     end, None).
Proof.
  intros H sd dks rate yield.
  unfold FetchDividendRate, FetchCurrentDividendYield, IsDividendPaying,
    FetchDividendInfo, decodesTo. cbn [Decode]. rewrite H.
  rewrite extractDividendInfo_DividendRate, extractDividendInfo_DividendYield.
  subst rate yield sd dks. cbv beta.
  destruct (orElse (DividendResult.SummaryDetail result ≫= DividendSummaryDetail.DividendRate) _),
    (orElse (DividendResult.SummaryDetail result ≫= DividendSummaryDetail.DividendYield) _);
    repeat split; reflexivity.
Qed.

Lemma dividend_accessors_end_to_end_witness :
  FetchDividendRate query2 (decodesTo yieldInKeyStatistics) ZZZZ = (0.75%float, None) /\
  FetchCurrentDividendYield query2 (decodesTo yieldInKeyStatistics) ZZZZ = (0.015625%float, None) /\
  IsDividendPaying query2 (decodesTo yieldInKeyStatistics) ZZZZ = (true, None).
Proof.
  exact (dividend_accessors_end_to_end query2 ZZZZ yieldInKeyStatistics _ [] eq_refl).
Defined.

(** ** Historical data and news: defaults *)

(** X10. Once the client's [Get] has returned, [FetchHistoricalData]
    returns as well (the transform never panics), and its map is nil
    exactly when its error is not.  With a result array that is not
    empty it returns the transform of the response under the interval
    asked for, and under "1d" when none was given.  Its one request goes
    to the chart endpoint of the symbol with the range (default "1y"),
    the interval (default "1d") and the two periods that are not
    empty. *)
Theorem FetchHistoricalData_returns (BaseUrl : string) (Local : Z -> Z) (t : Ticker.t) :
  (forall Get rangeParam interval period1 period2,
     exists (m : option (gmap string PriceData.t)) (err : option error),
       FetchHistoricalData BaseUrl Local Get t rangeParam interval period1 period2 =
         Returns (m, err) /\
       (m = None <-> err <> None)) /\
  (forall history result results rangeParam interval period1 period2,
     YahooHistoryResponse.Result (YahooHistoryResponse.Chart history) = result :: results ->
     exists d,
       transformHistoricalData Local history
         (if String.eqb interval EmptyString then "1d" else interval) = Returns d /\
       FetchHistoricalData BaseUrl Local (decodesTo history) t rangeParam interval
         period1 period2 = Returns (Some d, None)) /\
  (forall Get rangeParam interval period1 period2,
     FetchHistoricalData BaseUrl Local Get t rangeParam interval period1 period2 =
     FetchHistoricalData BaseUrl Local
       (fun _ _ =>
          Get (BaseUrl +:+ "/v8/finance/chart/" +:+ Ticker.Symbol t)
            ([("range", if String.eqb rangeParam EmptyString then "1y" else rangeParam);
              ("interval", if String.eqb interval EmptyString then "1d" else interval)] ++
             (if String.eqb period1 EmptyString then [] else [("period1", period1)]) ++
             (if String.eqb period2 EmptyString then [] else [("period2", period2)]))%list)
       t rangeParam interval period1 period2).
Proof.
  split; [| split].
  - intros Get rangeParam interval period1 period2.
    apply FetchHistoricalData_nil_iff_error.
  - intros history result results rangeParam interval period1 period2 Hres.
    destruct (transformHistoricalData_returns Local history
                (if String.eqb interval EmptyString then "1d" else interval)) as [d Hd].
    exists d. split; [exact Hd |].
    unfold FetchHistoricalData, decodesTo. cbn [Decode]. rewrite Hres, Hd.
    reflexivity.
  - intros Get rangeParam interval period1 period2. unfold FetchHistoricalData, Add.
    destruct (String.eqb period1 EmptyString), (String.eqb period2 EmptyString);
      cbn [negb app]; reflexivity.
Qed.

Lemma FetchHistoricalData_returns_witness :
  FetchHistoricalData query2 time.UTC (decodesTo shortVolume) ZZZZ "1mo" "1h"
    EmptyString EmptyString = Returns (Some {[ "2023-11-14 22:13:20" := firstBar ]}, None) /\
  FetchHistoricalData query2 time.UTC (decodesTo shortVolume) ZZZZ "1mo" EmptyString
    EmptyString EmptyString = Returns (Some {[ "2023-11-14" := firstBar ]}, None).
Proof.
  destruct (FetchHistoricalData_returns query2 time.UTC ZZZZ) as (_ & H & _).
  split.
  - destruct (H shortVolume shortVolumeResult [] "1mo" "1h" EmptyString EmptyString eq_refl)
      as (d & Hd & HF).
    assert (transformHistoricalData time.UTC shortVolume "1h" =
            Returns {[ "2023-11-14 22:13:20" := firstBar ]}) as E by (vm_compute; reflexivity).
    cbn [String.eqb Ascii.eqb] in Hd. rewrite E in Hd. injection Hd as <-. exact HF.
  - destruct (H shortVolume shortVolumeResult [] "1mo" EmptyString EmptyString EmptyString
                eq_refl) as (d & Hd & HF).
    assert (transformHistoricalData time.UTC shortVolume "1d" =
            Returns {[ "2023-11-14" := firstBar ]}) as E by (vm_compute; reflexivity).
    cbn [String.eqb] in Hd. rewrite E in Hd. injection Hd as <-. exact HF.
Defined.

Lemma SetDefault_eq (q : Query.t) :
  Query.SetDefault q =
  Query.mk (if String.eqb (Query.Range q) EmptyString then "1y" else Query.Range q)
           (if String.eqb (Query.Interval q) EmptyString then "1d" else Query.Interval q)
           (Query.Start q) (Query.End_ q).
Proof.
  destruct q as [range interval start end_]. unfold Query.SetDefault. cbn.
  destruct (String.eqb interval EmptyString); cbn;
    destruct (String.eqb range EmptyString); reflexivity.
Qed.

(** X11. [Query.SetDefault] fills an empty interval with "1d" and an
    empty range with "1y", leaves every field that is set as it is, and
    doing it twice is doing it once; [FetchHistoricalData] applies the
    same defaults, so calling it on the fields of a query gives the same
    as calling it after [SetDefault]. *)
Theorem SetDefault_defaults (q : Query.t) :
  Query.SetDefault (Query.SetDefault q) = Query.SetDefault q /\
  Query.Interval (Query.SetDefault q) <> EmptyString /\
  Query.Range (Query.SetDefault q) <> EmptyString /\
  (Query.Interval q <> EmptyString ->
   Query.Interval (Query.SetDefault q) = Query.Interval q) /\
  (Query.Range q <> EmptyString -> Query.Range (Query.SetDefault q) = Query.Range q) /\
  Query.Start (Query.SetDefault q) = Query.Start q /\
  Query.End_ (Query.SetDefault q) = Query.End_ q /\
  (forall BaseUrl Local Get t,
     FetchHistoricalData BaseUrl Local Get t (Query.Range q) (Query.Interval q)
       (Query.Start q) (Query.End_ q) =
     FetchHistoricalData BaseUrl Local Get t (Query.Range (Query.SetDefault q))
       (Query.Interval (Query.SetDefault q)) (Query.Start q) (Query.End_ q)).
Proof.
  rewrite !SetDefault_eq. destruct q as [range interval start end_].
  cbn [Query.Range Query.Interval Query.Start Query.End_].
  destruct (String.eqb_spec interval EmptyString) as [-> | Hi];
    destruct (String.eqb_spec range EmptyString) as [-> | Hr];
    cbn [String.eqb];
    rewrite ?(proj2 (String.eqb_neq _ _) Hi), ?(proj2 (String.eqb_neq _ _) Hr);
    repeat split; try done; intros; unfold FetchHistoricalData; cbn [String.eqb];
    rewrite ?(proj2 (String.eqb_neq _ _) Hi), ?(proj2 (String.eqb_neq _ _) Hr);
    reflexivity.
Qed.

Lemma SetDefault_defaults_witness :
  Query.SetDefault blankQuery = Query.mk "1y" "1d" "1700000000" EmptyString /\
  Query.Interval (Query.SetDefault (Query.mk "5d" "5m" EmptyString EmptyString)) = "5m".
Proof.
  split; [reflexivity |].
  destruct (SetDefault_defaults (Query.mk "5d" "5m" EmptyString EmptyString))
    as (_ & _ & _ & H & _).
  apply H. discriminate.
Defined.

(** X12. [FetchNews] replaces a count that is not positive by 10 and a
    negative start by 0 before it builds the request, so its one request
    then carries count=10 and start=0; of the two decodings of the body
    the first that succeeds gives the articles, and when both fail the
    error reported is the second one's. *)
Theorem FetchNews_defaults_and_fallback (BaseUrl : string)
    (unmarshalNews unmarshalResultNews : string -> list NewsItem.t + error)
    (t : Ticker.t) :
  (forall Get count start,
     FetchNews BaseUrl unmarshalNews unmarshalResultNews Get t count start =
     FetchNews BaseUrl unmarshalNews unmarshalResultNews Get t
       (if count <=? 0 then 10 else count) (if start <? 0 then 0 else start)) /\
  (forall Get count start, count <= 0 -> start < 0 ->
     FetchNews BaseUrl unmarshalNews unmarshalResultNews Get t count start =
     FetchNews BaseUrl unmarshalNews unmarshalResultNews
       (fun _ _ => Get (BaseUrl +:+ "/v1/finance/search")
                     [("symbols", Ticker.Symbol t); ("count", "10"); ("start", "0");
                      ("region", "US"); ("lang", "en-US")])
       t count start) /\
  (forall bytes count start news,
     unmarshalNews bytes = inl news ->
     FetchNews BaseUrl unmarshalNews unmarshalResultNews (bodyIs bytes) t count start =
       (news, None)) /\
  (forall bytes count start first news,
     unmarshalNews bytes = inr first -> unmarshalResultNews bytes = inl news ->
     FetchNews BaseUrl unmarshalNews unmarshalResultNews (bodyIs bytes) t count start =
       (news, None)) /\
  (forall bytes count start first second,
     unmarshalNews bytes = inr first -> unmarshalResultNews bytes = inr second ->
     FetchNews BaseUrl unmarshalNews unmarshalResultNews (bodyIs bytes) t count start =
       ([], Some ("failed to decode news JSON response: " +:+ second))).
Proof.
  repeat split.
  - intros Get count start. unfold FetchNews.
    destruct (Z.leb_spec count 0) as [Hc | Hc]; destruct (Z.ltb_spec start 0) as [Hs | Hs];
      cbn [Z.leb Z.ltb Z.compare];
      rewrite ?(proj2 (Z.leb_gt _ _) Hc), ?(proj2 (Z.ltb_ge _ _) Hs); reflexivity.
  - intros Get count start Hc Hs. unfold FetchNews.
    rewrite (proj2 (Z.leb_le _ _) Hc), (proj2 (Z.ltb_lt _ _) Hs). reflexivity.
  - intros bytes count start news H. unfold FetchNews, bodyIs. rewrite H. reflexivity.
  - intros bytes count start first news H1 H2. unfold FetchNews, bodyIs.
    rewrite H1, H2. reflexivity.
  - intros bytes count start first second H1 H2. unfold FetchNews, bodyIs.
    rewrite H1, H2. reflexivity.
Qed.

Lemma FetchNews_defaults_and_fallback_witness :
  FetchNews query2 rejects findsArticle (bodyIs "{}") ZZZZ (-3) (-1) = ([article], None).
Proof.
  destruct (FetchNews_defaults_and_fallback query2 rejects findsArticle ZZZZ)
    as (_ & _ & _ & H & _).
  apply (H "{}" (-3) (-1) "json: cannot unmarshal object into Go struct field .news" [article]);
    reflexivity.
Defined.

(** ** The client: calls that do not overlap *)

Example Encode_sorts :
  Encode [("range", "1y"); ("interval", "1d"); ("crumb", "c-1"); ("interval", "1wk")] =
  [("crumb", "c-1"); ("interval", "1d"); ("interval", "1wk"); ("range", "1y")].
Proof. vm_compute. reflexivity. Qed.

Lemma elem_of_insertKey (k k' : string) (keys : list string) :
  k' ∈ insertKey k keys <-> k' = k \/ k' ∈ keys.
Proof.
  induction keys as [|k0 keys IH]; cbn [insertKey].
  - rewrite list_elem_of_singleton, elem_of_nil. tauto.
  - destruct (String.compare k k0) eqn:Hcmp.
    + apply String.compare_eq_iff in Hcmp. subst k0. rewrite elem_of_cons. tauto.
    + rewrite !elem_of_cons. tauto.
    + rewrite !elem_of_cons, IH. tauto.
Qed.

Lemma elem_of_sortedKeys (v : Values) (k : string) : k ∈ sortedKeys v <-> k ∈ v.*1.
Proof.
  unfold sortedKeys. induction v as [|kv v IH]; cbn [fmap list_fmap foldr]; [reflexivity |].
  rewrite elem_of_insertKey, elem_of_cons, IH. reflexivity.
Qed.

(** [Encode] keeps every entry and adds none. *)
Lemma elem_of_Encode (v : Values) (kv : string * string) : kv ∈ Encode v <-> kv ∈ v.
Proof.
  unfold Encode. rewrite list_elem_of_bind. split.
  - intros (k & Hkv & _). apply list_elem_of_filter in Hkv. apply Hkv.
  - intros Hkv. exists kv.1. split.
    + apply list_elem_of_filter. split; [reflexivity | exact Hkv].
    + apply elem_of_sortedKeys, list_elem_of_fmap. exists kv. split; [reflexivity | exact Hkv].
Qed.


Section ClientProperties.
Variable BaseUrl : string.
Variable NewRequest : string -> Values -> option error.
Variable server : Session.Server.

(** [get] with a map that is not nil returns. *)
Lemma get_Some (s : Session.State) (w : Session.purpose) (url : string) (params : Values) :
  Client.get NewRequest server s w url (Some params) =
  Returns
    (match NewRequest url
             (Encode (if negb (String.eqb (Session.crumb (Session.instance s)) EmptyString)
                      then Add "crumb" (Session.crumb (Session.instance s)) params
                      else params)) with
     | Some err => (s, Session.DoFailed err)
     | None =>
         Session.doRequest server s
           (Session.mkRequest w url
              (Encode (if negb (String.eqb (Session.crumb (Session.instance s)) EmptyString)
                       then Add "crumb" (Session.crumb (Session.instance s)) params
                       else params))
              (Session.cookies (Session.instance s)))
     end).
Proof.
  unfold Client.get.
  destruct (negb (String.eqb (Session.crumb (Session.instance s)) EmptyString));
    cbn [mbind outcome_bind default]; destruct (NewRequest url _); reflexivity.
Qed.

(** What [get] leaves behind: the request on the wire if it could be
    built, and nothing else. *)
Lemma get_state (s : Session.State) (w : Session.purpose) (url : string) (params : Values) :
  exists resp,
    Client.get NewRequest server s w url (Some params) =
    Returns
      (Session.mkState (Session.onceDone s) (Session.instance s)
         (Session.wire s ++
          filter (built NewRequest)
            [Session.mkRequest w url
               (Encode (if negb (String.eqb (Session.crumb (Session.instance s)) EmptyString)
                        then Add "crumb" (Session.crumb (Session.instance s)) params
                        else params))
               (Session.cookies (Session.instance s))])%list
         (Session.threads s),
       resp).
Proof.
  rewrite get_Some, filter_cons, filter_nil.
  match goal with
  | |- context [decide (built NewRequest ?r)] =>
      destruct (decide (built NewRequest r)) as [Hnew | Hnew]; unfold built in Hnew;
      cbn [Session.url Session.params] in Hnew
  end.
  - rewrite Hnew. eexists. reflexivity.
  - destruct (NewRequest url _) as [err|]; [| contradiction].
    eexists. rewrite app_nil_r. destruct s; reflexivity.
Qed.

(** With a crumb in hand, [Get] does nothing but build the caller's
    request, signed with the crumb and the cookies held, and send it if
    it could be built. *)
Lemma Get_warm (s : Session.State) (url : string) (params : Values) :
  Session.crumb (Session.instance s) <> EmptyString ->
  Client.Get BaseUrl NewRequest server s url (Some params) =
  Returns
    match NewRequest url
            (Encode (Add "crumb" (Session.crumb (Session.instance s)) params)) with
    | Some err => (s, Session.DoFailed err)
    | None =>
        (Session.mkState (Session.onceDone s) (Session.instance s)
           (Session.wire s ++ [signed (Session.instance s) (url, params)])%list
           (Session.threads s),
         server (Session.wire s) (signed (Session.instance s) (url, params)))
    end.
Proof.
  intros Hc. apply String.eqb_neq in Hc.
  unfold Client.Get, Client.getCrumb. rewrite Hc. cbn [negb mbind outcome_bind].
  rewrite get_Some, Hc. cbn [negb]. reflexivity.
Qed.

Lemma Gets_signed (calls : list (string * Values)) :
  forall s : Session.State,
  Session.crumb (Session.instance s) <> EmptyString ->
  Client.Gets BaseUrl NewRequest server s calls =
  Returns
    (Session.mkState (Session.onceDone s) (Session.instance s)
       (Session.wire s ++
        filter (built NewRequest) (signed (Session.instance s) <$> calls))%list
       (Session.threads s)).
Proof.
  induction calls as [|[url params] calls IH]; intros s Hc.
  - cbn. rewrite app_nil_r. destruct s; reflexivity.
  - cbn [Client.Gets fst snd]. rewrite (Get_warm s url params Hc).
    rewrite fmap_cons, filter_cons.
    destruct (decide (built NewRequest (signed (Session.instance s) (url, params))))
      as [Hnew | Hnew]; unfold built in Hnew;
      cbn [signed Session.url Session.params fst snd] in Hnew.
    + rewrite Hnew. cbn [mbind outcome_bind]. rewrite IH by exact Hc.
      cbn [Session.onceDone Session.instance Session.wire Session.threads].
      rewrite <- app_assoc. reflexivity.
    + destruct (NewRequest url _) as [err|]; [| contradiction].
      cbn [mbind outcome_bind]. apply IH, Hc.
Qed.

(** Requests of callers are no cookie or crumb requests. *)
Lemma fetches_signed (w : Session.purpose) (c : Session.Client)
    (calls : list (string * Values)) :
  w <> Session.DataFetch ->
  filter (fun r => Session.what r = w) (filter (built NewRequest) (signed c <$> calls)) = [].
Proof.
  intros Hw. induction calls as [|call calls IH]; [reflexivity |].
  rewrite fmap_cons, filter_cons. destruct (decide _); [| exact IH].
  rewrite filter_cons, IH. cbn [signed Session.what]. rewrite decide_False by congruence.
  reflexivity.
Qed.

(** X13. Once the client holds a crumb, any number of calls of [Get]
    with maps that are not nil, one after the other, send no cookie
    request and no crumb request and leave the client's cookies and
    crumb as they were, whatever the server answers.  A call whose
    request [http.NewRequest] accepts sends that one request, which
    carries the caller's parameters and the crumb, in the order of
    [Encode], and the cookies held; a call whose request it rejects
    sends nothing and returns that error.  A call with a nil map
    panics. *)
Theorem Gets_warm (calls : list (string * Values)) (s : Session.State) :
  Session.crumb (Session.instance s) <> EmptyString ->
  Client.Gets BaseUrl NewRequest server s calls =
    Returns
      (Session.mkState (Session.onceDone s) (Session.instance s)
         (Session.wire s ++
          filter (built NewRequest) (signed (Session.instance s) <$> calls))%list
         (Session.threads s)) /\
  (forall url params err,
     NewRequest url (Encode (Add "crumb" (Session.crumb (Session.instance s)) params)) =
       Some err ->
     Client.Get BaseUrl NewRequest server s url (Some params) =
       Returns (s, Session.DoFailed err)) /\
  (forall url,
     Client.Get BaseUrl NewRequest server s url None =
       Panics "assignment to entry in nil map") /\
  (forall call kv,
     kv ∈ Session.params (signed (Session.instance s) call) <->
     kv ∈ call.2 \/ kv = ("crumb", Session.crumb (Session.instance s))).
Proof.
  intros Hc. split; [apply Gets_signed, Hc |]. split; [| split].
  - intros url params err Hnew. rewrite (Get_warm s url params Hc), Hnew. reflexivity.
  - intros url. apply String.eqb_neq in Hc.
    unfold Client.Get, Client.getCrumb. rewrite Hc. cbn [negb mbind outcome_bind].
    unfold Client.get. rewrite Hc. reflexivity.
  - intros call kv. cbn [signed Session.params]. rewrite elem_of_Encode. unfold Add.
    rewrite elem_of_app, list_elem_of_singleton. reflexivity.
Qed.





(** [getCookie] on an empty jar, before there is a crumb: one cookie
    request, whatever comes of it. *)
Lemma getCookie_cold (s : Session.State) :
  NewRequest "https://fc.yahoo.com" [] = None ->
  Session.crumb (Session.instance s) = EmptyString ->
  Session.cookies (Session.instance s) = [] ->
  exists s1 r0,
    Client.getCookie NewRequest server s = Returns s1 /\
    Session.crumb (Session.instance s1) = EmptyString /\
    Session.what r0 = Session.CookieFetch /\
    Session.wire s1 = (Session.wire s ++ [r0])%list.
Proof.
  intros Hcookieurl Hc Hk. unfold Client.getCookie. rewrite Hk. cbn [length Nat.ltb Nat.leb].
  rewrite get_Some, Hc. cbn [String.eqb negb].
  change (Encode []) with ([] : Values). rewrite Hcookieurl.
  cbn [Session.doRequest mbind outcome_bind].
  destruct (server _ _) as [e | cs b]; eexists _, _; (split; [reflexivity |]);
    cbn [Session.setCookies Session.instance Session.crumb Session.wire];
    (split; [exact Hc |]); (split; [| reflexivity]); reflexivity.
Qed.

(** [getCrumb] on a client without cookies and crumb, against a crumb
    endpoint that answers with a crumb. *)
Lemma getCrumb_first_use (body : string) (s : Session.State) :
  issues body server ->
  NewRequest "https://fc.yahoo.com" [] = None ->
  NewRequest (BaseUrl +:+ "/v1/test/getcrumb") [] = None ->
  Session.crumb (Session.instance s) = EmptyString ->
  Session.cookies (Session.instance s) = [] ->
  exists s' r0 r1,
    Client.getCrumb BaseUrl NewRequest server s = Returns s' /\
    Session.crumb (Session.instance s') = body /\
    Session.what r0 = Session.CookieFetch /\ Session.what r1 = Session.CrumbFetch /\
    Session.wire s' = (Session.wire s ++ [r0; r1])%list.
Proof.
  intros Hserver Hcookieurl Hcrumburl Hc Hk. unfold Client.getCrumb.
  rewrite Hc. cbn [String.eqb negb].
  destruct (getCookie_cold s Hcookieurl Hc Hk) as (s1 & r0 & -> & Hc1 & Hr0 & Hwire1).
  cbn [mbind outcome_bind].
  rewrite get_Some, Hc1. cbn [String.eqb negb].
  change (Encode []) with ([] : Values). rewrite Hcrumburl.
  cbn [Session.doRequest mbind outcome_bind].
  set (r1 := Session.mkRequest Session.CrumbFetch (BaseUrl +:+ "/v1/test/getcrumb") []
               (Session.cookies (Session.instance s1))).
  destruct (Hserver (Session.wire s1) r1 eq_refl) as [cs H]. rewrite H.
  eexists _, r0, r1. split; [reflexivity |].
  cbn [Session.setCrumb Session.instance Session.crumb Session.cookies Session.wire].
  split; [reflexivity |]. split; [exact Hr0 |]. split; [reflexivity |].
  rewrite Hwire1, <- app_assoc. reflexivity.
Qed.

(** The first call on a client without cookies and crumb, against a
    crumb endpoint that answers with a crumb. *)
Lemma Get_first_use (body : string) (s : Session.State) (url : string) (params : Values) :
  issues body server -> body <> EmptyString ->
  NewRequest "https://fc.yahoo.com" [] = None ->
  NewRequest (BaseUrl +:+ "/v1/test/getcrumb") [] = None ->
  Session.crumb (Session.instance s) = EmptyString ->
  Session.cookies (Session.instance s) = [] ->
  exists s' resp r0 r1,
    Client.Get BaseUrl NewRequest server s url (Some params) = Returns (s', resp) /\
    Session.crumb (Session.instance s') = body /\
    Session.what r0 = Session.CookieFetch /\ Session.what r1 = Session.CrumbFetch /\
    Session.wire s' =
    (Session.wire s ++ [r0; r1] ++
     filter (built NewRequest) [signed (Session.instance s') (url, params)])%list.
Proof.
  intros Hserver Hb Hcookieurl Hcrumburl Hc Hk. unfold Client.Get.
  destruct (getCrumb_first_use body s Hserver Hcookieurl Hcrumburl Hc Hk)
    as (s2 & r0 & r1 & -> & Hc2 & Hr0 & Hr1 & Hwire2).
  cbn [mbind outcome_bind].
  destruct (get_state s2 Session.DataFetch url params) as [resp ->].
  eexists _, resp, r0, r1. split; [reflexivity |].
  rewrite Hc2, (proj2 (String.eqb_neq _ _) Hb).
  cbn [negb Session.instance Session.crumb Session.wire].
  split; [exact Hc2 |]. split; [exact Hr0 |]. split; [exact Hr1 |].
  rewrite Hwire2, <- app_assoc. unfold signed. cbn [fst snd]. rewrite Hc2. reflexivity.
Qed.

(** X15. Calls that do not overlap bootstrap once: on a client without
    cookies and crumb, against a crumb endpoint that answers with a crumb
    that is not empty, and with the two fixed endpoints accepted by
    [http.NewRequest], a series of calls of [Get] sends exactly one
    cookie request and exactly one crumb request, both before anything
    else; then every call whose request [http.NewRequest] accepts sends
    it, signed with that same crumb, which is the one stored at the
    end. *)
Theorem Gets_first_use (body : string) (call : string * Values)
    (calls : list (string * Values)) (s : Session.State) :
  issues body server -> body <> EmptyString ->
  NewRequest "https://fc.yahoo.com" [] = None ->
  NewRequest (BaseUrl +:+ "/v1/test/getcrumb") [] = None ->
  Session.crumb (Session.instance s) = EmptyString ->
  Session.cookies (Session.instance s) = [] ->
  exists s',
    Client.Gets BaseUrl NewRequest server s (call :: calls) = Returns s' /\
    Session.crumb (Session.instance s') = body /\
    Session.fetches Session.CookieFetch s' = S (Session.fetches Session.CookieFetch s) /\
    Session.fetches Session.CrumbFetch s' = S (Session.fetches Session.CrumbFetch s) /\
    exists r0 r1,
      Session.what r0 = Session.CookieFetch /\ Session.what r1 = Session.CrumbFetch /\
      Session.wire s' =
      (Session.wire s ++ [r0; r1] ++
       filter (built NewRequest) (signed (Session.instance s') <$> call :: calls))%list.
Proof.
  intros Hserver Hb Hcookieurl Hcrumburl Hc Hk.
  destruct (Get_first_use body s call.1 call.2 Hserver Hb Hcookieurl Hcrumburl Hc Hk)
    as (s1 & resp & r0 & r1 & HG & Hc' & Hr0 & Hr1 & Hwire).
  assert (Session.crumb (Session.instance s1) <> EmptyString) as Hne by congruence.
  eexists. cbn [Client.Gets]. rewrite HG. cbn [mbind outcome_bind].
  split; [apply (Gets_signed calls s1 Hne) |].
  cbn [Session.instance]. split; [exact Hc' |].
  assert (Session.wire s1 ++
          filter (built NewRequest) (signed (Session.instance s1) <$> calls) =
          Session.wire s ++ [r0; r1] ++
          filter (built NewRequest) (signed (Session.instance s1) <$> call :: calls))%list
    as Hall.
  { rewrite Hwire, <- !app_assoc. do 2 f_equal.
    rewrite fmap_cons, (filter_cons _ (signed _ call)), filter_cons, filter_nil.
    destruct call. destruct (decide _); reflexivity. }
  unfold Session.fetches. cbn [Session.wire]. rewrite Hall.
  rewrite !filter_app, !length_app, !fetches_signed by discriminate.
  rewrite !filter_cons, !filter_nil, Hr0, Hr1.
  repeat case_decide; try done. cbn [length].
  split; [lia |]. split; [lia |]. exists r0, r1. auto.
Qed.

End ClientProperties.

Lemma Gets_warm_witness :
  Client.Gets query2 (rejecting "%zz") down warm
    [("u1", [("range", "1y")]); ("%zz", []); ("u2", [])] =
  Returns
    (Session.mkState true (Session.mkClient ["A3=d"] "crumb-1")
       [Session.mkRequest Session.DataFetch "u1" [("crumb", "crumb-1"); ("range", "1y")]
          ["A3=d"];
        Session.mkRequest Session.DataFetch "u2" [("crumb", "crumb-1")] ["A3=d"]] []).
Proof.
  apply (Gets_warm query2 (rejecting "%zz") down
           [("u1", [("range", "1y")]); ("%zz", []); ("u2", [])] warm).
  discriminate.
Defined.


Lemma Gets_first_use_witness :
  exists s',
    Client.Gets query2 (rejecting "%zz") steady cold
      [("u1", []); ("%zz", []); ("u3", [])] = Returns s' /\
    Session.crumb (Session.instance s') = "crumb-1" /\
    Session.fetches Session.CookieFetch s' = 1%nat /\
    Session.fetches Session.CrumbFetch s' = 1%nat.
Proof.
  assert (issues "crumb-1" steady) as Hsteady by (intros seen r _; eexists; reflexivity).
  destruct (Gets_first_use query2 (rejecting "%zz") steady "crumb-1" ("u1", [])
              [("%zz", []); ("u3", [])] cold Hsteady ltac:(discriminate) eq_refl eq_refl
              eq_refl eq_refl) as (s' & HG & Hc & Hcookie & Hcrumb & _).
  exists s'. auto.
Defined.

(** ** The client: any schedule *)

Section ScheduleProperties.
Variable BaseUrl : string.
Variable server : Session.Server.

(** Relate the counts after thread [i] moved to those before. *)
Ltac counts_after Hcookie Hcrumb Hi :=
  match goal with
  | |- context [<[_ := ?new]> _] =>
      specialize (Hcookie new Hi); specialize (Hcrumb new Hi);
      unfold Session.fetches;
      cbn in Hcookie, Hcrumb |- *;
      repeat first [rewrite filter_app | rewrite length_app];
      cbn; repeat case_decide; try done; cbn [length]; lia
  end.

(** A step sends a cookie request only for a caller that could still
    ask for one, and that caller cannot ask again; the same for the
    crumb. *)
Lemma step_bounds (s : Session.State) (i : nat) :
  let s' := Session.step BaseUrl server s i in
  length (Session.threads s') = length (Session.threads s) /\
  (Session.fetches Session.CookieFetch s' + count mayFetchCookie (Session.threads s') <=
   Session.fetches Session.CookieFetch s + count mayFetchCookie (Session.threads s))%nat /\
  (Session.fetches Session.CrumbFetch s' + count mayFetchCrumb (Session.threads s') <=
   Session.fetches Session.CrumbFetch s + count mayFetchCrumb (Session.threads s))%nat.
Proof.
  unfold Session.step.
  destruct (Session.threads s !! i) as [th|] eqn:Hi; [| cbn; lia].
  pose proof (count_insert mayFetchCookie (Session.threads s) i th) as Hcookie.
  pose proof (count_insert mayFetchCrumb (Session.threads s) i th) as Hcrumb.
  unfold Session.advance.
  destruct th as [target query p]. cbn [Session.at_ Session.target Session.query] in *.
  destruct p.
  - (* AtGetClient *)
    unfold Session.getClient. destruct (Session.onceDone s);
      cbn [Session.threads Session.wire Session.onceDone Session.instance];
      (split; [apply length_insert |]); counts_after Hcookie Hcrumb Hi.
  - (* AtCrumbCheck *)
    destruct (negb (String.eqb (Session.crumb (Session.instance s)) EmptyString));
      cbn [Session.threads Session.wire Session.onceDone Session.instance];
      (split; [apply length_insert |]); counts_after Hcookie Hcrumb Hi.
  - (* AtCookieCheck *)
    destruct (0 <? length (Session.cookies (Session.instance s)))%nat;
      cbn [Session.threads Session.wire Session.onceDone Session.instance];
      (split; [apply length_insert |]); counts_after Hcookie Hcrumb Hi.
  - (* AtCookieFetch *)
    cbn [Session.doRequest].
    destruct (server (Session.wire s) _) as [e | cs b];
      cbn [Session.threads Session.wire Session.onceDone Session.instance];
      (split; [apply length_insert |]); counts_after Hcookie Hcrumb Hi.
  - (* AtCookieStore *)
    cbn [Session.setCookies Session.threads Session.wire Session.onceDone Session.instance].
    split; [apply length_insert |]. counts_after Hcookie Hcrumb Hi.
  - (* AtCrumbFetch *)
    cbn [Session.doRequest].
    destruct (server (Session.wire s) _) as [e | cs [body|]];
      cbn [Session.threads Session.wire Session.onceDone Session.instance];
      (split; [apply length_insert |]); counts_after Hcookie Hcrumb Hi.
  - (* AtCrumbStore *)
    cbn [Session.setCrumb Session.threads Session.wire Session.onceDone Session.instance].
    split; [apply length_insert |]. counts_after Hcookie Hcrumb Hi.
  - (* AtRequest *)
    cbn [Session.doRequest Session.threads Session.wire Session.onceDone Session.instance].
    split; [apply length_insert |]. counts_after Hcookie Hcrumb Hi.
  - (* Done *)
    cbn [Session.threads Session.wire Session.onceDone Session.instance].
    split; [apply length_insert |]. counts_after Hcookie Hcrumb Hi.
Qed.

Lemma run_bounds (schedule : list nat) :
  forall s : Session.State,
  let s' := Session.run BaseUrl server schedule s in
  length (Session.threads s') = length (Session.threads s) /\
  (Session.fetches Session.CookieFetch s' + count mayFetchCookie (Session.threads s') <=
   Session.fetches Session.CookieFetch s + count mayFetchCookie (Session.threads s))%nat /\
  (Session.fetches Session.CrumbFetch s' + count mayFetchCrumb (Session.threads s') <=
   Session.fetches Session.CrumbFetch s + count mayFetchCrumb (Session.threads s))%nat.
Proof.
  induction schedule as [|i schedule IH]; intros s; cbn; [lia |].
  pose proof (step_bounds s i) as Hstep. cbv zeta in Hstep.
  pose proof (IH (Session.step BaseUrl server s i)) as Hrun. cbv zeta in Hrun.
  unfold Session.run in Hrun. lia.
Qed.

Lemma count_start (f : Session.pc -> bool) (callers : list (string * Values)) :
  f Session.AtGetClient = true ->
  count f (Session.threads (Session.start callers)) = length callers.
Proof.
  intros Hf. unfold Session.start. cbn [Session.threads].
  induction callers as [|c callers IH]; cbn; [reflexivity |].
  rewrite Hf. cbn in IH. rewrite IH. reflexivity.
Qed.

(** X16. However the callers of [Get] interleave and whatever the
    server answers, from a fresh process with [n] callers the client
    never sends more than [n] cookie requests nor more than [n] crumb
    requests: each caller asks for each at most once, and a caller that
    is past its cookie request, or its crumb request, never asks again.
    (The callers' own requests are not counted here.) *)
Theorem any_schedule_bounds (callers : list (string * Values)) (schedule : list nat) :
  let s := Session.run BaseUrl server schedule (Session.start callers) in
  length (Session.threads s) = length callers /\
  (Session.fetches Session.CookieFetch s + count mayFetchCookie (Session.threads s) <=
   length callers)%nat /\
  (Session.fetches Session.CrumbFetch s + count mayFetchCrumb (Session.threads s) <=
   length callers)%nat /\
  (Session.fetches Session.CookieFetch s <= length callers)%nat /\
  (Session.fetches Session.CrumbFetch s <= length callers)%nat.
Proof.
  pose proof (run_bounds schedule (Session.start callers)) as H. cbv zeta in H |- *.
  rewrite !count_start in H by reflexivity.
  assert (length (Session.threads (Session.start callers)) = length callers) as Hlen
    by (unfold Session.start; cbn; apply length_map).
  change (Session.fetches Session.CookieFetch (Session.start callers)) with 0%nat in H.
  change (Session.fetches Session.CrumbFetch (Session.start callers)) with 0%nat in H.
  destruct H as (H1 & H2 & H3).
  repeat split; lia.
Qed.

End ScheduleProperties.
